(** * pdf_claude_ocr: a shallow embedding of the OCR pipeline

    The development follows the three library modules of the repository:
    - [claude_ocr.py]    : class [ClaudeOCR]   (module [ClaudeOCR] below),
    - [pdf_converter.py] : class [PDFConverter] (module [PDFConverter]),
    - [file_manager.py]  : class [FileManager]  (module [FileManager]).

    Python [str] values are modelled as [string], i.e. as the sequence of
    bytes of their UTF-8 encoding.  Calls into external collaborators (the
    model API, the file system, Pillow, FPDF, ReportLab, [time.sleep], the
    user's progress callback) are modelled by outcome oracles: the embedding
    fixes what the repository's code does with each possible outcome. *)

From Stdlib Require Import ZArith Lia List Ascii String.
From Stdlib Require Import PrimFloat FloatOps SpecFloat Uint63 FloatAxioms.
From stdpp Require Import gmap strings list fin_maps sorting pretty.

Open Scope string_scope.

(** ** Python outcomes: a call either returns a value or raises

    Only instances of [Exception] are modelled; this is what the
    [except Exception] clauses of the repository catch. *)

Inductive exn_class : Type :=
| PDFInfoNotInstalledError
| PDFSyntaxError
| ValueError
| KeyError
| AttributeError
| ZeroDivisionError
| OverflowError
| FileNotFoundError
| TimeoutExpired
| OtherException (name : string).

(** An exception object: its class and [str(e)]. *)
Record exn : Type := Exn { class_of : exn_class; str : string }.

Inductive outcome (A : Type) : Type :=
| Return (a : A)
| Raise (e : exn).
Arguments Return {A} a.
Arguments Raise {A} e.

(** Statements that run against a mutable state [S]: the state changes made
    before an exception is raised stay in place, as in Python. *)
Definition Py (S A : Type) : Type := S -> outcome A * S.

Definition ret {S A : Type} (a : A) : Py S A := fun s => (Return a, s).

Definition raise {S A : Type} (e : exn) : Py S A := fun s => (Raise e, s).

Definition bind {S A B : Type} (c : Py S A) (k : A -> Py S B) : Py S B :=
  fun s => match c s with
           | (Return a, s') => k a s'
           | (Raise e, s') => (Raise e, s')
           end.

(** The instances give the statement notation [x ← c; k] and [c;; k]. *)
#[export] Instance Py_ret {S : Type} : MRet (Py S) := fun A a => ret a.
#[export] Instance Py_bind {S : Type} : MBind (Py S) := fun A B k c => bind c k.

(** [try: body  except Exception as e: handler e]. *)
Definition try_except {S A : Type} (body : Py S A) (handler : exn -> Py S A) : Py S A :=
  fun s => match body s with
           | (Return a, s') => (Return a, s')
           | (Raise e, s') => handler e s'
           end.

Definition get {S : Type} : Py S S := fun s => (Return s, s).
Definition modify {S : Type} (f : S -> S) : Py S unit := fun s => (Return tt, f s).

(** A pure computation that may raise, run as a statement. *)
Definition lift {S A : Type} (o : outcome A) : Py S A := fun s => (o, s).

(** [if c: stmt] without an [else]. *)
Definition when {S : Type} (c : bool) (stmt : Py S unit) : Py S unit :=
  if c then stmt else ret tt.

(** [for x in l: body x] (no [break] in the loops of this repository). *)
Fixpoint for_each {S A : Type} (body : A -> Py S unit) (l : list A) : Py S unit :=
  match l with
  | [] => ret tt
  | x :: l' => body x;; for_each body l'
  end.

(** [enumerate(l)], counting from [k]. *)
Fixpoint enumerate_from {A : Type} (k : nat) (l : list A) : list (nat * A) :=
  match l with
  | [] => []
  | x :: l' => (k, x) :: enumerate_from (S k) l'
  end.

Definition enumerate {A : Type} (l : list A) : list (nat * A) := enumerate_from 0 l.

(** Python numbers as passed to [time.sleep]. *)
Inductive pynum : Type :=
| PyInt (z : Z)
| PyFloat (f : float).

(** [str(n)] for an [int]. *)
Definition str_of_nat (n : nat) : string := pretty n.

Module ClaudeOCR.

(** *** [ClaudeOCR.get_ocr_prompt] *)

Definition prompt_general : string :=
"이 이미지에 포함된 모든 텍스트를 정확히 추출해 주세요.
다음 사항을 지켜주세요:
- 원본의 줄바꿈과 단락 구조를 최대한 유지해 주세요
- 제목, 소제목 등의 계층구조를 보존해 주세요
- 특수문자나 기호도 정확히 포함해 주세요
- 표가 있다면 표 형태로 정리해 주세요
- 한글과 영어가 섞여 있어도 모두 정확히 추출해 주세요".

Definition prompt_table : string :=
"이 이미지의 표를 정확히 추출해 주세요.
- 행과 열 구조를 명확히 구분해 주세요
- 셀 병합이 있다면 표시해 주세요
- 숫자 데이터는 정확히 보존해 주세요
- 표의 헤더와 내용을 구분해 주세요".

Definition prompt_handwritten : string :=
"이 손글씨 문서의 텍스트를 추출해 주세요.
- 읽기 어려운 부분은 [불명확] 표시해 주세요
- 추정되는 단어는 [추정: 단어] 형태로 표시해 주세요
- 가능한 한 정확하게 읽어주세요".

Definition prompt_form : string :=
"이 양식/폼의 모든 텍스트를 추출해 주세요.
- 필드명과 입력된 값을 구분해 주세요
- 체크박스나 선택 항목의 상태도 표시해 주세요
- 양식의 구조를 유지해 주세요".

(** The dict literal [prompts] of the method. *)
Definition prompts : gmap string string :=
  <["form" := prompt_form]>
  (<["handwritten" := prompt_handwritten]>
  (<["table" := prompt_table]>
  (<["general" := prompt_general]> ∅))).

(** [prompts["general"]]: subscripting raises [KeyError] on a missing key. *)
Definition subscript (d : gmap string string) (k : string) : outcome string :=
  match d !! k with
  | Some v => Return v
  | None => Raise (Exn KeyError k)
  end.

(** [return prompts.get(document_type, prompts["general"])]: the default
    argument is evaluated first, then [dict.get] is applied. *)
Definition get_ocr_prompt (document_type : string) : outcome string :=
  match subscript prompts "general" with
  | Return dflt => Return (default dflt (prompts !! document_type))
  | Raise e => Raise e
  end.

(** *** [ClaudeOCR.extract_text_from_image] *)

(** The keyword arguments of [self.client.messages.create]: one user message
    holding the image (base64 source) and the instruction text. *)
Record request : Type := Request {
  model : string;
  max_tokens : Z;
  media_type : string;
  data : string;
  prompt : string
}.

(** A block of [message.content]; only text blocks have a [.text]. *)
Inductive content_block : Type :=
| TextBlock (text : string)
| OtherBlock.

Record message : Type := Message { content : list content_block }.

Definition block_text (b : content_block) : outcome string :=
  match b with
  | TextBlock t => Return t
  | OtherBlock => Raise (Exn AttributeError "'ToolUseBlock' object has no attribute 'text'")
  end.

Definition mime_type_map : gmap string string :=
  <[".webp" := "image/webp"]>
  (<[".gif" := "image/gif"]>
  (<[".jpeg" := "image/jpeg"]>
  (<[".jpg" := "image/jpeg"]>
  (<[".png" := "image/png"]> ∅)))).

(** The keyword arguments passed to [messages.create]. *)
Definition ocr_request (mime_type base64_image instruction : string) : request :=
  {| model := "claude-3-5-sonnet-20241022";
     max_tokens := 4000;
     media_type := mime_type;
     data := base64_image;
     prompt := instruction |}.

Definition no_text_extracted : string := "텍스트를 추출할 수 없습니다.".

Definition error_marker (e : exn) : string := "오류 발생: " ++ str e.

Section SingleShot.
(** The world the method talks to: the file system and the model API. *)
Context {W : Type}.
(** [open(image_path, "rb").read()] *)
Variable read_bytes : string -> Py W string.
(** [base64.b64encode(...).decode('utf-8')] *)
Variable b64encode : string -> string.
(** [Path(image_path).suffix.lower()] *)
Variable suffix_lower : string -> string.
(** [self.client.messages.create(...)] *)
Variable messages_create : request -> Py W message.

(** [image_to_base64]: logs and re-raises. *)
Definition image_to_base64 (image_path : string) : Py W string :=
  try_except
    (bytes ← read_bytes image_path; mret (b64encode bytes))
    (fun e => raise e).

Definition extract_text_from_image (image_path document_type : string) : Py W string :=
  try_except
    (base64_image ← image_to_base64 image_path;
     let file_extension := suffix_lower image_path in
     let mime_type := default "image/png" (mime_type_map !! file_extension) in
     instruction ← lift (get_ocr_prompt document_type);
     message ← messages_create (ocr_request mime_type base64_image instruction);
     match content message with
     | block :: _ => lift (block_text block)
     | [] => mret no_text_extracted
     end)
    (fun e => mret (error_marker e)).
End SingleShot.

(** *** [ClaudeOCR.extract_text_batch] and [ClaudeOCR.extract_with_retry] *)

(** The dict literal stored under [results[i]]. *)
Record page_result : Type := PageResult {
  page : nat;
  text : string;
  status : string;
  image_path : string
}.

(** What the two methods do to the outside, in order. *)
Inductive event : Type :=
| EvCall (image_path document_type : string) (result : outcome string)
| EvRecord (i : nat) (r : page_result)
| EvProgress (completed total : nat)
| EvSleep (seconds : pynum).

Record state (W : Type) : Type := State {
  world : W;
  results : gmap nat page_result;
  events : list event
}.
Arguments State {W} _ _ _.
Arguments world {W} _.
Arguments results {W} _.
Arguments events {W} _.

(** The paths handed to [self.extract_text_from_image], the arguments of the
    progress callback and the arguments of [time.sleep], in order. *)
Definition called_paths (evs : list event) : list string :=
  omap (fun ev => match ev with EvCall p _ _ => Some p | _ => None end) evs.

Definition progress_calls (evs : list event) : list (nat * nat) :=
  omap (fun ev => match ev with EvProgress c t => Some (c, t) | _ => None end) evs.

Definition sleeps (evs : list event) : list pynum :=
  omap (fun ev => match ev with EvSleep d => Some d | _ => None end) evs.

(** Control flow of a loop body that may [return] from the function. *)
Inductive control (A : Type) : Type :=
| Continue
| ReturnValue (a : A).
Arguments Continue {A}.
Arguments ReturnValue {A} a.

Section Methods.
Context {W : Type}.
(** [self.extract_text_from_image], reached through [self]: a subclass or a
    test double may replace it, so it is a parameter here. *)
Variable self_extract_text_from_image : string -> string -> Py W string.
(** [time.sleep] *)
Variable time_sleep : pynum -> Py W unit.

Definition emit (e : event) : Py (state W) unit :=
  modify (fun s => State (world s) (results s) (events s ++ [e])).

Definition on_world {A : Type} (c : Py W A) : Py (state W) A :=
  fun s => let '(o, w') := c (world s) in (o, State w' (results s) (events s)).

Definition call_extract (image_path document_type : string) : Py (state W) string :=
  fun s => let '(o, w') := self_extract_text_from_image image_path document_type (world s) in
           (o, State w' (results s) (events s ++ [EvCall image_path document_type o])).

Definition sleep (seconds : pynum) : Py (state W) unit :=
  emit (EvSleep seconds);; on_world (time_sleep seconds).

(** [progress_callback(completed, total)] *)
Definition call_progress (cb : nat -> nat -> Py W unit) (completed total : nat)
  : Py (state W) unit :=
  emit (EvProgress completed total);; on_world (cb completed total).

(** [results[i] = r] *)
Definition set_item (i : nat) (r : page_result) : Py (state W) unit :=
  modify (fun s => State (world s) (<[i := r]> (results s)) (events s ++ [EvRecord i r])).

Definition batch_page (document_type : string) (delay : pynum)
    (progress_callback : option (nat -> nat -> Py W unit)) (total : nat)
    (item : nat * string) : Py (state W) unit :=
  let '(i, image_path) := item in
  try_except
    (text ← call_extract image_path document_type;
     set_item i {| page := i + 1; text := text; status := "success";
                   image_path := image_path |};;
     match progress_callback with
     | Some cb => call_progress cb (i + 1) total
     | None => mret tt
     end;;
     when (bool_decide (Z.of_nat i < Z.of_nat total - 1)%Z) (sleep delay))
    (fun e =>
     set_item i {| page := i + 1; text := error_marker e; status := "error";
                   image_path := image_path |}).

Definition extract_text_batch (image_paths : list string) (document_type : string)
    (delay : pynum) (progress_callback : option (nat -> nat -> Py W unit))
  : Py (state W) (gmap nat page_result) :=
  modify (fun s => State (world s) ∅ (events s));;
  let total := length image_paths in
  for_each (batch_page document_type delay progress_callback total)
           (enumerate image_paths);;
  s ← get;
  mret (results s).

(** [range(n)] *)
Definition range (n : Z) : list Z := Z.of_nat <$> seq 0 (Z.to_nat n).

Definition retry_attempt (image_path document_type : string) (max_retries attempt : Z)
  : Py (state W) (control string) :=
  try_except
    (text ← call_extract image_path document_type;
     mret (ReturnValue text))
    (fun e =>
     if bool_decide (attempt = max_retries - 1)%Z
     then raise e
     else
       let wait_time := (2 ^ attempt)%Z in
       sleep (PyInt wait_time);;
       mret Continue).

Fixpoint retry_loop (image_path document_type : string) (max_retries : Z)
    (attempts : list Z) : Py (state W) (option string) :=
  match attempts with
  | [] => mret None
  | attempt :: rest =>
      c ← retry_attempt image_path document_type max_retries attempt;
      match c with
      | ReturnValue text => mret (Some text)
      | Continue => retry_loop image_path document_type max_retries rest
      end
  end.

(** The result is [None] when the loop ends without a [return]. *)
Definition extract_with_retry (image_path document_type : string) (max_retries : Z)
  : Py (state W) (option string) :=
  retry_loop image_path document_type max_retries (range max_retries).
End Methods.

(** The events of a page of the batch whose call returned [txt] and whose
    callback and sleep returned too. *)
Definition page_events {W : Type} (document_type : string) (delay : pynum)
    (progress_callback : option (nat -> nat -> Py W unit)) (total : nat)
    (i : nat) (path txt : string) : list event :=
  [ EvCall path document_type (Return txt);
    EvRecord i (PageResult (i + 1) txt "success" path) ]
  ++ match progress_callback with
     | Some _ => [EvProgress (i + 1) total]
     | None => []
     end
  ++ (if bool_decide (i + 1 < total) then [EvSleep delay] else []).


End ClaudeOCR.

Module PDFConverter.

(** *** Python arithmetic used by [optimize_image_for_ocr]

    [float] is IEEE binary64, the kernel's primitive floats.  [float_of_Z] is
    the correctly rounded conversion of an [int]; it is exact below [2^53],
    which covers every image dimension. *)

Definition float_of_Z (z : Z) : float :=
  SF2Prim (binary_normalize prec emax z 0 false).

(** [a / b] on two [int]s (true division). *)
Definition true_div (a b : Z) : outcome float :=
  if bool_decide (b = 0)%Z
  then Raise (Exn ZeroDivisionError "division by zero")
  else Return (float_of_Z a / float_of_Z b)%float.

(** [max(a, b)] on floats: the first argument unless the second is greater. *)
Definition float_max (a b : float) : float :=
  if PrimFloat.ltb a b then b else a.

(** [n * x] for an [int] and a [float]. *)
Definition int_mul_float (n : Z) (x : float) : float :=
  (float_of_Z n * x)%float.

(** [int(x)]: truncation toward zero. *)
Definition int_of_float (x : float) : outcome Z :=
  match Prim2SF x with
  | S754_zero _ => Return 0%Z
  | S754_infinity _ =>
      Raise (Exn OverflowError "cannot convert float infinity to integer")
  | S754_nan => Raise (Exn ValueError "cannot convert float NaN to integer")
  | S754_finite sign m e => Return (cond_Zopp sign (Z.shiftl (Z.pos m) e))
  end.

(** *** Pillow images

    The raster itself is kept symbolic: an image is the page it came from and
    the Pillow operations applied to it so far. *)

Inductive pil_op : Type :=
| OpResizeLanczos (new_width new_height : Z)
| OpFlattenOnWhite
| OpConvert (mode : string)
| OpContrast (factor : float)
| OpSharpness (factor : float).

Record image : Type := Image {
  size : Z * Z;
  mode : string;
  raster : nat;
  history : list pil_op
}.

(** The Pillow calls of the module, with their arguments. *)
Inductive pil_call : Type :=
| CallResize (img : image) (new_width new_height : Z)
| CallNew (mode : string) (size : Z * Z)
| CallSplit (img : image)
| CallPaste (background img : image)
| CallConvert (img : image) (mode : string)
| CallContrast (img : image)
| CallSharpness (img : image)
| CallEnhance (img : image) (factor : float)
| CallSave (img : image) (path : string).

(** The literals [1.2] and [1.1], as binary64. *)
Definition contrast_factor : float := 0x1.3333333333333p+0%float.
Definition sharpness_factor : float := 0x1.199999999999ap+0%float.

(** What [convert_pdf_to_images] leaves behind: the directories and files it
    created, the progress reports it made, and its local list [image_paths]. *)
Record cstate : Type := CState {
  dirs_created : list string;
  files_written : list (string * image);
  progress_reports : list (nat * nat);
  image_paths : list string
}.

(** [f"{n:04d}"]: the sign counts in the width. *)
Definition zero_pad (width : nat) (digits : string) : string :=
  String.concat "" (replicate (width - String.length digits) "0") ++ digits.

Definition format_04d (n : Z) : string :=
  if bool_decide (n < 0)%Z
  then "-" ++ zero_pad 3 (pretty (Z.abs n))
  else zero_pad 4 (pretty n).

(** A numeral without its leading zeros. *)
Fixpoint strip_zeros (s : string) : string :=
  match s with
  | String c rest => if bool_decide (c = "0"%char) then strip_zeros rest else s
  | EmptyString => EmptyString
  end.

(** [os.path.join(a, b)] on POSIX. *)
Definition path_join (a b : string) : string :=
  if String.prefix "/" b then b
  else if bool_decide (a = "") || bool_decide (String.substring (String.length a - 1) 1 a = "/")
  then a ++ b
  else a ++ "/" ++ b.

Definition poppler_missing_message : string :=
  "Poppler이 설치되지 않았습니다. 설치 가이드를 확인해주세요.".

(** The arithmetic of the upscaling block on its own: the new size computed
    from [width] and [height]. *)
Definition scaled_size (width height : Z) : outcome (Z * Z) :=
  match true_div 1000 width with
  | Raise e => Raise e
  | Return rw =>
      match true_div 1000 height with
      | Raise e => Raise e
      | Return rh =>
          let scale_factor := float_max rw rh in
          match int_of_float (int_mul_float width scale_factor) with
          | Raise e => Raise e
          | Return new_width =>
              match int_of_float (int_mul_float height scale_factor) with
              | Raise e => Raise e
              | Return new_height => Return (new_width, new_height)
              end
          end
      end
  end.

(** The two products [width * scale_factor] and [height * scale_factor] of
    the upscaling block, for sides given as machine integers. *)
Definition upscale_products (width height : int) : float * float :=
  let fw := PrimFloat.of_uint63 width in
  let fh := PrimFloat.of_uint63 height in
  let thousand := PrimFloat.of_uint63 1000%uint63 in
  let scale_factor := float_max (thousand / fw)%float (thousand / fh)%float in
  ((fw * scale_factor)%float, (fh * scale_factor)%float).

(** Both products are at least 999 and finite, and one of them is below
    1001. *)
Definition near_1000 (width height : int) : bool :=
  let '(xw, xh) := upscale_products width height in
  PrimFloat.leb 0x1.f38p+9%float xw && PrimFloat.leb 0x1.f38p+9%float xh
  && (PrimFloat.ltb xw 0x1.f48p+9%float || PrimFloat.ltb xh 0x1.f48p+9%float)
  && PrimFloat.ltb xw 0x1p+62%float && PrimFloat.ltb xh 0x1p+62%float.

(** [near_1000 width h] for the [n] heights from [height] on, and for the
    999 heights from 1 on and the [n] widths from [width] on. *)
Fixpoint near_1000_row (n : nat) (width height : int) : bool :=
  match n with
  | O => true
  | S n' => near_1000 width height && near_1000_row n' width (height + 1)%uint63
  end.

Fixpoint near_1000_rows (n : nat) (width : int) : bool :=
  match n with
  | O => true
  | S n' => near_1000_row 999 width 1%uint63 && near_1000_rows n' (width + 1)%uint63
  end.

(** The path under which page [i] of a conversion is saved. *)
Definition page_path (output_folder : string) (first_page : option Z) (i : nat) : string :=
  path_join output_folder
    ("page_" ++ format_04d
       ((match first_page with
         | None => 1
         | Some p => if bool_decide (p = 0)%Z then 1 else p
         end) + Z.of_nat i)%Z ++ ".png").

Section Converter.
(** Which Pillow calls raise, and what. *)
Variable pil_raises : pil_call -> option exn.

Definition pil {A : Type} (c : pil_call) (result : A) : outcome A :=
  match pil_raises c with
  | Some e => Raise e
  | None => Return result
  end.

Definition resize (img : image) (new_width new_height : Z) : outcome image :=
  pil (CallResize img new_width new_height)
      (Image (new_width, new_height) (mode img) (raster img)
             (history img ++ [OpResizeLanczos new_width new_height])).

(** [background = Image.new('RGB', image.size, (255, 255, 255))]
    [background.paste(image, mask=image.split()[-1])] *)
Definition flatten_on_white (img : image) : outcome image :=
  match pil (CallNew "RGB" (size img)) (Image (size img) "RGB" (raster img) []) with
  | Raise e => Raise e
  | Return background =>
      match pil (CallSplit img) tt with
      | Raise e => Raise e
      | Return _ =>
          pil (CallPaste background img)
              (Image (size img) "RGB" (raster img) (history img ++ [OpFlattenOnWhite]))
      end
  end.

Definition convert (img : image) (new_mode : string) : outcome image :=
  pil (CallConvert img new_mode)
      (Image (size img) new_mode (raster img) (history img ++ [OpConvert new_mode])).

(** [ImageEnhance.Contrast(image).enhance(factor)] *)
Definition enhance_contrast (img : image) (factor : float) : outcome image :=
  match pil (CallContrast img) tt with
  | Raise e => Raise e
  | Return _ =>
      pil (CallEnhance img factor)
          (Image (size img) (mode img) (raster img) (history img ++ [OpContrast factor]))
  end.

Definition enhance_sharpness (img : image) (factor : float) : outcome image :=
  match pil (CallSharpness img) tt with
  | Raise e => Raise e
  | Return _ =>
      pil (CallEnhance img factor)
          (Image (size img) (mode img) (raster img) (history img ++ [OpSharpness factor]))
  end.

(** *** [PDFConverter.optimize_image_for_ocr]

    The state is the local variable [image], which the body reassigns and
    the [except] clause reads. *)

Definition assign (img : image) : Py image unit := modify (fun _ => img).

Definition upscale_if_small : Py image unit :=
  img ← get;
  let '(width, height) := size img in
  when (bool_decide (width < 1000)%Z || bool_decide (height < 1000)%Z)
    (rw ← lift (true_div 1000 width);
     rh ← lift (true_div 1000 height);
     let scale_factor := float_max rw rh in
     new_width ← lift (int_of_float (int_mul_float width scale_factor));
     new_height ← lift (int_of_float (int_mul_float height scale_factor));
     resized ← lift (resize img new_width new_height);
     assign resized).

Definition to_rgb : Py image unit :=
  img ← get;
  if bool_decide (mode img = "RGBA") || bool_decide (mode img = "LA") then
    background ← lift (flatten_on_white img);
    assign background
  else if negb (bool_decide (mode img = "RGB")) then
    converted ← lift (convert img "RGB");
    assign converted
  else mret tt.

Definition boost_contrast : Py image unit :=
  img ← get;
  enhanced ← lift (enhance_contrast img contrast_factor);
  assign enhanced.

Definition boost_sharpness : Py image unit :=
  img ← get;
  enhanced ← lift (enhance_sharpness img sharpness_factor);
  assign enhanced.

Definition optimize_image_for_ocr (img : image) : outcome image :=
  fst (try_except
         (upscale_if_small;; to_rgb;; boost_contrast;; boost_sharpness;; get)
         (fun e => get)
         img).

(** The four blocks of the [try] body, in order. *)
Definition optimize_steps : list (Py image unit) :=
  [upscale_if_small; to_rgb; boost_contrast; boost_sharpness].

(** The statements of a [try] body run one after the other, ending with
    [return image]. *)
Definition in_sequence (l : list (Py image unit)) : Py image image :=
  foldr (fun step rest => step;; rest) get l.

(** The value of the variable [image] once the steps have run up to the
    first one that raises (all of them when none does). *)
Fixpoint last_assigned (steps : list (Py image unit)) (img : image) : image :=
  match steps with
  | [] => img
  | step :: rest =>
      match step img with
      | (Return _, img') => last_assigned rest img'
      | (Raise _, img') => img'
      end
  end.

(** *** [PDFConverter.check_poppler_installation] *)

(** [subprocess.run(argv, capture_output=True, text=True, timeout=5)]: the
    return code, or the exception raised. *)
Variable subprocess_run : list string -> outcome Z.

Fixpoint try_commands (commands_to_try : list string) : outcome bool :=
  match commands_to_try with
  | [] => Return false
  | cmd :: rest =>
      match subprocess_run [cmd; "-h"] with
      | Return returncode =>
          if bool_decide (returncode = 0)%Z then Return true else try_commands rest
      | Raise e =>
          match class_of e with
          | TimeoutExpired | FileNotFoundError => try_commands rest
          | _ => Raise e
          end
      end
  end.

Definition check_poppler_installation : bool :=
  match try_commands ["pdftoppm"; "pdftocairo"] with
  | Return installed => installed
  | Raise _ => false
  end.

(** *** [PDFConverter.convert_pdf_to_images] *)

(** [tempfile.mkdtemp()]: the name of the directory it creates. *)
Variable mkdtemp : outcome string.
(** [os.makedirs(output_folder, exist_ok=True)] *)
Variable makedirs : string -> outcome unit.
(** [convert_from_path(pdf_path, dpi=, first_page=, last_page=, ...)] *)
Variable convert_from_path : string -> Z -> option Z -> option Z -> outcome (list image).

Definition make_temp_dir : Py cstate string :=
  d ← lift mkdtemp;
  modify (fun s => CState (dirs_created s ++ [d]) (files_written s)
                          (progress_reports s) (image_paths s));;
  mret d.

Definition make_dirs (d : string) : Py cstate unit :=
  lift (makedirs d);;
  modify (fun s => CState (dirs_created s ++ [d]) (files_written s)
                          (progress_reports s) (image_paths s)).

(** [optimized_image.save(image_path, 'PNG', optimize=False)] *)
Definition save (img : image) (path : string) : Py cstate unit :=
  lift (pil (CallSave img path) tt);;
  modify (fun s => CState (dirs_created s) (files_written s ++ [(path, img)])
                          (progress_reports s) (image_paths s)).

Definition append_path (path : string) : Py cstate unit :=
  modify (fun s => CState (dirs_created s) (files_written s)
                          (progress_reports s) (image_paths s ++ [path])).

Definition report_progress (cb : nat -> nat -> outcome unit) (done total : nat)
  : Py cstate unit :=
  modify (fun s => CState (dirs_created s) (files_written s)
                          (progress_reports s ++ [(done, total)]) (image_paths s));;
  lift (cb done total).

(** [first_page or 1] *)
Definition first_page_or_1 (first_page : option Z) : Z :=
  match first_page with
  | None => 1
  | Some p => if bool_decide (p = 0)%Z then 1 else p
  end.

Definition convert_page (output_folder : string) (first_page : option Z)
    (progress_callback : option (nat -> nat -> outcome unit)) (total_pages : nat)
    (item : nat * image) : Py cstate unit :=
  let '(i, img) := item in
  try_except
    (optimized_image ← lift (optimize_image_for_ocr img);
     let page_num := (first_page_or_1 first_page + Z.of_nat i)%Z in
     let image_filename := "page_" ++ format_04d page_num ++ ".png" in
     let image_path := path_join output_folder image_filename in
     save optimized_image image_path;;
     append_path image_path;;
     match progress_callback with
     | Some cb => report_progress cb (i + 1) total_pages
     | None => mret tt
     end)
    (fun e => mret tt).

Definition convert_pdf_to_images (pdf_path : string) (output_folder : option string)
    (dpi : Z) (first_page last_page : option Z)
    (progress_callback : option (nat -> nat -> outcome unit))
  : Py cstate (list string) :=
  try_except
    (when (negb check_poppler_installation)
       (raise (Exn PDFInfoNotInstalledError poppler_missing_message));;
     output_folder ← match output_folder with
                     | None => make_temp_dir
                     | Some d => make_dirs d;; mret d
                     end;
     images ← lift (convert_from_path pdf_path dpi first_page last_page);
     modify (fun s => CState (dirs_created s) (files_written s) (progress_reports s) []);;
     let total_pages := length images in
     for_each (convert_page output_folder first_page progress_callback total_pages)
              (enumerate images);;
     s ← get;
     mret (image_paths s))
    (fun e =>
     match class_of e with
     | PDFInfoNotInstalledError => raise e
     | PDFSyntaxError =>
         raise (Exn ValueError
                    ("PDF 파일이 손상되었거나 올바르지 않습니다: " ++ str e))
     | _ => raise e
     end).
(** The pages of a conversion that end up on disk, with their paths: those
    whose [save] does not raise. *)
Definition saved_page (output_folder : string) (first_page : option Z)
    (item : nat * image) : option (string * image) :=
  let '(i, img) := item in
  match optimize_image_for_ocr img with
  | Raise _ => None
  | Return optimized_image =>
      let image_path := page_path output_folder first_page i in
      match pil_raises (CallSave optimized_image image_path) with
      | Some _ => None
      | None => Some (image_path, optimized_image)
      end
  end.

Definition saved_pages (output_folder : string) (first_page : option Z)
    (items : list (nat * image)) : list (string * image) :=
  omap (saved_page output_folder first_page) items.

(** The progress reports made for them. *)
Definition reported_pages (output_folder : string) (first_page : option Z)
    (total_pages : nat) (items : list (nat * image)) : list (nat * nat) :=
  omap (fun item => match saved_page output_folder first_page item with
                    | Some _ => Some (fst item + 1, total_pages)
                    | None => None
                    end) items.

(** The output folder is [d]: the one given, created if needed, or a fresh
    temporary one. *)
Definition folder_ready (output_folder : option string) (d : string) : Prop :=
  match output_folder with
  | None => mkdtemp = Return d
  | Some given => given = d /\ makedirs d = Return tt
  end.

(** An outcome of [subprocess.run] after which the next command is tried. *)
Definition moves_on (o : outcome Z) : Prop :=
  match o with
  | Return returncode => returncode <> 0%Z
  | Raise e => class_of e = TimeoutExpired \/ class_of e = FileNotFoundError
  end.

(** *** [PDFConverter.get_pdf_page_count] *)

(** [pdfinfo_from_path(pdf_path)]: the entry of the result under ['Pages'],
    if there is one. *)
Variable pdfinfo_pages : string -> outcome (option Z).

Definition get_pdf_page_count (pdf_path : string) : outcome Z :=
  fst (try_except
         (info ← lift (pdfinfo_pages pdf_path);
          mret (default 0%Z info))
         (fun e =>
          try_except
            (images ← lift (convert_from_path pdf_path 200 (Some 1%Z) (Some 1%Z));
             match images with
             | _ :: _ =>
                 all_pages ← lift (convert_from_path pdf_path 200 None None);
                 mret (Z.of_nat (length all_pages))
             | [] => mret 0%Z
             end)
            (fun _ => mret 0%Z))
         tt).

(** *** [PDFConverter.convert_single_page] *)

Definition convert_single_page (pdf_path : string) (page_number : Z)
    (output_path : string) (dpi : Z) : Py cstate string :=
  try_except
    (images ← lift (convert_from_path pdf_path dpi (Some page_number) (Some page_number));
     match images with
     | first :: _ =>
         optimized_image ← lift (optimize_image_for_ocr first);
         save optimized_image output_path;;
         mret output_path
     | [] =>
         raise (Exn ValueError
                    ("페이지 " ++ pretty page_number ++ "를 변환할 수 없습니다"))
     end)
    (fun e => raise e).

(** *** [PDFConverter.cleanup_temp_files]

    The state is the set of paths that exist. *)

(** [os.remove(path)] on an existing path: whether it raises. *)
Variable remove_raises : string -> option exn.

Definition os_remove (path : string) : Py (gset string) unit :=
  fun fs =>
    match remove_raises path with
    | Some e => (Raise e, fs)
    | None => (Return tt, fs ∖ {[path]})
    end.

Definition cleanup_file (image_path : string) : Py (gset string) unit :=
  try_except
    (fs ← get;
     when (bool_decide (image_path ∈ fs)) (os_remove image_path))
    (fun e => mret tt).

Definition cleanup_temp_files (image_paths : list string) : Py (gset string) unit :=
  for_each cleanup_file image_paths.
End Converter.

End PDFConverter.

Module FileManager.

Import ClaudeOCR.

(** *** Strings *)

(** The one-character string of a new line. *)
Definition LF : string := String "010"%char "".

(** [s * n] *)
Definition repeat_str (s : string) (n : nat) : string :=
  String.concat "" (replicate n s).

(** [s.split(LF)]: never empty. *)
Fixpoint split_lines (s : string) : list string :=
  match s with
  | EmptyString => [""]
  | String c rest =>
      if bool_decide (c = "010"%char) then "" :: split_lines rest
      else match split_lines rest with
           | line :: lines => String c line :: lines
           | [] => [String c ""]
           end
  end.

(** The code points for which [str.isspace] holds, read off the UTF-8 bytes:
    U+0009..U+000D, U+001C..U+0020, U+0085, U+00A0, U+1680, U+2000..U+200A,
    U+2028, U+2029, U+202F, U+205F, U+3000. *)
Definition ascii_space (b : nat) : bool :=
  (bool_decide (9 <= b) && bool_decide (b <= 13))
  || (bool_decide (28 <= b) && bool_decide (b <= 32)).

Fixpoint all_whitespace (bytes : list nat) : bool :=
  match bytes with
  | [] => true
  | b :: rest =>
      if ascii_space b then all_whitespace rest
      else
        match rest with
        | b2 :: rest2 =>
            if bool_decide (b = 194) then
              (bool_decide (b2 = 133) || bool_decide (b2 = 160)) && all_whitespace rest2
            else
              match rest2 with
              | b3 :: rest3 =>
                  (   (bool_decide (b = 225) && bool_decide (b2 = 154) && bool_decide (b3 = 128))
                   || (bool_decide (b = 226) && bool_decide (b2 = 128)
                       && ((bool_decide (128 <= b3) && bool_decide (b3 <= 138))
                           || bool_decide (b3 = 168) || bool_decide (b3 = 169)
                           || bool_decide (b3 = 175)))
                   || (bool_decide (b = 226) && bool_decide (b2 = 129) && bool_decide (b3 = 159))
                   || (bool_decide (b = 227) && bool_decide (b2 = 128) && bool_decide (b3 = 128)))
                  && all_whitespace rest3
              | [] => false
              end
        | [] => false
        end
  end.

(** [not line.strip()] *)
Definition strip_is_empty (line : string) : bool :=
  all_whitespace (nat_of_ascii <$> list_ascii_of_string line).

(** [line.encode('ascii', 'ignore').decode('ascii')] *)
Fixpoint ascii_only (s : string) : string :=
  match s with
  | EmptyString => EmptyString
  | String c rest =>
      if bool_decide (nat_of_ascii c < 128) then String c (ascii_only rest)
      else ascii_only rest
  end.

(** [s.replace(c, by)] for a one-character [c]. *)
Fixpoint replace_char (c : ascii) (by_ : string) (s : string) : string :=
  match s with
  | EmptyString => EmptyString
  | String x rest =>
      if bool_decide (x = c) then by_ ++ replace_char c by_ rest
      else String x (replace_char c by_ rest)
  end.

(** *** Dictionaries *)

(** [d.keys()] *)
Definition keys (d : gmap nat page_result) : list nat := (map_to_list d).*1.

(** [sorted(l)] *)
Definition sorted (l : list nat) : list nat := merge_sort Nat.le l.

(** [max(l)] *)
Definition py_max (l : list nat) : outcome nat :=
  match l with
  | [] => Raise (Exn ValueError "max() arg is an empty sequence")
  | x :: l' => Return (foldl Nat.max x l')
  end.

(** [d[i]] *)
Definition getitem (d : gmap nat page_result) (i : nat) : outcome page_result :=
  match d !! i with
  | Some r => Return r
  | None => Raise (Exn KeyError (str_of_nat i))
  end.

(** [result['text'] if result.get('status') == 'success' else f"[오류] {result['text']}"] *)
Definition text_or_error (result : page_result) : string :=
  if bool_decide (status result = "success") then text result
  else "[오류] " ++ text result.

(** *** The two PDF libraries *)

Inductive fpdf_call : Type :=
| FpdfNew
| SetAutoPageBreak (auto : bool) (margin : Z)
| AddFont (family style fname : string) (uni : bool)
| AddPage
| SetFont (family style : string) (size : Z)
| Cell (w h : Z) (txt : string) (ln : bool) (align : string)
| Ln (h : Z)
| MultiCell (w h : Z) (txt : string) (align : string)
| Output (path : string).

Inductive para_style : Type :=
| SampleStyle (name : string)
| ParagraphStyle (name parent fontName : string) (fontSize leading spaceAfter : Z)
                 (alignment : option Z).

Inductive flowable : Type :=
| Paragraph (text : string) (style : para_style)
| Spacer (width height : Z).

Inductive reportlab_call : Type :=
| SimpleDocTemplate (path : string)
| NewParagraph (text : string) (style : para_style)
| Build (path : string) (story : list flowable).

Inductive io_call : Type :=
| OpenForWriting (path : string)
| Write (path chunk : string)
| Close (path : string).

Inductive library_call : Type :=
| Fpdf (c : fpdf_call)
| ReportLab (c : reportlab_call)
| FileIO (c : io_call).

(** What ends up under a path. *)
Inductive document : Type :=
| TextFile (content : string)
| FpdfDocument (calls : list fpdf_call)
| ReportLabDocument (story : list flowable).

(** The file system, every library call made so far, and the local objects
    [pdf] (the calls an [FPDF] object accepted) and [story]. *)
Record fstate : Type := FState {
  files : gmap string document;
  log : list library_call;
  pdf : list fpdf_call;
  story : list flowable
}.

Definition header_title : string := "PDF OCR 결과".
Definition default_page_separator : string := LF ++ repeat_str "=" 50 ++ LF.

(** *** The text layout, as specified

    A header banner with the page count, the pages in ascending order, each
    with its optional label, its text (marked when the status is not
    success) and the separator unless it is the last page, then a footer
    banner with the count.  [save_as_txt] is compared with this below. *)

Definition txt_header (n : nat) : string :=
  header_title ++ LF ++ repeat_str "=" 50 ++ LF
  ++ "총 페이지 수: " ++ str_of_nat n ++ LF
  ++ repeat_str "=" 50 ++ LF ++ LF.

Definition txt_footer (n : nat) : string :=
  LF ++ LF ++ repeat_str "=" 50 ++ LF ++ "처리 완료: " ++ str_of_nat n ++ "페이지".

Definition txt_label (include_page_numbers : bool) (r : page_result) : string :=
  if include_page_numbers
  then "페이지 " ++ str_of_nat (page r) ++ LF ++ repeat_str "-" 20 ++ LF
  else "".

Definition txt_body (r : page_result) : string :=
  if bool_decide (status r = "success") then text r else "[오류] " ++ text r.

Definition layout_page (ocr_results : gmap nat page_result) (n : nat)
    (include_page_numbers : bool) (page_separator : string) (i : nat) : string :=
  match ocr_results !! i with
  | Some r =>
      txt_label include_page_numbers r ++ txt_body r
      ++ (if bool_decide (i + 1 < n) then page_separator else "")
  | None => ""
  end.

Definition layout_pages (ocr_results : gmap nat page_result) (n : nat)
    (include_page_numbers : bool) (page_separator : string) (indices : list nat) : string :=
  String.concat "" (layout_page ocr_results n include_page_numbers page_separator <$> indices).

Definition layout_txt (ocr_results : gmap nat page_result) (n : nat)
    (include_page_numbers : bool) (page_separator : string) : string :=
  txt_header n
  ++ layout_pages ocr_results n include_page_numbers page_separator (seq 0 n)
  ++ txt_footer n.

(** The statement [c] returns [a] and turns the text file at [path] from
    [before] into [after]. *)
Definition appends {A : Type} (path before after : string) (c : Py fstate A) (a : A) : Prop :=
  forall s, files s !! path = Some (TextFile before) ->
            exists s', c s = (Return a, s') /\ files s' !! path = Some (TextFile after).

(** The same for a statement that may stop at a file call that raises: the
    text file at [path] has then grown by an initial part of what the
    statement appends when it returns. *)
Definition appends_upto {A : Type} (path before after : string) (c : Py fstate A) (a : A)
  : Prop :=
  forall s, files s !! path = Some (TextFile before) ->
            exists o s' written rest,
              c s = (o, s')
              /\ files s' !! path = Some (TextFile (before ++ written))
              /\ after = before ++ written ++ rest
              /\ ((o = Return a /\ rest = "") \/ exists e, o = Raise e).

(** *** Observations on a run

    [logs P c]: every library call the statement makes satisfies [P]. *)

Definition logs (P : library_call -> Prop) {A : Type} (c : Py fstate A) : Prop :=
  forall s, exists l, log (snd (c s)) = (log s ++ l)%list /\ Forall P l.

(** A call that stays on the FPDF backend and selects no font but [font]. *)
Definition on_fpdf_with (font : string) (c : library_call) : Prop :=
  match c with
  | ReportLab _ => False
  | Fpdf (SetFont family _ _) => family = font
  | _ => True
  end.

Definition reportlab_calls (l : list library_call) : list reportlab_call :=
  omap (fun c => match c with ReportLab r => Some r | _ => None end) l.

Definition fonts_selected (l : list library_call) : list string :=
  omap (fun c => match c with Fpdf (SetFont family _ _) => Some family | _ => None end) l.

Section Manager.
(** Which library calls raise, given the calls made before. *)
Variable raises : list library_call -> library_call -> option exn.
(** The module-level flag set by [from fpdf import FPDF]. *)
Variable FPDF_AVAILABLE : bool.
(** [self.korean_font], as left by [setup_fonts]. *)
Variable korean_font : option string.
(** When [f.close()] raises, how many leading characters of the text handed
    to [f.write] have reached the file at the path. *)
Variable flushed : string -> string -> nat.

(** Any library call: it is logged, then raises or returns. *)
Definition call (c : library_call) : Py fstate unit :=
  fun s =>
    let s' := FState (files s) (log s ++ [c]) (pdf s) (story s) in
    match raises (log s) c with
    | Some e => (Raise e, s')
    | None => (Return tt, s')
    end.

(** *** [FileManager.save_as_txt] *)

(** [open(output_path, 'w', encoding='utf-8')]: creates or truncates. *)
Definition open_w (path : string) : Py fstate unit :=
  call (FileIO (OpenForWriting path));;
  modify (fun s => FState (<[path := TextFile ""]> (files s)) (log s) (pdf s) (story s)).

Definition append_text (chunk : string) (d : document) : document :=
  match d with
  | TextFile content => TextFile (content ++ chunk)
  | other => other
  end.

(** [f.write(chunk)] *)
Definition write (path chunk : string) : Py fstate unit :=
  call (FileIO (Write path chunk));;
  modify (fun s => FState (alter (append_text chunk) path (files s))
                          (log s) (pdf s) (story s)).

(** What is left of a text file when its [close] raises. *)
Definition keep_flushed (path : string) (d : document) : document :=
  match d with
  | TextFile content => TextFile (String.substring 0 (flushed path content) content)
  | other => other
  end.

(** [f.close()]: it flushes what was written, and may raise doing so. *)
Definition close (path : string) : Py fstate unit :=
  fun s =>
    let l := (log s ++ [FileIO (Close path)])%list in
    match raises (log s) (FileIO (Close path)) with
    | Some e => (Raise e, FState (alter (keep_flushed path) path (files s)) l (pdf s) (story s))
    | None => (Return tt, FState (files s) l (pdf s) (story s))
    end.

(** [with open(path, 'w', encoding='utf-8') as f: body]: the file is closed
    when the block is left, at its end or by an exception; when [close]
    raises, its exception is the one that leaves the statement. *)
Definition with_open_w {A : Type} (path : string) (body : Py fstate A) : Py fstate A :=
  open_w path;;
  ((fun s =>
      match body s with
      | (Return a, s') => (close path;; mret a) s'
      | (Raise e, s') => (close path;; raise e) s'
      end) : Py fstate A).

Definition txt_page (ocr_results : gmap nat page_result) (output_path : string)
    (include_page_numbers : bool) (page_separator : string) (i : nat) : Py fstate unit :=
  result ← lift (getitem ocr_results i);
  when include_page_numbers
    (write output_path ("페이지 " ++ str_of_nat (page result) ++ LF);;
     write output_path (repeat_str "-" 20 ++ LF));;
  (if bool_decide (status result = "success")
   then write output_path (text result)
   else write output_path ("[오류] " ++ text result));;
  last ← lift (py_max (keys ocr_results));
  when (bool_decide (i < last)) (write output_path page_separator).

(** The body of the [with] block. *)
Definition txt_writes (ocr_results : gmap nat page_result) (output_path : string)
    (include_page_numbers : bool) (page_separator : string) : Py fstate unit :=
  write output_path (header_title ++ LF);;
  write output_path (repeat_str "=" 50 ++ LF);;
  write output_path ("총 페이지 수: " ++ str_of_nat (size ocr_results) ++ LF);;
  write output_path (repeat_str "=" 50 ++ LF ++ LF);;
  for_each (txt_page ocr_results output_path include_page_numbers page_separator)
           (sorted (keys ocr_results));;
  write output_path (LF ++ LF ++ repeat_str "=" 50);;
  write output_path (LF ++ "처리 완료: " ++ str_of_nat (size ocr_results) ++ "페이지").

Definition save_as_txt (ocr_results : gmap nat page_result) (output_path : string)
    (include_page_numbers : bool) (page_separator : string) : Py fstate bool :=
  try_except
    (with_open_w output_path
       (txt_writes ocr_results output_path include_page_numbers page_separator);;
     mret true)
    (fun e => mret false).

(** *** [FileManager.save_as_pdf_reportlab] *)

Definition reportlab (c : reportlab_call) : Py fstate unit := call (ReportLab c).

(** [story.append(Paragraph(text, style))] *)
Definition append_paragraph (txt : string) (style : para_style) : Py fstate unit :=
  reportlab (NewParagraph txt style);;
  modify (fun s => FState (files s) (log s) (pdf s) (story s ++ [Paragraph txt style])).

(** [story.append(Spacer(w, h))] *)
Definition append_spacer (w h : Z) : Py fstate unit :=
  modify (fun s => FState (files s) (log s) (pdf s) (story s ++ [Spacer w h])).

(** [doc.build(story)] *)
Definition build (path : string) : Py fstate unit :=
  s ← get;
  reportlab (Build path (story s));;
  modify (fun s => FState (<[path := ReportLabDocument (story s)]> (files s))
                          (log s) (pdf s) (story s)).

(** [if self.korean_font:] is false for [None] and for the empty string. *)
Definition styles : para_style * para_style :=
  match korean_font with
  | Some font =>
      if bool_decide (font = "") then (SampleStyle "Normal", SampleStyle "Heading1")
      else (ParagraphStyle "Korean" "Normal" font 10 14 6 None,
            ParagraphStyle "KoreanTitle" "Heading1" font 14 18 12 (Some 1%Z))
  | None => (SampleStyle "Normal", SampleStyle "Heading1")
  end.

Definition escape_markup (text_content : string) : string :=
  let text_content := replace_char "&" "&amp;" text_content in
  let text_content := replace_char "<" "&lt;" text_content in
  let text_content := replace_char ">" "&gt;" text_content in
  replace_char "010" "<br/>" text_content.

Definition reportlab_page (ocr_results : gmap nat page_result)
    (include_page_numbers : bool) (korean_style title_style : para_style) (i : nat)
  : Py fstate unit :=
  result ← lift (getitem ocr_results i);
  when include_page_numbers
    (append_paragraph ("페이지 " ++ str_of_nat (page result)) title_style;;
     append_spacer 1 8);;
  let text_content := escape_markup (text_or_error result) in
  append_paragraph text_content korean_style;;
  append_spacer 1 20.

Definition save_as_pdf_reportlab (ocr_results : gmap nat page_result)
    (output_path : string) (include_page_numbers : bool) : Py fstate bool :=
  try_except
    (reportlab (SimpleDocTemplate output_path);;
     let '(korean_style, title_style) := styles in
     modify (fun s => FState (files s) (log s) (pdf s) []);;
     append_paragraph header_title title_style;;
     append_spacer 1 12;;
     for_each (reportlab_page ocr_results include_page_numbers korean_style title_style)
              (sorted (keys ocr_results));;
     build output_path;;
     mret true)
    (fun e => mret false).

(** *** [FileManager.save_as_pdf_fpdf] *)

(** A method call on the [pdf] object; [FPDF()] starts a new object. *)
Definition fpdf (c : fpdf_call) : Py fstate unit :=
  call (Fpdf c);;
  modify (fun s => FState (files s) (log s)
                          (match c with FpdfNew => [] | _ => pdf s ++ [c] end)
                          (story s)).

(** [pdf.output(output_path)] *)
Definition output (path : string) : Py fstate unit :=
  fpdf (Output path);;
  modify (fun s => FState (<[path := FpdfDocument (pdf s)]> (files s))
                          (log s) (pdf s) (story s)).

Definition fpdf_line (line : string) : Py fstate unit :=
  when (negb (strip_is_empty line))
    (try_except
       (fpdf (MultiCell 0 8 line "L"))
       (fun _ =>
        let ascii_line := ascii_only line in
        fpdf (MultiCell 0 8 ascii_line "L")));;
  fpdf (Ln 2).

Definition fpdf_page (ocr_results : gmap nat page_result) (include_page_numbers : bool)
    (font_name : string) (i : nat) : Py fstate unit :=
  result ← lift (getitem ocr_results i);
  fpdf AddPage;;
  fpdf (SetFont font_name "" 12);;
  when include_page_numbers
    (fpdf (SetFont font_name "B" 14);;
     fpdf (Cell 0 10 ("페이지 " ++ str_of_nat (page result)) true "C");;
     fpdf (Ln 5));;
  fpdf (SetFont font_name "" 10);;
  let text_content := text_or_error result in
  let lines := split_lines text_content in
  for_each fpdf_line lines.

Definition save_as_pdf_fpdf (ocr_results : gmap nat page_result)
    (output_path : string) (include_page_numbers : bool) : Py fstate bool :=
  try_except
    (if negb FPDF_AVAILABLE
     then save_as_pdf_reportlab ocr_results output_path include_page_numbers
     else
       fpdf FpdfNew;;
       fpdf (SetAutoPageBreak true 15);;
       font_name ← try_except
                     (fpdf (AddFont "DejaVu" "" "DejaVuSansCondensed.ttf" true);;
                      mret "DejaVu")
                     (fun _ => mret "Arial");
       for_each (fpdf_page ocr_results include_page_numbers font_name)
                (sorted (keys ocr_results));;
       output output_path;;
       mret true)
    (fun e => mret false).
End Manager.

(** *** The markup of a text, character by character

    What the four replacements of [save_as_pdf_reportlab] are meant to do:
    each character of the text is replaced on its own. *)

Definition escape_char (c : ascii) : string :=
  if bool_decide (c = "&"%char) then "&amp;"
  else if bool_decide (c = "<"%char) then "&lt;"
  else if bool_decide (c = ">"%char) then "&gt;"
  else if bool_decide (c = "010"%char) then "<br/>"
  else String c "".

Fixpoint escape_chars (s : string) : string :=
  match s with
  | EmptyString => EmptyString
  | String c rest => escape_char c ++ escape_chars rest
  end.

(** *** The documents, as they should come out

    The results of a dictionary in ascending order of their keys. *)
Definition results_in_order (ocr_results : gmap nat page_result) : list page_result :=
  omap (fun i => ocr_results !! i) (sorted (keys ocr_results)).

(** The text file of any dictionary: the header banner with the number of
    results, the pages joined by the separator, the footer banner. *)
Definition txt_page_text (include_page_numbers : bool) (r : page_result) : string :=
  txt_label include_page_numbers r ++ txt_body r.

Definition txt_of (ocr_results : gmap nat page_result) (include_page_numbers : bool)
    (page_separator : string) : string :=
  txt_header (size ocr_results)
  ++ String.concat page_separator
       (txt_page_text include_page_numbers <$> results_in_order ocr_results)
  ++ txt_footer (size ocr_results).

(** The flowables of one page, and of the whole ReportLab document: the
    title, then the pages. *)
Definition story_page (include_page_numbers : bool)
    (korean_style title_style : para_style) (r : page_result) : list flowable :=
  (if include_page_numbers
   then [Paragraph ("페이지 " ++ str_of_nat (page r)) title_style; Spacer 1 8]
   else [])
  ++ [Paragraph (escape_markup (text_or_error r)) korean_style; Spacer 1 20].

Definition story_of (korean_font : option string) (ocr_results : gmap nat page_result)
    (include_page_numbers : bool) : list flowable :=
  let '(korean_style, title_style) := styles korean_font in
  [Paragraph header_title title_style; Spacer 1 12]
  ++ concat (story_page include_page_numbers korean_style title_style
             <$> results_in_order ocr_results).

(** The calls on the [FPDF] object for the lines of a text, for one page,
    and for the whole document, when [multi_cell] raises on the texts that
    [rejects] marks: such a line is printed without its characters outside
    ASCII. *)
Definition fpdf_line_calls (rejects : string -> bool) (line : string) : list fpdf_call :=
  (if strip_is_empty line then []
   else [MultiCell 0 8 (if rejects line then ascii_only line else line) "L"])
  ++ [Ln 2].

Definition fpdf_page_calls (rejects : string -> bool) (include_page_numbers : bool)
    (font_name : string) (r : page_result) : list fpdf_call :=
  [AddPage; SetFont font_name "" 12]
  ++ (if include_page_numbers
      then [SetFont font_name "B" 14;
            Cell 0 10 ("페이지 " ++ str_of_nat (page r)) true "C";
            Ln 5]
      else [])
  ++ [SetFont font_name "" 10]
  ++ concat (fpdf_line_calls rejects <$> split_lines (text_or_error r)).

(** A run of statements that extends the [pdf] object by [calls] and leaves
    the files alone. *)
Definition extends_pdf (calls : list fpdf_call) (c : Py fstate unit) : Prop :=
  forall s, exists s',
    c s = (Return tt, s') /\ files s' = files s /\ pdf s' = (pdf s ++ calls)%list.

Definition fpdf_calls_of (rejects : string -> bool) (ocr_results : gmap nat page_result)
    (output_path : string) (include_page_numbers : bool) : list fpdf_call :=
  [SetAutoPageBreak true 15; AddFont "DejaVu" "" "DejaVuSansCondensed.ttf" true]
  ++ concat (fpdf_page_calls rejects include_page_numbers "DejaVu"
             <$> results_in_order ocr_results)
  ++ [Output output_path].

(** The document when [add_font] has raised: that call leaves no trace on
    the [FPDF] object, and the pages are set in the default font. *)
Definition fpdf_calls_default_font (rejects : string -> bool)
    (ocr_results : gmap nat page_result) (output_path : string)
    (include_page_numbers : bool) : list fpdf_call :=
  [SetAutoPageBreak true 15]
  ++ concat (fpdf_page_calls rejects include_page_numbers "Arial"
             <$> results_in_order ocr_results)
  ++ [Output output_path].

(** *** [FileManager.setup_fonts] *)

Definition font_paths : list string :=
  [ "C:/Windows/Fonts/malgun.ttf";
    "/System/Library/Fonts/AppleGothic.ttf";
    "/usr/share/fonts/truetype/dejavu/DejaVuSans.ttf";
    "/usr/share/fonts/noto-cjk/NotoSansCJK-Regular.ttc" ].

(** [self.korean_font] and the font files handed to
    [pdfmetrics.registerFont(TTFont('Korean', font_path))] so far. *)
Record fonts : Type := Fonts {
  self_korean_font : option string;
  register_calls : list string
}.

Section Fonts.
(** [os.path.exists] *)
Variable path_exists : string -> bool.
(** Whether [pdfmetrics.registerFont(TTFont('Korean', font_path))] raises. *)
Variable register_raises : string -> option exn.

Definition register_font (font_path : string) : Py fonts unit :=
  modify (fun s => Fonts (self_korean_font s) (register_calls s ++ [font_path]));;
  lift (match register_raises font_path with
        | Some e => Raise e
        | None => Return tt
        end).

(** The loop over [font_paths]: [break] after the first registration that
    succeeds, [continue] after one that raises. *)
Fixpoint try_font_paths (paths : list string) : Py fonts unit :=
  match paths with
  | [] => mret tt
  | font_path :: rest =>
      if path_exists font_path then
        registered ← try_except
                       (register_font font_path;;
                        modify (fun s => Fonts (Some "Korean") (register_calls s));;
                        mret true)
                       (fun e => mret false);
        if registered : bool then mret tt else try_font_paths rest
      else try_font_paths rest
  end.

Definition setup_fonts : Py fonts unit :=
  try_except
    (modify (fun s => Fonts None (register_calls s));;
     try_font_paths font_paths)
    (fun e => mret tt).
End Fonts.

End FileManager.

(** ** Concrete worlds, used to run the methods on explicit inputs *)

Module Scenarios.

Import ClaudeOCR.

(** A file system where every image reads as the same four bytes, an
    encoder and a suffix function standing for the library ones, and a model
    API that answers with no content block. *)
Definition read_any : string -> Py unit string := fun _ => ret "PNG".
Definition encode_plain : string -> string := fun bytes => bytes.
Definition suffix_png : string -> string := fun _ => ".png".
Definition reply_empty : request -> Py unit message := fun _ => ret (Message []).

(** A transcription call that raises on its first [k] invocations and then
    returns; the world counts the invocations. *)
Definition api_error (n : nat) : exn :=
  Exn (OtherException "APIError") ("overloaded, attempt " ++ str_of_nat n).

Definition fails_first (k : nat) : string -> string -> Py nat string :=
  fun _ _ n =>
    if bool_decide (n < k) then (Raise (api_error n), S n)
    else (Return "extracted text", S n).

Definition always_fails : string -> string -> Py nat string :=
  fun _ _ n => (Raise (api_error n), S n).

Definition no_wait : pynum -> Py nat unit := fun _ => ret tt.

Definition silent_callback : nat -> nat -> Py nat unit := fun _ _ => ret tt.

Definition fresh : state nat := State 0 ∅ [].

Definition one_second : pynum := PyFloat 1%float.

(** Pillow calls that all succeed, and Pillow where only the construction
    of the sharpness enhancer raises. *)
Definition pillow_works : PDFConverter.pil_call -> option exn := fun _ => None.

Definition sharpness_fails : PDFConverter.pil_call -> option exn :=
  fun c =>
    match c with
    | PDFConverter.CallSharpness _ => Some (Exn (OtherException "MemoryError") "")
    | _ => None
    end.

Definition resize_fails : PDFConverter.pil_call -> option exn :=
  fun c =>
    match c with
    | PDFConverter.CallResize _ _ _ => Some (Exn ValueError "height and width must be > 0")
    | _ => None
    end.

(** An A4 page rasterized at 96 dpi, and one at 300 dpi. *)
Definition a4_at_96dpi : PDFConverter.image := PDFConverter.Image (794, 1123)%Z "RGB" 0 [].
Definition a4_at_300dpi : PDFConverter.image := PDFConverter.Image (2480, 3508)%Z "RGB" 0 [].

(** A machine without Poppler, and one with it. *)
Definition poppler_absent : list string -> outcome Z :=
  fun _ => Raise (Exn FileNotFoundError "[Errno 2] No such file or directory").
Definition poppler_present : list string -> outcome Z := fun _ => Return 0%Z.

Definition temp_dir : outcome string := Return "/tmp/tmpk3x9".
Definition makedirs_ok : string -> outcome unit := fun _ => Return tt.
Definition one_page_pdf
  : string -> Z -> option Z -> option Z -> outcome (list PDFConverter.image) :=
  fun _ _ _ _ => Return [a4_at_300dpi].

Definition nothing_created : PDFConverter.cstate := PDFConverter.CState [] [] [] [].

(** Two transcribed pages, the second one failed; no page at all. *)
Definition two_pages : gmap nat page_result :=
  <[1 := PageResult 2 "오류 발생: overloaded" "error" "page_0002.png"]>
  (<[0 := PageResult 1 "first page" "success" "page_0001.png"]> ∅).

Definition no_pages : gmap nat page_result := ∅.

(** Two pages of plain ASCII text. *)
Definition ascii_pages : gmap nat page_result :=
  <[1 := PageResult 2 "second page" "success" "page_0002.png"]>
  (<[0 := PageResult 1 "first page" "success" "page_0001.png"]> ∅).

(** Results under keys that do not start at 0 and leave gaps. *)
Definition pages_3_and_7 : gmap nat page_result :=
  <[7 := PageResult 8 "eighth page" "success" "page_0008.png"]>
  (<[3 := PageResult 4 "fourth page" "success" "page_0004.png"]> ∅).

(** Libraries and a file system that never raise. *)
Definition libraries_work
  : list FileManager.library_call -> FileManager.library_call -> option exn :=
  fun _ _ => None.

Definition empty_disk : FileManager.fstate := FileManager.FState ∅ [] [] [].

(** A [close] that, when it raises, has flushed nothing. *)
Definition nothing_flushed : string -> string -> nat := fun _ _ => 0.

(** A device without space left: the file opens, every [write] lands in the
    buffer, and the flush of [close] raises. *)
Definition no_space_left
  : list FileManager.library_call -> FileManager.library_call -> option exn :=
  fun _ c =>
    match c with
    | FileManager.FileIO (FileManager.Close _) =>
        Some (Exn (OtherException "OSError") "[Errno 28] No space left on device")
    | _ => None
    end.

(** FPDF without its Unicode font file: [add_font] raises, and the core
    font that is left cannot encode text outside Latin-1 (here: any
    non-ASCII byte), so [cell] and [multi_cell] raise on such a text. *)
Definition font_file_missing : exn :=
  Exn (OtherException "RuntimeError") "TTF Font file not found: DejaVuSansCondensed.ttf".

Definition not_ascii (txt : string) : bool :=
  negb (bool_decide (FileManager.ascii_only txt = txt)).

Definition font_missing_core_font
  : list FileManager.library_call -> FileManager.library_call -> option exn :=
  fun _ c =>
    match c with
    | FileManager.Fpdf (FileManager.AddFont _ _ _ _) => Some font_file_missing
    | FileManager.Fpdf (FileManager.Cell _ _ txt _ _)
    | FileManager.Fpdf (FileManager.MultiCell _ _ txt _) =>
        if not_ascii txt
        then Some (Exn (OtherException "UnicodeEncodeError")
                       "'latin-1' codec can't encode characters")
        else None
    | _ => None
    end.

(** An FPDF whose [multi_cell] raises on any text outside ASCII, every
    other call working. *)
Definition multi_cell_needs_ascii
  : list FileManager.library_call -> FileManager.library_call -> option exn :=
  fun _ c =>
    match c with
    | FileManager.Fpdf (FileManager.MultiCell _ _ txt _) =>
        if not_ascii txt
        then Some (Exn (OtherException "UnicodeEncodeError")
                       "'latin-1' codec can't encode characters")
        else None
    | _ => None
    end.

(** A model API that is overloaded on every request. *)
Definition reply_overloaded : request -> Py unit message :=
  fun _ => raise (Exn (OtherException "APIStatusError") "overloaded_error").

Definition no_wait_unit : pynum -> Py unit unit := fun _ => ret tt.

(** A model API that answers with one text block, and a [time.sleep] that
    rejects its argument, as it does for a negative delay. *)
Definition reply_text : request -> Py unit message :=
  fun _ => ret (Message [TextBlock "extracted text"]).

Definition sleep_rejects : pynum -> Py unit unit :=
  fun _ => raise (Exn ValueError "sleep length must be non-negative").

Definition silent_callback_unit : nat -> nat -> Py unit unit := fun _ _ => ret tt.

Definition fresh_unit : state unit := State tt ∅ [].

(** A corrupt document, a document of three pages, a disk that refuses the
    second page, and a callback that always raises. *)
Definition corrupt_pdf
  : string -> Z -> option Z -> option Z -> outcome (list PDFConverter.image) :=
  fun _ _ _ _ => Raise (Exn PDFSyntaxError "Couldn't find trailer dictionary").

Definition page_of (n : nat) : PDFConverter.image :=
  PDFConverter.Image (2480, 3508)%Z "RGB" n [].

Definition three_page_pdf
  : string -> Z -> option Z -> option Z -> outcome (list PDFConverter.image) :=
  fun _ _ _ _ => Return [page_of 0; page_of 1; page_of 2].

Definition second_save_fails : PDFConverter.pil_call -> option exn :=
  fun c =>
    match c with
    | PDFConverter.CallSave img _ =>
        if bool_decide (PDFConverter.raster img = 1)
        then Some (Exn (OtherException "OSError") "[Errno 28] No space left on device")
        else None
    | _ => None
    end.

Definition failing_callback : nat -> nat -> outcome unit :=
  fun _ _ => Raise (Exn (OtherException "RuntimeError") "widget is gone").

Definition pdfinfo_missing : string -> outcome (option Z) :=
  fun _ => Raise (Exn PDFInfoNotInstalledError "Unable to get page count. Is poppler installed?").

Definition a4_at_72dpi : PDFConverter.image := PDFConverter.Image (595, 842)%Z "L" 0 [].

End Scenarios.

(** * Properties *)

(** ** Stepping through statements *)

Lemma bind_return {S A B : Type} (c : Py S A) (k : A -> Py S B) s a s1 :
  c s = (Return a, s1) -> (c ≫= k) s = k a s1.
Proof. intros H. unfold mbind, Py_bind, bind. by rewrite H. Qed.

Lemma bind_raise {S A B : Type} (c : Py S A) (k : A -> Py S B) s e s1 :
  c s = (Raise e, s1) -> (c ≫= k) s = (Raise e, s1).
Proof. intros H. unfold mbind, Py_bind, bind. by rewrite H. Qed.

Lemma try_except_return {S A : Type} (body : Py S A) handler s a s1 :
  body s = (Return a, s1) -> try_except body handler s = (Return a, s1).
Proof. intros H. unfold try_except. by rewrite H. Qed.

Lemma try_except_raise {S A : Type} (body : Py S A) handler s e s1 :
  body s = (Raise e, s1) -> try_except body handler s = handler e s1.
Proof. intros H. unfold try_except. by rewrite H. Qed.

Lemma for_each_cons {S A : Type} (body : A -> Py S unit) x l s s1 :
  body x s = (Return tt, s1) -> for_each body (x :: l) s = for_each body l s1.
Proof. intros H. simpl. by rewrite (bind_return _ _ _ _ _ H). Qed.

(** ** [ClaudeOCR.get_ocr_prompt] *)

Section PromptLookup.
Import ClaudeOCR.

Lemma prompts_general : prompts !! "general" = Some prompt_general.
Proof. reflexivity. Qed.

Lemma get_ocr_prompt_lookup document_type :
  get_ocr_prompt document_type
  = Return (default prompt_general (prompts !! document_type)).
Proof. unfold get_ocr_prompt, subscript. by rewrite prompts_general. Qed.

Lemma prompts_nonempty document_type instruction :
  prompts !! document_type = Some instruction -> instruction <> "".
Proof.
  unfold prompts. intros H.
  repeat (apply lookup_insert_Some in H as [[_ <-]|[_ H]]; [done|]).
  by rewrite lookup_empty in H.
Qed.

(** C10: the lookup never raises and never returns the empty string, and a
    document type outside general/table/handwritten/form gets the
    instruction of the general profile. *)
Theorem get_ocr_prompt_total (document_type : string) :
  (exists instruction,
      get_ocr_prompt document_type = Return instruction /\ instruction <> "")
  /\ (document_type ∉ ["general"; "table"; "handwritten"; "form"] ->
      get_ocr_prompt document_type = Return prompt_general).
Proof.
  rewrite get_ocr_prompt_lookup. split.
  - destruct (prompts !! document_type) as [instruction|] eqn:E; simpl.
    + exists instruction. split; [done|]. by eapply prompts_nonempty.
    + exists prompt_general. split; [done|]. by apply (prompts_nonempty "general").
  - intros Hout. f_equal.
    assert (prompts !! document_type = None) as ->; [|done].
    unfold prompts.
    rewrite !lookup_insert_ne; [apply lookup_empty|..];
      intros <-; apply Hout; set_solver.
Qed.

Lemma get_ocr_prompt_total_witness :
  ("invoice" ∉ ["general"; "table"; "handwritten"; "form"])
  /\ get_ocr_prompt "invoice" = Return prompt_general.
Proof.
  assert ("invoice" ∉ ["general"; "table"; "handwritten"; "form"]) as Hout.
  { rewrite !not_elem_of_cons. repeat split; try discriminate. apply not_elem_of_nil. }
  split; [exact Hout|].
  exact (proj2 (get_ocr_prompt_total "invoice") Hout).
Defined.
End PromptLookup.

(** ** [ClaudeOCR.extract_text_from_image] *)

Section SingleShotProperties.
Import ClaudeOCR.
Context {W : Type}.
Variable read_bytes : string -> Py W string.
Variable b64encode : string -> string.
Variable suffix_lower : string -> string.
Variable messages_create : request -> Py W message.

(** C3: the single-shot call always returns a string.  A failure to read
    the image, a failure of the API call and a first content block without
    text come back as the error marker built from the exception; a response
    without content blocks comes back as the fixed sentinel. *)
Theorem extract_text_from_image_never_raises (image_path document_type : string) (w : W) :
  (exists text w',
      extract_text_from_image read_bytes b64encode suffix_lower messages_create
        image_path document_type w = (Return text, w'))
  /\ (forall e w1,
        read_bytes image_path w = (Raise e, w1) ->
        extract_text_from_image read_bytes b64encode suffix_lower messages_create
          image_path document_type w = (Return (error_marker e), w1))
  /\ (forall bytes w1 instruction reply w2,
        read_bytes image_path w = (Return bytes, w1) ->
        get_ocr_prompt document_type = Return instruction ->
        messages_create
          (ocr_request (default "image/png" (mime_type_map !! suffix_lower image_path))
                       (b64encode bytes) instruction) w1 = (reply, w2) ->
        extract_text_from_image read_bytes b64encode suffix_lower messages_create
          image_path document_type w
        = (Return match reply with
                  | Raise e => error_marker e
                  | Return (Message []) => no_text_extracted
                  | Return (Message (TextBlock t :: _)) => t
                  | Return (Message (OtherBlock :: _)) =>
                      error_marker
                        (Exn AttributeError "'ToolUseBlock' object has no attribute 'text'")
                  end, w2)).
Proof.
  unfold extract_text_from_image, image_to_base64, try_except, lift,
    mbind, Py_bind, bind, mret, Py_ret, ret, raise.
  rewrite get_ocr_prompt_lookup.
  repeat split.
  - destruct (read_bytes image_path w) as [[bytes|e] w1]; [|by eauto].
    destruct (messages_create _ w1) as [[[blocks]|e] w2]; [|by eauto].
    destruct blocks as [|[t|] rest]; simpl; eauto.
  - intros e w1 ->. done.
  - intros bytes w1 instruction reply w2 -> [= <-] ->.
    destruct reply as [[[|[t|] rest]]|e]; done.
Qed.
End SingleShotProperties.

Lemma extract_text_from_image_never_raises_witness :
  ClaudeOCR.extract_text_from_image
    Scenarios.read_any Scenarios.encode_plain Scenarios.suffix_png Scenarios.reply_empty
    "scan/page_0001.png" "table" tt
  = (Return ClaudeOCR.no_text_extracted, tt).
Proof.
  apply (proj2 (proj2
    (extract_text_from_image_never_raises
       Scenarios.read_any Scenarios.encode_plain Scenarios.suffix_png Scenarios.reply_empty
       "scan/page_0001.png" "table" tt))
    "PNG" tt ClaudeOCR.prompt_table (Return (ClaudeOCR.Message [])) tt);
    reflexivity.
Defined.

(** ** [ClaudeOCR.extract_text_batch] *)

Section BatchProperties.
Import ClaudeOCR.
Context {W : Type}.
Variable self_extract_text_from_image : string -> string -> Py W string.
Variable time_sleep : pynum -> Py W unit.

Lemma called_paths_app evs1 evs2 :
  called_paths (evs1 ++ evs2) = (called_paths evs1 ++ called_paths evs2)%list.
Proof. apply omap_app. Qed.

(** One iteration always completes, and leaves exactly one entry for its
    index, whatever the call, the callback and the sleep do. *)
Lemma batch_page_records document_type delay progress_callback total i path s :
  exists r s',
    batch_page self_extract_text_from_image time_sleep document_type delay
      progress_callback total (i, path) s = (Return tt, s')
    /\ results s' = <[i := r]> (results s)
    /\ (status r = "success" \/ status r = "error")
    /\ page r = i + 1
    /\ image_path r = path
    /\ called_paths (events s') = (called_paths (events s) ++ [path])%list.
Proof.
  unfold batch_page, try_except, call_extract, set_item, call_progress, sleep, emit,
    on_world, when, modify, mbind, Py_bind, bind, mret, Py_ret, ret.
  destruct s as [w res evs]; simpl.
  destruct (self_extract_text_from_image path document_type w) as [[txt|e] w1]; simpl.
  - destruct progress_callback as [cb|]; simpl.
    + destruct (cb (i + 1) total w1) as [[[]|e] w2]; simpl.
      * case_bool_decide; simpl.
        -- destruct (time_sleep delay w2) as [[[]|e] w3]; simpl;
             eexists _, _; (split; [reflexivity|]); simpl;
             rewrite ?insert_insert_eq, !called_paths_app; simpl;
             rewrite ?app_nil_r; auto 10.
        -- eexists _, _; (split; [reflexivity|]); simpl;
             rewrite !called_paths_app; simpl; rewrite ?app_nil_r; auto 10.
      * eexists _, _; (split; [reflexivity|]); simpl;
          rewrite ?insert_insert_eq, !called_paths_app; simpl;
          rewrite ?app_nil_r; auto 10.
    + case_bool_decide; simpl.
      * destruct (time_sleep delay w1) as [[[]|e] w3]; simpl;
          eexists _, _; (split; [reflexivity|]); simpl;
          rewrite ?insert_insert_eq, !called_paths_app; simpl;
          rewrite ?app_nil_r; auto 10.
      * eexists _, _; (split; [reflexivity|]); simpl;
          rewrite !called_paths_app; simpl; rewrite ?app_nil_r; auto 10.
  - eexists _, _; (split; [reflexivity|]); simpl;
      rewrite !called_paths_app; simpl; rewrite ?app_nil_r; auto 10.
Qed.

(** The loop over [enumerate(image_paths)], started at index [k]. *)
Lemma batch_loop_records document_type delay progress_callback total paths :
  forall k s, exists s',
    for_each (batch_page self_extract_text_from_image time_sleep document_type delay
                         progress_callback total)
             (enumerate_from k paths) s = (Return tt, s')
    /\ (forall i, i < k \/ k + length paths <= i -> results s' !! i = results s !! i)
    /\ (forall i, k <= i < k + length paths ->
          exists r, results s' !! i = Some r
                    /\ (status r = "success" \/ status r = "error")
                    /\ page r = i + 1
                    /\ paths !! (i - k) = Some (image_path r))
    /\ called_paths (events s') = (called_paths (events s) ++ paths)%list.
Proof.
  induction paths as [|path paths IH]; intros k s; simpl.
  - exists s. split; [done|]. split; [done|]. split; [|by rewrite app_nil_r].
    intros i Hi. lia.
  - destruct (batch_page_records document_type delay progress_callback total k path s)
      as (r & s1 & Hstep & Hres & Hstatus & Hpage & Hpath & Hcalls).
    destruct (IH (S k) s1) as (s' & Hloop & Hold & Hnew & Hcalls').
    exists s'. rewrite (bind_return _ _ _ _ _ Hstep). split; [exact Hloop|].
    split; [|split].
    + intros i Hi. rewrite Hold by lia. rewrite Hres.
      apply lookup_insert_ne. lia.
    + intros i Hi. destruct (decide (i = k)) as [->|Hne].
      * exists r. rewrite Hold by lia. rewrite Hres, lookup_insert_eq.
        replace (k - k) with 0 by lia. simpl. by rewrite Hpath.
      * destruct (Hnew i) as (r' & ? & ? & ? & Hlook); [lia|].
        exists r'. repeat split; try done.
        replace (i - k) with (S (i - S k)) by lia. exact Hlook.
    + rewrite Hcalls', Hcalls, <- app_assoc. done.
Qed.

(** C1: the batch always returns, and the mapping it returns has exactly the
    keys 0 .. N-1, each holding a result tagged success or error, with the
    page number and image of that index; every input path was handed to the
    transcription call once, in order. *)
Theorem extract_text_batch_keys (image_paths : list string) (document_type : string)
    (delay : pynum) (progress_callback : option (nat -> nat -> Py W unit))
    (s : state W) :
  exists res s',
    extract_text_batch self_extract_text_from_image time_sleep image_paths document_type
      delay progress_callback s = (Return res, s')
    /\ dom res = set_seq 0 (length image_paths)
    /\ size res = length image_paths
    /\ (forall i r, res !! i = Some r ->
          (status r = "success" \/ status r = "error")
          /\ page r = i + 1
          /\ image_paths !! i = Some (image_path r))
    /\ called_paths (events s') = (called_paths (events s) ++ image_paths)%list.
Proof.
  unfold extract_text_batch, enumerate.
  set (s0 := State (world s) ∅ (events s)).
  destruct (batch_loop_records document_type delay progress_callback
              (length image_paths) image_paths 0 s0)
    as (s' & Hloop & Hold & Hnew & Hcalls).
  assert (Hdom : dom (results s') = set_seq (C:=gset nat) 0 (length image_paths)).
  { apply set_eq. intros i. rewrite elem_of_dom, elem_of_set_seq. split.
    - intros [r Hr]. destruct (decide (i < length image_paths)); [lia|].
      rewrite Hold in Hr by lia. simpl in Hr. by rewrite lookup_empty in Hr.
    - intros Hi. destruct (Hnew i) as (r & -> & _); [lia|]. by eexists. }
  exists (results s'), s'. split; [|split; [|split; [|split]]].
  - unfold modify, get, mbind, Py_bind, bind, mret, Py_ret, ret.
    unfold mbind, Py_bind, bind in Hloop. fold s0. by rewrite Hloop.
  - exact Hdom.
  - rewrite <- size_dom, Hdom. apply size_set_seq.
  - intros i r Hr.
    assert (i < length image_paths) as Hi.
    { assert (i ∈ dom (results s')) as Hin by (apply elem_of_dom; eauto).
      rewrite Hdom, elem_of_set_seq in Hin. lia. }
    destruct (Hnew i) as (r' & Hr' & ? & ? & Hlook); [lia|].
    rewrite Hr in Hr'. injection Hr' as <-.
    replace (i - 0) with i in Hlook by lia. done.
  - exact Hcalls.
Qed.
End BatchProperties.

(** When every call returns, each page is reported right after its result is
    recorded, and the delay is slept between the pages only. *)
Example extract_text_batch_two_pages :
  ClaudeOCR.events
    (snd (ClaudeOCR.extract_text_batch (Scenarios.fails_first 0) Scenarios.no_wait
            ["page_0001.png"; "page_0002.png"] "general" Scenarios.one_second
            (Some Scenarios.silent_callback) Scenarios.fresh))
  = [ ClaudeOCR.EvCall "page_0001.png" "general" (Return "extracted text");
      ClaudeOCR.EvRecord 0
        (ClaudeOCR.PageResult 1 "extracted text" "success" "page_0001.png");
      ClaudeOCR.EvProgress 1 2;
      ClaudeOCR.EvSleep Scenarios.one_second;
      ClaudeOCR.EvCall "page_0002.png" "general" (Return "extracted text");
      ClaudeOCR.EvRecord 1
        (ClaudeOCR.PageResult 2 "extracted text" "success" "page_0002.png");
      ClaudeOCR.EvProgress 2 2 ].
Proof. vm_compute. reflexivity. Qed.

(** ** [ClaudeOCR.extract_with_retry] *)

Section RetryProperties.
Import ClaudeOCR.
Context {W : Type}.
Variable self_extract_text_from_image : string -> string -> Py W string.
Variable time_sleep : pynum -> Py W unit.

Lemma sleeps_app evs1 evs2 : sleeps (evs1 ++ evs2) = (sleeps evs1 ++ sleeps evs2)%list.
Proof. apply omap_app. Qed.

(** An attempt whose call returns: the function returns that text. *)
Lemma retry_attempt_success p d max_retries attempt w res evs txt w1 :
  self_extract_text_from_image p d w = (Return txt, w1) ->
  retry_attempt self_extract_text_from_image time_sleep p d max_retries attempt (State w res evs)
  = (Return (ReturnValue txt), State w1 res (evs ++ [EvCall p d (Return txt)])).
Proof.
  intros H. unfold retry_attempt, try_except, call_extract, mbind, Py_bind, bind,
    mret, Py_ret, ret.
  simpl. by rewrite H.
Qed.

(** A failed attempt that is not the last one: sleep [2 ** attempt], go on. *)
Lemma retry_attempt_backoff p d max_retries attempt w res evs e w1 w2 :
  attempt <> (max_retries - 1)%Z ->
  self_extract_text_from_image p d w = (Raise e, w1) ->
  time_sleep (PyInt (2 ^ attempt)) w1 = (Return tt, w2) ->
  retry_attempt self_extract_text_from_image time_sleep p d max_retries attempt (State w res evs)
  = (Return Continue,
     State w2 res (evs ++ [EvCall p d (Raise e); EvSleep (PyInt (2 ^ attempt))])).
Proof.
  intros Hne H Hs.
  unfold retry_attempt, try_except, call_extract, sleep, emit, on_world, modify,
    mbind, Py_bind, bind, mret, Py_ret, ret.
  simpl. rewrite H. rewrite bool_decide_eq_false_2 by done. simpl.
  rewrite Hs. by rewrite <- app_assoc.
Qed.

(** A failed last attempt: the exception is raised again, without a sleep. *)
Lemma retry_attempt_exhausted p d max_retries w res evs e w1 :
  self_extract_text_from_image p d w = (Raise e, w1) ->
  retry_attempt self_extract_text_from_image time_sleep p d max_retries (max_retries - 1)
    (State w res evs)
  = (Raise e, State w1 res (evs ++ [EvCall p d (Raise e)])).
Proof.
  intros H.
  unfold retry_attempt, try_except, call_extract, raise, mbind, Py_bind, bind.
  simpl. rewrite H. by rewrite bool_decide_eq_true_2.
Qed.

Lemma retry_loop_all_fail p d max_retries :
  (forall w, exists e w', self_extract_text_from_image p d w = (Raise e, w')) ->
  (forall z w, exists w', time_sleep z w = (Return tt, w')) ->
  forall m a s,
    1 <= m -> max_retries = Z.of_nat (a + m) ->
    exists e s' evs,
      retry_loop self_extract_text_from_image time_sleep p d max_retries
        (Z.of_nat <$> seq a m) s = (Raise e, s')
      /\ events s' = (events s ++ evs)%list
      /\ last evs = Some (EvCall p d (Raise e))
      /\ sleeps evs = (fun k => PyInt (2 ^ Z.of_nat k)) <$> seq a (m - 1)
      /\ length (called_paths evs) = m.
Proof.
  intros Hfail Hsleep. induction m as [|m IH]; intros a [w res evs0] Hm Hmax; [lia|].
  destruct (Hfail w) as (e & w1 & Hcall). simpl.
  destruct (decide (m = 0)) as [->|Hm'].
  - assert (Z.of_nat a = (max_retries - 1)%Z) as -> by lia.
    rewrite (bind_raise _ _ _ _ _
      (retry_attempt_exhausted p d max_retries w res evs0 e w1 Hcall)).
    eexists e, _, [EvCall p d (Raise e)]. simpl. done.
  - destruct (Hsleep (PyInt (2 ^ Z.of_nat a)) w1) as (w2 & Hs).
    rewrite (bind_return _ _ _ _ _
      (retry_attempt_backoff p d max_retries (Z.of_nat a) w res evs0 e w1 w2
         ltac:(lia) Hcall Hs)).
    destruct (IH (S a) (State w2 res
                (evs0 ++ [EvCall p d (Raise e); EvSleep (PyInt (2 ^ Z.of_nat a))])))
      as (e' & s' & evs & Hloop & Hev & Hlast & Hsl & Hlen); [lia|lia|].
    exists e', s', ([EvCall p d (Raise e); EvSleep (PyInt (2 ^ Z.of_nat a))] ++ evs)%list.
    split; [exact Hloop|]. split; [|split; [|split]].
    + rewrite Hev. simpl. by rewrite <- app_assoc.
    + rewrite last_app, Hlast. done.
    + rewrite sleeps_app, Hsl. simpl.
      replace (m - 0) with (S (m - 1)) by lia. done.
    + rewrite called_paths_app, length_app, Hlen. done.
Qed.

(** C4: with [max_retries = 3], two failures followed by a success give the
    text of the third call after sleeps of 1 and 2 seconds, and there is no
    fourth call; and when every one of the [max_retries] attempts raises, the
    exception of the last call is raised again, the sleeps are
    [2^0, ..., 2^(max_retries-2)] and nothing follows the last call. *)
Theorem extract_with_retry_backoff (image_path document_type : string) :
  (forall s e1 w1 w2 e2 w3 w4 txt w5,
      self_extract_text_from_image image_path document_type (world s) = (Raise e1, w1) ->
      time_sleep (PyInt 1) w1 = (Return tt, w2) ->
      self_extract_text_from_image image_path document_type w2 = (Raise e2, w3) ->
      time_sleep (PyInt 2) w3 = (Return tt, w4) ->
      self_extract_text_from_image image_path document_type w4 = (Return txt, w5) ->
      extract_with_retry self_extract_text_from_image time_sleep image_path document_type 3 s
      = (Return (Some txt),
         State w5 (results s)
               (events s ++ [ EvCall image_path document_type (Raise e1);
                              EvSleep (PyInt 1);
                              EvCall image_path document_type (Raise e2);
                              EvSleep (PyInt 2);
                              EvCall image_path document_type (Return txt) ])))
  /\ (forall max_retries s,
        (1 <= max_retries)%Z ->
        (forall w, exists e w',
            self_extract_text_from_image image_path document_type w = (Raise e, w')) ->
        (forall z w, exists w', time_sleep z w = (Return tt, w')) ->
        exists e s' evs,
          extract_with_retry self_extract_text_from_image time_sleep image_path document_type
            max_retries s = (Raise e, s')
          /\ events s' = (events s ++ evs)%list
          /\ last evs = Some (EvCall image_path document_type (Raise e))
          /\ sleeps evs = (fun k => PyInt (2 ^ k)) <$> range (max_retries - 1)
          /\ length (called_paths evs) = Z.to_nat max_retries).
Proof.
  split.
  - intros s e1 w1 w2 e2 w3 w4 txt w5 H1 S1 H2 S2 H3.
    unfold extract_with_retry, range.
    change (Z.of_nat <$> seq 0 (Z.to_nat 3)) with [0%Z; 1%Z; 2%Z].
    cbn [retry_loop]. destruct s as [w res evs]. simpl in H1.
    rewrite (bind_return _ _ _ _ _
      (retry_attempt_backoff image_path document_type 3 0 w res evs e1 w1 w2
         ltac:(lia) H1 S1)).
    rewrite (bind_return _ _ _ _ _
      (retry_attempt_backoff image_path document_type 3 1 w2 res _ e2 w3 w4
         ltac:(lia) H2 S2)).
    rewrite (bind_return _ _ _ _ _
      (retry_attempt_success image_path document_type 3 2 w4 res _ txt w5 H3)).
    cbn. rewrite <- !app_assoc. done.
  - intros max_retries s Hmax Hfail Hsleep.
    unfold extract_with_retry, range.
    destruct (retry_loop_all_fail image_path document_type max_retries Hfail Hsleep
                (Z.to_nat max_retries) 0 s)
      as (e & s' & evs & Hloop & Hev & Hlast & Hsl & Hlen); [lia|lia|].
    exists e, s', evs. repeat split; try done.
    rewrite Hsl, <- list_fmap_compose.
    replace (Z.to_nat (max_retries - 1)) with (Z.to_nat max_retries - 1) by lia.
    done.
Qed.
End RetryProperties.

Lemma extract_with_retry_backoff_witness :
  ClaudeOCR.extract_with_retry (Scenarios.fails_first 2) Scenarios.no_wait
    "page_0001.png" "general" 3 Scenarios.fresh
  = (Return (Some "extracted text"),
     ClaudeOCR.State 3 ∅
       [ ClaudeOCR.EvCall "page_0001.png" "general" (Raise (Scenarios.api_error 0));
         ClaudeOCR.EvSleep (PyInt 1);
         ClaudeOCR.EvCall "page_0001.png" "general" (Raise (Scenarios.api_error 1));
         ClaudeOCR.EvSleep (PyInt 2);
         ClaudeOCR.EvCall "page_0001.png" "general" (Return "extracted text") ])
  /\ exists e s' evs,
      ClaudeOCR.extract_with_retry Scenarios.always_fails Scenarios.no_wait
        "page_0001.png" "general" 3 Scenarios.fresh = (Raise e, s')
      /\ ClaudeOCR.events s' = (ClaudeOCR.events Scenarios.fresh ++ evs)%list
      /\ last evs = Some (ClaudeOCR.EvCall "page_0001.png" "general" (Raise e))
      /\ ClaudeOCR.sleeps evs = (fun k => PyInt (2 ^ k)) <$> ClaudeOCR.range (3 - 1)
      /\ length (ClaudeOCR.called_paths evs) = Z.to_nat 3.
Proof.
  split.
  - apply (proj1 (extract_with_retry_backoff (Scenarios.fails_first 2) Scenarios.no_wait
                    "page_0001.png" "general")
             Scenarios.fresh (Scenarios.api_error 0) 1 1 (Scenarios.api_error 1) 2 2
             "extracted text" 3); reflexivity.
  - apply (proj2 (extract_with_retry_backoff Scenarios.always_fails Scenarios.no_wait
                    "page_0001.png" "general") 3%Z Scenarios.fresh).
    + lia.
    + intros w. exists (Scenarios.api_error w), (S w). reflexivity.
    + intros z w. exists w. reflexivity.
Defined.

(** ** [PDFConverter.optimize_image_for_ocr] *)

(** C5: an A4 page rasterized at 96 dpi is 794 x 1123 pixels.  Its width is
    below 1000, the scale factor is [1000 / 794], and [794 * (1000 / 794)] is
    a float just below 1000, which [int] truncates to 999: the returned image
    is 999 pixels wide. *)
Theorem optimize_image_for_ocr_a4_96dpi_width_999 :
  PDFConverter.true_div 1000 794 = Return 0x1.426b0af653d42p+0%float
  /\ PDFConverter.int_of_float
       (PDFConverter.int_mul_float 794 0x1.426b0af653d42p+0%float) = Return 999%Z
  /\ PDFConverter.optimize_image_for_ocr Scenarios.pillow_works Scenarios.a4_at_96dpi
     = Return (PDFConverter.Image (999, 1414)%Z "RGB" 0
                 [ PDFConverter.OpResizeLanczos 999 1414;
                   PDFConverter.OpContrast PDFConverter.contrast_factor;
                   PDFConverter.OpSharpness PDFConverter.sharpness_factor ]).
Proof. repeat split; vm_compute; reflexivity. Qed.

(** An image that is large enough is not resized, and an image of width 0
    makes [1000 / width] raise, which the [except] clause turns into the
    unchanged input. *)
Example optimize_image_for_ocr_large_page :
  PDFConverter.optimize_image_for_ocr Scenarios.pillow_works Scenarios.a4_at_300dpi
  = Return (PDFConverter.Image (2480, 3508)%Z "RGB" 0
              [ PDFConverter.OpContrast PDFConverter.contrast_factor;
                PDFConverter.OpSharpness PDFConverter.sharpness_factor ]).
Proof. vm_compute. reflexivity. Qed.

Example optimize_image_for_ocr_zero_width :
  PDFConverter.optimize_image_for_ocr Scenarios.pillow_works
    (PDFConverter.Image (0, 800)%Z "RGBA" 0 [])
  = Return (PDFConverter.Image (0, 800)%Z "RGBA" 0 []).
Proof. vm_compute. reflexivity. Qed.

Section OptimizeProperties.
Import PDFConverter.
Variable pil_raises : pil_call -> option exn.

Lemma try_sequence_last_assigned (l : list (Py image unit)) (img : image) :
  try_except (in_sequence l) (fun _ => get) img
  = (Return (last_assigned l img), last_assigned l img).
Proof.
  revert img. induction l as [|step rest IH]; intros img; [done|].
  unfold try_except in *. simpl.
  unfold mbind, Py_bind, bind.
  destruct (step img) as [[[]|e] img']; [|done].
  apply IH.
Qed.

(** A block that raises has not reassigned [image]. *)
Lemma upscale_if_small_atomic img e img' :
  upscale_if_small pil_raises img = (Raise e, img') -> img' = img.
Proof.
  unfold upscale_if_small, when, assign, modify, lift, get, resize, pil,
    mbind, Py_bind, bind, mret, Py_ret, ret.
  destruct (size img) as [width height].
  repeat (case_match; simplify_eq/=; try done); by intros [= _ ->].
Qed.

Lemma to_rgb_atomic img e img' :
  to_rgb pil_raises img = (Raise e, img') -> img' = img.
Proof.
  unfold to_rgb, assign, modify, lift, get, flatten_on_white, convert, pil,
    mbind, Py_bind, bind, mret, Py_ret, ret.
  repeat (case_match; simplify_eq/=; try done); by intros [= _ ->].
Qed.

Lemma boost_contrast_atomic img e img' :
  boost_contrast pil_raises img = (Raise e, img') -> img' = img.
Proof.
  unfold boost_contrast, assign, modify, lift, get, enhance_contrast, pil,
    mbind, Py_bind, bind, mret, Py_ret, ret.
  repeat (case_match; simplify_eq/=; try done); by intros [= _ ->].
Qed.

Lemma boost_sharpness_atomic img e img' :
  boost_sharpness pil_raises img = (Raise e, img') -> img' = img.
Proof.
  unfold boost_sharpness, assign, modify, lift, get, enhance_sharpness, pil,
    mbind, Py_bind, bind, mret, Py_ret, ret.
  repeat (case_match; simplify_eq/=; try done); by intros [= _ ->].
Qed.

(** C6, as the code has it: the preprocessor never raises.  It returns the
    variable [image] as the blocks completed before the failure left it; a
    block that raises leaves the variable as it found it, so the original
    image comes back when the upscaling block is the one that fails. *)
Theorem optimize_image_for_ocr_returns_last_assigned (img : image) :
  optimize_image_for_ocr pil_raises img = Return (last_assigned (optimize_steps pil_raises) img)
  /\ (forall step i e i',
        step ∈ optimize_steps pil_raises -> step i = (Raise e, i') -> i' = i)
  /\ (forall e i',
        upscale_if_small pil_raises img = (Raise e, i') ->
        optimize_image_for_ocr pil_raises img = Return img).
Proof.
  assert (Hrun : optimize_image_for_ocr pil_raises img
                 = Return (last_assigned (optimize_steps pil_raises) img)).
  { unfold optimize_image_for_ocr.
    change (upscale_if_small pil_raises;; to_rgb pil_raises;; boost_contrast pil_raises;;
            boost_sharpness pil_raises;; get)
      with (in_sequence (optimize_steps pil_raises)).
    by rewrite try_sequence_last_assigned. }
  split; [exact Hrun|]. split.
  - intros step i e i' Hin Hstep. unfold optimize_steps in Hin.
    rewrite !elem_of_cons in Hin.
    destruct Hin as [->|[->|[->|[->|Hin]]]].
    + by eapply upscale_if_small_atomic.
    + by eapply to_rgb_atomic.
    + by eapply boost_contrast_atomic.
    + by eapply boost_sharpness_atomic.
    + by apply elem_of_nil in Hin.
  - intros e i' Hfail. rewrite Hrun. f_equal.
    unfold optimize_steps, last_assigned. rewrite Hfail.
    by eapply upscale_if_small_atomic.
Qed.
End OptimizeProperties.

Lemma optimize_image_for_ocr_returns_last_assigned_witness :
  PDFConverter.optimize_image_for_ocr Scenarios.resize_fails Scenarios.a4_at_96dpi
  = Return Scenarios.a4_at_96dpi.
Proof.
  apply (proj2 (proj2 (optimize_image_for_ocr_returns_last_assigned
                         Scenarios.resize_fails Scenarios.a4_at_96dpi))
           (Exn ValueError "height and width must be > 0") Scenarios.a4_at_96dpi).
  vm_compute. reflexivity.
Defined.

(** C6, as stated, fails: when the sharpness enhancer cannot be built for a
    300 dpi RGB page, the image that comes back is the contrast-boosted one,
    not the original. *)
Lemma optimize_image_for_ocr_returns_boosted_image :
  PDFConverter.optimize_image_for_ocr Scenarios.sharpness_fails Scenarios.a4_at_300dpi
  = Return (PDFConverter.Image (2480, 3508)%Z "RGB" 0
              [PDFConverter.OpContrast PDFConverter.contrast_factor])
  /\ PDFConverter.history Scenarios.a4_at_300dpi = []
  /\ PDFConverter.Image (2480, 3508)%Z "RGB" 0
       [PDFConverter.OpContrast PDFConverter.contrast_factor]
     <> Scenarios.a4_at_300dpi.
Proof.
  split; [vm_compute; reflexivity|]. split; [reflexivity|].
  unfold Scenarios.a4_at_300dpi. intros H. discriminate H.
Qed.

(** ** [PDFConverter.convert_pdf_to_images] *)

Section RasterizerProperties.
Import PDFConverter.
Variable pil_raises : pil_call -> option exn.
Variable subprocess_run : list string -> outcome Z.
Variable mkdtemp : outcome string.
Variable makedirs : string -> outcome unit.
Variable convert_from_path : string -> Z -> option Z -> option Z -> outcome (list image).

(** Neither command can be started: the check answers [False]. *)
Lemma check_poppler_installation_absent m1 m2 :
  subprocess_run ["pdftoppm"; "-h"] = Raise (Exn FileNotFoundError m1) ->
  subprocess_run ["pdftocairo"; "-h"] = Raise (Exn FileNotFoundError m2) ->
  check_poppler_installation subprocess_run = false.
Proof.
  intros H1 H2. unfold check_poppler_installation, try_commands.
  by rewrite H1, H2.
Qed.

(** A failed check stops the conversion before anything else is done. *)
Lemma convert_pdf_to_images_unchecked pdf_path output_folder dpi first_page last_page
    progress_callback s :
  check_poppler_installation subprocess_run = false ->
  convert_pdf_to_images pil_raises subprocess_run mkdtemp makedirs convert_from_path
    pdf_path output_folder dpi first_page last_page progress_callback s
  = (Raise (Exn PDFInfoNotInstalledError poppler_missing_message), s).
Proof.
  intros Hcheck.
  unfold convert_pdf_to_images, try_except, when, raise, mbind, Py_bind, bind.
  by rewrite Hcheck.
Qed.

(** C7: when neither [pdftoppm] nor [pdftocairo] exists, the conversion
    raises [PDFInfoNotInstalledError] with the installation hint, and the
    state is the one it started from: no directory and no file was created,
    no progress reported. *)
Theorem convert_pdf_to_images_poppler_missing (pdf_path : string)
    (output_folder : option string) (dpi : Z) (first_page last_page : option Z)
    (progress_callback : option (nat -> nat -> outcome unit)) (s : cstate)
    (m1 m2 : string) :
  subprocess_run ["pdftoppm"; "-h"] = Raise (Exn FileNotFoundError m1) ->
  subprocess_run ["pdftocairo"; "-h"] = Raise (Exn FileNotFoundError m2) ->
  exists e s',
    convert_pdf_to_images pil_raises subprocess_run mkdtemp makedirs convert_from_path
      pdf_path output_folder dpi first_page last_page progress_callback s
    = (Raise e, s')
    /\ class_of e = PDFInfoNotInstalledError
    /\ str e = poppler_missing_message
    /\ str e <> ""
    /\ dirs_created s' = dirs_created s
    /\ files_written s' = files_written s
    /\ s' = s.
Proof.
  intros H1 H2.
  exists (Exn PDFInfoNotInstalledError poppler_missing_message), s.
  split.
  - apply convert_pdf_to_images_unchecked.
    by eapply check_poppler_installation_absent.
  - repeat split; done.
Qed.
End RasterizerProperties.

Lemma convert_pdf_to_images_poppler_missing_witness :
  exists e s',
    PDFConverter.convert_pdf_to_images Scenarios.pillow_works Scenarios.poppler_absent
      Scenarios.temp_dir Scenarios.makedirs_ok Scenarios.one_page_pdf
      "scan.pdf" None 300 None None None Scenarios.nothing_created
    = (Raise e, s')
    /\ class_of e = PDFInfoNotInstalledError
    /\ str e = PDFConverter.poppler_missing_message
    /\ str e <> ""
    /\ PDFConverter.dirs_created s' = []
    /\ PDFConverter.files_written s' = []
    /\ s' = Scenarios.nothing_created.
Proof.
  apply (convert_pdf_to_images_poppler_missing Scenarios.pillow_works
           Scenarios.poppler_absent Scenarios.temp_dir Scenarios.makedirs_ok
           Scenarios.one_page_pdf "scan.pdf" None 300 None None None
           Scenarios.nothing_created
           "[Errno 2] No such file or directory" "[Errno 2] No such file or directory");
    reflexivity.
Defined.

(** With Poppler present the same call does create the temporary directory
    and writes the page into it. *)
Example convert_pdf_to_images_poppler_present :
  PDFConverter.convert_pdf_to_images Scenarios.pillow_works Scenarios.poppler_present
    Scenarios.temp_dir Scenarios.makedirs_ok Scenarios.one_page_pdf
    "scan.pdf" None 300 None None None Scenarios.nothing_created
  = (Return ["/tmp/tmpk3x9/page_0001.png"],
     PDFConverter.CState ["/tmp/tmpk3x9"]
       [("/tmp/tmpk3x9/page_0001.png",
         PDFConverter.Image (2480, 3508)%Z "RGB" 0
           [ PDFConverter.OpContrast PDFConverter.contrast_factor;
             PDFConverter.OpSharpness PDFConverter.sharpness_factor ])]
       [] ["/tmp/tmpk3x9/page_0001.png"]).
Proof. vm_compute. reflexivity. Qed.

(** ** [FileManager.save_as_txt] *)

Lemma str_app_assoc (a b c : string) : (a ++ b) ++ c = a ++ (b ++ c).
Proof.
  induction a as [|x a IH]; [done|].
  change (String x ((a ++ b) ++ c) = String x (a ++ (b ++ c))). by f_equal.
Qed.

Lemma str_app_nil_r (a : string) : a ++ "" = a.
Proof.
  induction a as [|x a IH]; [done|].
  change (String x (a ++ "") = String x a). by f_equal.
Qed.

Lemma Sorted_le_seq (k n : nat) : Sorted Nat.le (seq k n).
Proof.
  revert k. induction n as [|n IH]; intros k; simpl; [constructor|].
  constructor; [apply IH|].
  destruct n; simpl; constructor. unfold Nat.le. lia.
Qed.

Lemma foldl_max_bounds (l : list nat) : forall x,
  (foldl Nat.max x l ∈ x :: l) /\ (forall y, y ∈ x :: l -> y <= foldl Nat.max x l).
Proof.
  induction l as [|z l IH]; intros x; simpl.
  - split; [apply elem_of_cons; auto|].
    intros y Hy. apply list_elem_of_singleton in Hy. lia.
  - destruct (IH (x `max` z)) as [Hin Hle]. split.
    + apply elem_of_cons in Hin as [Heq|Hin].
      * rewrite Heq.
        destruct (Nat.max_spec x z) as [[_ ->]|[_ ->]]; rewrite !elem_of_cons; auto.
      * rewrite !elem_of_cons; auto.
    + intros y Hy.
      assert (x `max` z <= foldl Nat.max (x `max` z) l)
        by (apply Hle, elem_of_cons; auto).
      rewrite !elem_of_cons in Hy. destruct Hy as [->|[->|Hy]]; [lia|lia|].
      apply Hle, elem_of_cons; auto.
Qed.

Section DictionaryKeys.
Import ClaudeOCR FileManager.
Variable ocr_results : gmap nat page_result.
Variable n : nat.
Hypothesis Hkeys : dom ocr_results = set_seq 0 n.

Lemma keys_permutation : keys ocr_results ≡ₚ seq 0 n.
Proof.
  apply NoDup_Permutation.
  - apply NoDup_fst_map_to_list.
  - apply NoDup_seq.
  - intros i. unfold keys. rewrite elem_of_seq.
    assert (i ∈ (map_to_list ocr_results).*1 <-> i ∈ dom ocr_results) as ->.
    { rewrite elem_of_dom, list_elem_of_fmap. split.
      - intros [[j r] [-> Hin]]. apply elem_of_map_to_list in Hin. by eexists.
      - intros [r Hr]. exists (i, r). split; [done|]. by apply elem_of_map_to_list. }
    rewrite Hkeys, elem_of_set_seq. lia.
Qed.

Lemma sorted_keys : sorted (keys ocr_results) = seq 0 n.
Proof.
  unfold sorted. apply (Sorted_unique Nat.le).
  - apply Sorted_merge_sort. apply _.
  - apply Sorted_le_seq.
  - rewrite merge_sort_Permutation. apply keys_permutation.
Qed.

Lemma size_results : size ocr_results = n.
Proof. rewrite <- size_dom, Hkeys. apply size_set_seq. Qed.

Lemma getitem_in_range i :
  i < n -> exists r, ocr_results !! i = Some r /\ getitem ocr_results i = Return r.
Proof.
  intros Hi. assert (i ∈ dom ocr_results) as [r Hr]%elem_of_dom.
  { rewrite Hkeys, elem_of_set_seq. lia. }
  exists r. unfold getitem. by rewrite Hr.
Qed.

Lemma py_max_keys : 1 <= n -> py_max (keys ocr_results) = Return (n - 1).
Proof.
  intros Hn. pose proof keys_permutation as Hperm.
  unfold py_max. destruct (keys ocr_results) as [|x l] eqn:E.
  - apply Permutation_length in Hperm. rewrite length_seq in Hperm. simpl in Hperm. lia.
  - f_equal. destruct (foldl_max_bounds l x) as [Hin Hle].
    assert (foldl Nat.max x l < n).
    { rewrite Hperm, elem_of_seq in Hin. lia. }
    assert (n - 1 <= foldl Nat.max x l).
    { apply Hle. rewrite Hperm, elem_of_seq. lia. }
    lia.
Qed.
End DictionaryKeys.

Lemma concat_cons (x : string) (xs : list string) :
  String.concat "" (x :: xs) = x ++ String.concat "" xs.
Proof.
  destruct xs as [|y ys]; simpl; [by rewrite str_app_nil_r|done].
Qed.

Section TextRendering.
Import ClaudeOCR FileManager.
Variable raises : list library_call -> library_call -> option exn.
Variable flushed : string -> string -> nat.
Hypothesis Hio : forall l c, raises l (FileIO c) = None.
Variable path : string.

Lemma appends_ret {A : Type} before (a : A) : appends path before before (mret a) a.
Proof. intros s Hs. by exists s. Qed.

Lemma appends_lift {A : Type} before (a : A) :
  appends path before before (lift (Return a)) a.
Proof. intros s Hs. by exists s. Qed.

Lemma appends_bind {A B : Type} before mid after (c : Py fstate A) (k : A -> Py fstate B) a b :
  appends path before mid c a ->
  appends path mid after (k a) b ->
  appends path before after (c ≫= k) b.
Proof.
  intros Hc Hk s Hs. destruct (Hc s Hs) as (s1 & Hrun & Hs1).
  destruct (Hk s1 Hs1) as (s2 & Hrun2 & Hs2).
  exists s2. by rewrite (bind_return _ _ _ _ _ Hrun).
Qed.

Lemma appends_eq {A : Type} before after after' (c : Py fstate A) a :
  appends path before after c a -> after = after' -> appends path before after' c a.
Proof. by intros H <-. Qed.

Lemma appends_write before chunk :
  appends path before (before ++ chunk) (write raises path chunk) tt.
Proof.
  intros s Hs. unfold write, call, modify, mbind, Py_bind, bind.
  rewrite Hio. eexists. split; [reflexivity|]. simpl.
  by rewrite lookup_alter_eq, Hs.
Qed.

Lemma appends_when before after (c : bool) stmt :
  (c = true -> appends path before after stmt tt) ->
  (c = false -> after = before) ->
  appends path before after (when c stmt) tt.
Proof.
  intros Ht Hf. destruct c; simpl; [by apply Ht|].
  rewrite Hf by done. apply appends_ret.
Qed.

Lemma open_w_truncates s :
  exists s', open_w raises path s = (Return tt, s')
             /\ files s' !! path = Some (TextFile "").
Proof.
  unfold open_w, call, modify, mbind, Py_bind, bind. rewrite Hio.
  eexists. split; [reflexivity|]. simpl. apply lookup_insert_eq.
Qed.

(** A [with] block whose file calls all return: the file holds what the body
    wrote, and the block returns what the body returned. *)
Lemma with_open_w_appends {A : Type} after (body : Py fstate A) a s :
  appends path "" after body a ->
  exists s',
    with_open_w raises flushed path body s = (Return a, s')
    /\ files s' !! path = Some (TextFile after).
Proof.
  intros Hbody. destruct (open_w_truncates s) as (s0 & Hopen & Hfile).
  destruct (Hbody s0 Hfile) as (s1 & Hrun & Hs1).
  unfold with_open_w. rewrite (bind_return _ _ _ _ _ Hopen), Hrun.
  unfold close, mbind, Py_bind, bind, mret, Py_ret, ret. rewrite Hio.
  by eexists.
Qed.

Section Pages.
Variable ocr_results : gmap nat page_result.
Variable n : nat.
Hypothesis Hkeys : dom ocr_results = set_seq 0 n.
Variable include_page_numbers : bool.
Variable page_separator : string.

Lemma txt_page_layout before i :
  i < n ->
  appends path before
    (before ++ layout_page ocr_results n include_page_numbers page_separator i)
    (txt_page raises ocr_results path include_page_numbers page_separator i) tt.
Proof.
  intros Hi.
  destruct (getitem_in_range ocr_results n Hkeys i Hi) as (r & Hr & Hget).
  unfold txt_page, layout_page. rewrite Hr, Hget, (py_max_keys ocr_results n Hkeys) by lia.
  eapply (appends_bind before before _ _ _ r); [apply appends_lift|].
  eapply appends_bind.
  { apply appends_when with (after := before ++ txt_label include_page_numbers r).
    - intros ->. eapply appends_bind; [apply appends_write|].
      eapply appends_eq; [apply appends_write|].
      unfold txt_label. by rewrite !str_app_assoc.
    - intros ->. unfold txt_label. by rewrite str_app_nil_r. }
  eapply (appends_bind _ ((before ++ txt_label include_page_numbers r) ++ txt_body r)).
  { unfold txt_body. case_bool_decide; apply appends_write. }
  eapply (appends_bind _ _ _ _ _ (n - 1)); [apply appends_lift|].
  apply appends_when.
  - intros Hlast%bool_decide_eq_true.
    eapply appends_eq; [apply appends_write|].
    rewrite bool_decide_eq_true_2 by lia. by rewrite !str_app_assoc.
  - intros Hlast%bool_decide_eq_false.
    rewrite bool_decide_eq_false_2 by lia.
    by rewrite !str_app_assoc, str_app_nil_r.
Qed.

Lemma txt_pages_layout m : forall k before,
  k + m <= n ->
  appends path before
    (before ++ layout_pages ocr_results n include_page_numbers page_separator (seq k m))
    (for_each (txt_page raises ocr_results path include_page_numbers page_separator)
              (seq k m)) tt.
Proof.
  induction m as [|m IH]; intros k before Hk; simpl.
  - eapply appends_eq; [apply appends_ret|]. unfold layout_pages. simpl.
    by rewrite str_app_nil_r.
  - eapply appends_bind; [apply txt_page_layout; lia|].
    eapply appends_eq; [apply IH; lia|].
    unfold layout_pages. rewrite fmap_cons, concat_cons. by rewrite !str_app_assoc.
Qed.

(** C8: for a mapping with the keys 0 .. n-1 and a file that can be
    opened, written and closed, [save_as_txt] returns [True] and the file
    holds the header
    banner declaring [n], the pages in ascending order (optional label, text
    with the error mark exactly when the status is not success, separator
    except after the last page) and the footer banner with [n].  Without
    pages the file is header and footer; with one page no separator is
    written. *)
Theorem save_as_txt_layout (s : fstate) :
  (exists s',
      save_as_txt raises flushed ocr_results path include_page_numbers page_separator s
      = (Return true, s')
      /\ files s' !! path
         = Some (TextFile (layout_txt ocr_results n include_page_numbers page_separator)))
  /\ (n = 0 ->
      layout_txt ocr_results n include_page_numbers page_separator
      = txt_header 0 ++ txt_footer 0)
  /\ (n = 1 -> forall r, ocr_results !! 0 = Some r ->
      layout_txt ocr_results n include_page_numbers page_separator
      = txt_header 1 ++ txt_label include_page_numbers r ++ txt_body r ++ txt_footer 1).
Proof.
  split; [|split].
  - assert (Hrest : appends path ""
                      (layout_txt ocr_results n include_page_numbers page_separator)
      (txt_writes raises ocr_results path include_page_numbers page_separator) tt).
    { unfold txt_writes.
      rewrite (sorted_keys ocr_results n Hkeys), (size_results ocr_results n Hkeys).
      do 4 (eapply appends_bind; [apply appends_write|]).
      eapply appends_bind; [apply txt_pages_layout; lia|].
      eapply appends_bind; [apply appends_write|].
      eapply appends_eq; [apply appends_write|].
      unfold layout_txt, txt_header, txt_footer. by rewrite !str_app_assoc. }
    destruct (with_open_w_appends _ _ tt s Hrest) as (s' & Hrun & Hs').
    exists s'. split; [|exact Hs'].
    unfold save_as_txt. apply try_except_return.
    by rewrite (bind_return _ _ _ _ _ Hrun).
  - intros ->. unfold layout_txt, layout_pages. done.
  - intros -> r Hr. unfold layout_txt, layout_pages, layout_page. simpl.
    rewrite Hr. by rewrite ?str_app_nil_r, ?str_app_assoc.
Qed.
End Pages.
End TextRendering.

Lemma save_as_txt_layout_witness :
  exists s',
    FileManager.save_as_txt Scenarios.libraries_work Scenarios.nothing_flushed
      Scenarios.two_pages "scan_ocr.txt" true FileManager.default_page_separator
      Scenarios.empty_disk
    = (Return true, s')
    /\ FileManager.files s' !! "scan_ocr.txt"
       = Some (FileManager.TextFile
                 (FileManager.layout_txt Scenarios.two_pages 2 true
                    FileManager.default_page_separator)).
Proof.
  apply (save_as_txt_layout Scenarios.libraries_work Scenarios.nothing_flushed
           (fun _ _ => eq_refl) "scan_ocr.txt" Scenarios.two_pages 2).
  apply set_eq. intros i. rewrite elem_of_dom, elem_of_set_seq.
  unfold Scenarios.two_pages. split.
  - intros [r Hr]. destruct (decide (i = 1)) as [->|]; [lia|].
    rewrite lookup_insert_ne in Hr by done.
    destruct (decide (i = 0)) as [->|]; [lia|].
    rewrite lookup_insert_ne in Hr by done. by rewrite lookup_empty in Hr.
  - intros Hi. destruct (decide (i = 1)) as [->|]; [by rewrite lookup_insert_eq|].
    rewrite lookup_insert_ne by done.
    assert (i = 0) as -> by lia. by rewrite lookup_insert_eq.
Defined.

(** The file written for the two pages, byte for byte. *)
Example save_as_txt_two_pages :
  FileManager.files
    (snd (FileManager.save_as_txt Scenarios.libraries_work Scenarios.nothing_flushed
            Scenarios.two_pages "scan_ocr.txt" true FileManager.default_page_separator
            Scenarios.empty_disk))
    !! "scan_ocr.txt"
  = Some (FileManager.TextFile
"PDF OCR 결과
==================================================
총 페이지 수: 2
==================================================

페이지 1
--------------------
first page
==================================================
페이지 2
--------------------
[오류] 오류 발생: overloaded

==================================================
처리 완료: 2페이지").
Proof. vm_compute. reflexivity. Qed.

(** On a device without space left the file opens and every [write]
    returns; the [close] that ends the [with] block raises inside the [try],
    so the method returns [False], and here nothing has reached the file. *)
Example save_as_txt_no_space_left :
  exists s',
    FileManager.save_as_txt Scenarios.no_space_left Scenarios.nothing_flushed
      Scenarios.two_pages "/dev/full" true FileManager.default_page_separator
      Scenarios.empty_disk = (Return false, s')
    /\ FileManager.files s' !! "/dev/full" = Some (FileManager.TextFile "")
    /\ length (FileManager.log s') = 15
    /\ last (FileManager.log s')
       = Some (FileManager.FileIO (FileManager.Close "/dev/full")).
Proof. eexists. split; [vm_compute; reflexivity|]. repeat split; vm_compute; reflexivity. Qed.

(** ** [FileManager.save_as_pdf_fpdf] and [FileManager.save_as_pdf_reportlab] *)

Section CallLog.
Import ClaudeOCR FileManager.
Variable P : library_call -> Prop.

Lemma logs_ret {A : Type} (a : A) : logs P (mret a : Py fstate A).
Proof. intros s. exists []. by rewrite app_nil_r. Qed.

Lemma logs_lift {A : Type} (o : outcome A) : logs P (lift o : Py fstate A).
Proof. intros s. exists []. by rewrite app_nil_r. Qed.

Lemma logs_get : logs P (get : Py fstate fstate).
Proof. intros s. exists []. by rewrite app_nil_r. Qed.

Lemma logs_modify (f : fstate -> fstate) :
  (forall s, log (f s) = log s) -> logs P (modify f).
Proof. intros Hf s. exists []. simpl. by rewrite Hf, app_nil_r. Qed.

Lemma logs_bind {A B : Type} (c : Py fstate A) (k : A -> Py fstate B) :
  logs P c -> (forall a, logs P (k a)) -> logs P (c ≫= k).
Proof.
  intros Hc Hk s. destruct (Hc s) as (l1 & Hl1 & HP1).
  unfold mbind, Py_bind, bind. destruct (c s) as [[a|e] s1]; simpl in *.
  - destruct (Hk a s1) as (l2 & Hl2 & HP2).
    exists (l1 ++ l2)%list. rewrite Hl2, Hl1, <- app_assoc.
    split; [done|]. by apply Forall_app.
  - by exists l1.
Qed.

Lemma logs_try_except {A : Type} (body : Py fstate A) handler :
  logs P body -> (forall e, logs P (handler e)) -> logs P (try_except body handler).
Proof.
  intros Hb Hh s. destruct (Hb s) as (l1 & Hl1 & HP1).
  unfold try_except. destruct (body s) as [[a|e] s1]; simpl in *.
  - by exists l1.
  - destruct (Hh e s1) as (l2 & Hl2 & HP2).
    exists (l1 ++ l2)%list. rewrite Hl2, Hl1, <- app_assoc.
    split; [done|]. by apply Forall_app.
Qed.

Lemma logs_when (c : bool) stmt : logs P stmt -> logs P (when c stmt).
Proof. intros H. destruct c; [done|]. apply logs_ret. Qed.

Lemma logs_for_each {A : Type} (body : A -> Py fstate unit) l :
  (forall x, logs P (body x)) -> logs P (for_each body l).
Proof.
  intros Hbody. induction l as [|x l IH]; simpl; [apply logs_ret|].
  apply logs_bind; [apply Hbody|]. intros _. apply IH.
Qed.

Variable raises : list library_call -> library_call -> option exn.

Lemma logs_call (c : library_call) : P c -> logs P (call raises c).
Proof.
  intros Hc s. exists [c]. split; [|by repeat constructor].
  unfold call. by destruct (raises (log s) c).
Qed.
End CallLog.

Section PdfBackends.
Import ClaudeOCR FileManager.
Variable raises : list library_call -> library_call -> option exn.
Variable korean_font : option string.
Variable ocr_results : gmap nat page_result.
Variable output_path : string.
Variable include_page_numbers : bool.

(** Both methods end in [except Exception: return False]. *)
Lemma save_as_pdf_reportlab_returns s :
  exists b s',
    save_as_pdf_reportlab raises korean_font ocr_results output_path include_page_numbers s
    = (Return b, s').
Proof.
  unfold save_as_pdf_reportlab, try_except.
  match goal with |- context [match ?body s with _ => _ end] =>
    destruct (body s) as [[b|e] s1] end; by eexists _, _.
Qed.

Lemma save_as_pdf_fpdf_returns available s :
  exists b s',
    save_as_pdf_fpdf raises available korean_font ocr_results output_path
      include_page_numbers s = (Return b, s').
Proof.
  unfold save_as_pdf_fpdf, try_except.
  match goal with |- context [match ?body s with _ => _ end] =>
    destruct (body s) as [[b|e] s1] end; by eexists _, _.
Qed.

(** Without the FPDF library the method is [save_as_pdf_reportlab]. *)
Lemma save_as_pdf_fpdf_delegates s :
  save_as_pdf_fpdf raises false korean_font ocr_results output_path include_page_numbers s
  = save_as_pdf_reportlab raises korean_font ocr_results output_path include_page_numbers s.
Proof.
  destruct (save_as_pdf_reportlab_returns s) as (b & s' & Hrun).
  unfold save_as_pdf_fpdf. simpl. rewrite Hrun. by apply try_except_return.
Qed.

(** *** ReportLab, when none of its calls raises *)

Section ReportLabWorks.
Hypothesis Hreportlab : forall l c, raises l (ReportLab c) = None.

Lemma append_paragraph_succeeds txt style s :
  exists s', append_paragraph raises txt style s = (Return tt, s').
Proof.
  unfold append_paragraph, reportlab, call, modify, mbind, Py_bind, bind.
  rewrite Hreportlab. by eexists.
Qed.

Lemma key_has_result i :
  i ∈ sorted (keys ocr_results) -> exists r, getitem ocr_results i = Return r.
Proof.
  unfold sorted, keys. rewrite merge_sort_Permutation, list_elem_of_fmap.
  intros [[j r] [-> Hin]]. apply elem_of_map_to_list in Hin.
  exists r. unfold getitem. simpl. by rewrite Hin.
Qed.

Lemma reportlab_page_succeeds korean_style title_style i s :
  i ∈ sorted (keys ocr_results) ->
  exists s',
    reportlab_page raises ocr_results include_page_numbers korean_style title_style i s
    = (Return tt, s').
Proof.
  intros [r Hr]%key_has_result. unfold reportlab_page. rewrite Hr.
  unfold lift at 1. unfold mbind at 1, Py_bind at 1, bind at 1.
  assert (exists s1,
    when include_page_numbers
      (append_paragraph raises ("페이지 " ++ str_of_nat (page r)) title_style;;
       append_spacer 1 8) s = (Return tt, s1)) as [s1 Hlabel].
  { destruct include_page_numbers; simpl; [|by eexists].
    destruct (append_paragraph_succeeds ("페이지 " ++ str_of_nat (page r)) title_style s)
      as [s0 H0].
    rewrite (bind_return _ _ _ _ _ H0). by eexists. }
  rewrite (bind_return _ _ _ _ _ Hlabel).
  destruct (append_paragraph_succeeds (escape_markup (text_or_error r)) korean_style s1)
    as [s2 H2].
  rewrite (bind_return _ _ _ _ _ H2). by eexists.
Qed.

Lemma for_each_succeeds {A : Type} (body : A -> Py fstate unit) (l : list A) :
  (forall x s, x ∈ l -> exists s', body x s = (Return tt, s')) ->
  forall s, exists s', for_each body l s = (Return tt, s').
Proof.
  induction l as [|x l IH]; intros Hbody s; simpl; [by eexists|].
  destruct (Hbody x s) as [s1 H1]; [apply elem_of_cons; auto|].
  rewrite (bind_return _ _ _ _ _ H1).
  apply IH. intros y s0 Hy. apply Hbody, elem_of_cons. auto.
Qed.

Lemma build_writes s :
  exists s', build raises output_path s = (Return tt, s')
             /\ files s' !! output_path = Some (ReportLabDocument (story s)).
Proof.
  unfold build, reportlab, call, modify, get, mbind, Py_bind, bind.
  rewrite Hreportlab. eexists. split; [reflexivity|]. simpl. apply lookup_insert_eq.
Qed.

Lemma save_as_pdf_reportlab_writes s :
  exists s' document,
    save_as_pdf_reportlab raises korean_font ocr_results output_path include_page_numbers s
    = (Return true, s')
    /\ files s' !! output_path = Some (ReportLabDocument document).
Proof.
  unfold save_as_pdf_reportlab.
  destruct (styles korean_font) as [korean_style title_style].
  assert (exists s1, reportlab raises (SimpleDocTemplate output_path) s = (Return tt, s1))
    as [s1 H1].
  { unfold reportlab, call. rewrite Hreportlab. by eexists. }
  set (s2 := FState (files s1) (log s1) (pdf s1) []).
  destruct (append_paragraph_succeeds header_title title_style s2) as [s3 H3].
  set (s4 := FState (files s3) (log s3) (pdf s3) (story s3 ++ [Spacer 1 12])).
  destruct (for_each_succeeds
              (reportlab_page raises ocr_results include_page_numbers korean_style title_style)
              (sorted (keys ocr_results))
              (fun i s0 Hi => reportlab_page_succeeds korean_style title_style i s0 Hi) s4)
    as [s5 H5].
  destruct (build_writes s5) as (s6 & H6 & Hfile).
  exists s6, (story s5). split; [|exact Hfile].
  apply try_except_return.
  rewrite (bind_return _ _ _ _ _ H1).
  unfold modify at 1. unfold mbind at 1, Py_bind at 1, bind at 1. fold s2.
  rewrite (bind_return _ _ _ _ _ H3).
  unfold append_spacer at 1, modify at 1. unfold mbind at 1, Py_bind at 1, bind at 1.
  fold s4.
  rewrite (bind_return _ _ _ _ _ H5), (bind_return _ _ _ _ _ H6). done.
Qed.
End ReportLabWorks.
(** *** FPDF without its Unicode font *)

Lemma on_fpdf_no_reportlab font l :
  Forall (on_fpdf_with font) l ->
  reportlab_calls l = [] /\ Forall (eq font) (fonts_selected l).
Proof.
  induction 1 as [|c l Hc _ [IH1 IH2]]; [done|].
  unfold reportlab_calls, fonts_selected in *. simpl.
  destruct c as [c| |]; [|done|done].
  destruct c; simpl in *; try done.
  split; [done|]. constructor; done.
Qed.

Lemma logs_fpdf font c :
  on_fpdf_with font (Fpdf c) -> logs (on_fpdf_with font) (fpdf raises c).
Proof.
  intros Hc. unfold fpdf. apply logs_bind; [by apply logs_call|].
  intros _. by apply logs_modify.
Qed.

Lemma logs_fpdf_line font line : logs (on_fpdf_with font) (fpdf_line raises line).
Proof.
  unfold fpdf_line. apply logs_bind; [|intros _; by apply logs_fpdf].
  apply logs_when, logs_try_except; [|intros _]; by apply logs_fpdf.
Qed.

Lemma logs_fpdf_page font i :
  logs (on_fpdf_with font) (fpdf_page raises ocr_results include_page_numbers font i).
Proof.
  unfold fpdf_page. apply logs_bind; [apply logs_lift|]. intros r.
  apply logs_bind; [by apply logs_fpdf|]. intros _.
  apply logs_bind; [by apply logs_fpdf|]. intros _.
  apply logs_bind.
  { apply logs_when. repeat (apply logs_bind; [by apply logs_fpdf|]; intros _).
    by apply logs_fpdf. }
  intros _. apply logs_bind; [by apply logs_fpdf|]. intros _.
  apply logs_for_each. intros line. apply logs_fpdf_line.
Qed.

Lemma logs_output font : logs (on_fpdf_with font) (output raises output_path).
Proof.
  unfold output. apply logs_bind; [by apply logs_fpdf|].
  intros _. by apply logs_modify.
Qed.

Section FontMissing.
Hypothesis Hfont :
  forall l, is_Some (raises l (Fpdf (AddFont "DejaVu" "" "DejaVuSansCondensed.ttf" true))).

(** [add_font] raises, so [font_name] is the default font. *)
Lemma font_name_is_arial s :
  exists s',
    try_except
      (fpdf raises (AddFont "DejaVu" "" "DejaVuSansCondensed.ttf" true);; mret "DejaVu")
      (fun _ => mret "Arial") s = (Return "Arial", s')
    /\ log s' = (log s ++ [(Fpdf (AddFont "DejaVu" "" "DejaVuSansCondensed.ttf" true))])%list.
Proof.
  destruct (Hfont (log s)) as [e He].
  unfold try_except, fpdf, call, mbind, Py_bind, bind. rewrite He.
  by eexists.
Qed.

Lemma save_as_pdf_fpdf_stays_on_fpdf :
  logs (on_fpdf_with "Arial")
       (save_as_pdf_fpdf raises true korean_font ocr_results output_path
                         include_page_numbers).
Proof.
  unfold save_as_pdf_fpdf. simpl.
  apply logs_try_except; [|intros _; apply logs_ret].
  apply logs_bind; [by apply logs_fpdf|]. intros _.
  apply logs_bind; [by apply logs_fpdf|]. intros _.
  intros s. destruct (font_name_is_arial s) as (s1 & Hname & Hlog1).
  rewrite (bind_return _ _ _ _ _ Hname).
  assert (Hrest : logs (on_fpdf_with "Arial")
    (for_each (fpdf_page raises ocr_results include_page_numbers "Arial")
              (sorted (keys ocr_results));;
     output raises output_path;; mret true)).
  { apply logs_bind; [apply logs_for_each; intros i; apply logs_fpdf_page|].
    intros _. apply logs_bind; [apply logs_output|]. intros _. apply logs_ret. }
  destruct (Hrest s1) as (l & Hl & HP).
  exists (Fpdf (AddFont "DejaVu" "" "DejaVuSansCondensed.ttf" true) :: l).
  rewrite Hl, Hlog1, <- app_assoc. split; [done|].
  constructor; done.
Qed.
End FontMissing.

(** *** The FPDF object, call by call *)

Lemma results_in_order_cons i l r :
  ocr_results !! i = Some r ->
  omap (fun i => ocr_results !! i) (i :: l)
  = r :: omap (fun i => ocr_results !! i) l.
Proof. intros Hr. simpl. by rewrite Hr. Qed.

Lemma key_in_dictionary i :
  i ∈ sorted (keys ocr_results) ->
  exists r, ocr_results !! i = Some r /\ getitem ocr_results i = Return r.
Proof.
  unfold sorted, keys. rewrite merge_sort_Permutation, list_elem_of_fmap.
  intros [[j r] [-> Hin]]. apply elem_of_map_to_list in Hin.
  exists r. unfold getitem. simpl. by rewrite Hin.
Qed.

Lemma fpdf_run c s :
  c <> FpdfNew ->
  raises (log s) (Fpdf c) = None ->
  exists s',
    fpdf raises c s = (Return tt, s')
    /\ files s' = files s /\ pdf s' = (pdf s ++ [c])%list.
Proof.
  intros Hc Hok. unfold fpdf, call, modify, mbind, Py_bind, bind.
  rewrite Hok. eexists. split; [reflexivity|]. simpl. split; [done|].
  by destruct c.
Qed.

Lemma extends_pdf_seq calls1 calls2 c1 c2 :
  extends_pdf calls1 c1 -> extends_pdf calls2 c2 ->
  extends_pdf (calls1 ++ calls2) (c1;; c2).
Proof.
  intros H1 H2 s. destruct (H1 s) as (s1 & Hr1 & Hf1 & Hp1).
  destruct (H2 s1) as (s2 & Hr2 & Hf2 & Hp2).
  exists s2. rewrite (bind_return _ _ _ _ _ Hr1).
  split; [exact Hr2|]. split; [by rewrite Hf2|].
  by rewrite Hp2, Hp1, <- app_assoc.
Qed.

Lemma extends_pdf_nil : extends_pdf [] (mret tt).
Proof. intros s. exists s. by rewrite app_nil_r. Qed.

Lemma extends_pdf_for_each {A : Type} (body : A -> Py fstate unit)
    (calls : A -> list fpdf_call) (l : list A) :
  (forall x, x ∈ l -> extends_pdf (calls x) (body x)) ->
  extends_pdf (concat (calls <$> l)) (for_each body l).
Proof.
  induction l as [|x l IH]; intros Hbody.
  - apply extends_pdf_nil.
  - rewrite fmap_cons. simpl concat. simpl for_each.
    apply extends_pdf_seq.
    + apply Hbody. by left.
    + apply IH. intros y Hy. apply Hbody. by right.
Qed.

Section FpdfPages.
(** [multi_cell] raises exactly on the texts that [rejects] marks, a text
    within ASCII is never among them, the label of a page is accepted by
    [cell] when labels are asked for, and no FPDF call other than
    [add_font], [cell] and [multi_cell] raises. *)
Variable rejects : string -> bool.
Hypothesis Hfpdf : forall l c,
  (forall family style fname uni, c <> AddFont family style fname uni) ->
  (forall w h txt ln align, c <> Cell w h txt ln align) ->
  (forall w h txt align, c <> MultiCell w h txt align) ->
  raises l (Fpdf c) = None.
Hypothesis Hcell :
  include_page_numbers = true ->
  forall l n, raises l (Fpdf (Cell 0 10 ("페이지 " ++ str_of_nat n) true "C")) = None.
Hypothesis Hmulti_cell : forall l w h txt align,
  raises l (Fpdf (MultiCell w h txt align)) = None <-> rejects txt = false.
Hypothesis Hascii : forall line, rejects (ascii_only line) = false.

Lemma extends_pdf_fpdf c :
  c <> FpdfNew ->
  (forall family style fname uni, c <> AddFont family style fname uni) ->
  (forall w h txt ln align, c <> Cell w h txt ln align) ->
  (forall w h txt align, c <> MultiCell w h txt align) ->
  extends_pdf [c] (fpdf raises c).
Proof. intros Hc Hf Hl Hm s. apply fpdf_run; [done|by apply Hfpdf]. Qed.

(** [multi_cell] on a line: printed as it is, or, when that raises, without
    its characters outside ASCII. *)
Lemma multi_cell_run line :
  extends_pdf [MultiCell 0 8 (if rejects line then ascii_only line else line) "L"]
    (try_except (fpdf raises (MultiCell 0 8 line "L"))
       (fun _ => fpdf raises (MultiCell 0 8 (ascii_only line) "L"))).
Proof.
  intros s. destruct (rejects line) eqn:Hline.
  - assert (exists e, raises (log s) (Fpdf (MultiCell 0 8 line "L")) = Some e)
      as [e He].
    { destruct (raises (log s) (Fpdf (MultiCell 0 8 line "L"))) as [e|] eqn:Hr;
        [by eexists|].
      apply Hmulti_cell in Hr. congruence. }
    unfold try_except. unfold fpdf at 1, call, modify, mbind, Py_bind, bind.
    rewrite He.
    match goal with |- context [fpdf raises ?c ?s0] =>
      destruct (fpdf_run c s0) as (s1 & H1 & Hf1 & Hp1) end; [done| |].
    { apply Hmulti_cell, Hascii. }
    exists s1. by rewrite H1.
  - destruct (fpdf_run (MultiCell 0 8 line "L") s) as (s1 & H1 & Hf & Hp); [done| |].
    { by apply Hmulti_cell. }
    exists s1. split; [|done]. by apply try_except_return.
Qed.

Lemma fpdf_line_run line :
  extends_pdf (fpdf_line_calls rejects line) (fpdf_line raises line).
Proof.
  unfold fpdf_line, fpdf_line_calls.
  apply extends_pdf_seq; [|by apply extends_pdf_fpdf].
  destruct (strip_is_empty line); simpl; [apply extends_pdf_nil|].
  apply multi_cell_run.
Qed.

Lemma fpdf_page_run font_name i r :
  ocr_results !! i = Some r ->
  extends_pdf (fpdf_page_calls rejects include_page_numbers font_name r)
    (fpdf_page raises ocr_results include_page_numbers font_name i).
Proof.
  intros Hr. unfold fpdf_page, fpdf_page_calls, getitem. rewrite Hr.
  intros s. unfold lift at 1. unfold mbind at 1, Py_bind at 1, bind at 1.
  revert s.
  change (extends_pdf
    ([AddPage; SetFont font_name "" 12] ++
     (if include_page_numbers
      then [SetFont font_name "B" 14;
            Cell 0 10 ("페이지 " ++ str_of_nat (page r)) true "C"; Ln 5]
      else []) ++
     [SetFont font_name "" 10] ++
     concat (fpdf_line_calls rejects <$> split_lines (text_or_error r)))
    (fpdf raises AddPage;;
     fpdf raises (SetFont font_name "" 12);;
     when include_page_numbers
       (fpdf raises (SetFont font_name "B" 14);;
        fpdf raises (Cell 0 10 ("페이지 " ++ str_of_nat (page r)) true "C");;
        fpdf raises (Ln 5));;
     fpdf raises (SetFont font_name "" 10);;
     for_each (fpdf_line raises) (split_lines (text_or_error r)))).
  apply (extends_pdf_seq [AddPage]); [by apply extends_pdf_fpdf|].
  apply (extends_pdf_seq [SetFont font_name "" 12]); [by apply extends_pdf_fpdf|].
  apply extends_pdf_seq.
  { destruct include_page_numbers eqn:Hlabels; simpl; [|apply extends_pdf_nil].
    apply (extends_pdf_seq [SetFont font_name "B" 14]); [by apply extends_pdf_fpdf|].
    apply (extends_pdf_seq [Cell 0 10 ("페이지 " ++ str_of_nat (page r)) true "C"]);
      [|by apply extends_pdf_fpdf].
    intros s0. apply fpdf_run; [done|]. by apply Hcell. }
  apply (extends_pdf_seq [SetFont font_name "" 10]); [by apply extends_pdf_fpdf|].
  apply extends_pdf_for_each. intros line _. apply fpdf_line_run.
Qed.

Lemma fpdf_pages_run font_name l :
  (forall i, i ∈ l -> i ∈ sorted (keys ocr_results)) ->
  extends_pdf
    (concat (fpdf_page_calls rejects include_page_numbers font_name
             <$> omap (fun i => ocr_results !! i) l))
    (for_each (fpdf_page raises ocr_results include_page_numbers font_name) l).
Proof.
  induction l as [|i l IH]; intros Hl.
  - apply extends_pdf_nil.
  - destruct (key_in_dictionary i) as (r & Hr & _); [apply Hl; left|].
    rewrite (results_in_order_cons i l r Hr), fmap_cons, List.concat_cons.
    simpl for_each.
    apply extends_pdf_seq; [by apply fpdf_page_run|].
    apply IH. intros j Hj. apply Hl. by right.
Qed.

(** [add_font] raises: the pages are made all the same, in Arial. *)
Lemma save_as_pdf_fpdf_default_font s :
  (forall l,
     is_Some (raises l (Fpdf (AddFont "DejaVu" "" "DejaVuSansCondensed.ttf" true)))) ->
  exists s',
    save_as_pdf_fpdf raises true korean_font ocr_results output_path
      include_page_numbers s = (Return true, s')
    /\ files s'
       = <[output_path := FpdfDocument
                            (fpdf_calls_default_font rejects ocr_results output_path
                               include_page_numbers)]>
           (files s).
Proof.
  intros Hfont.
  unfold save_as_pdf_fpdf, fpdf_calls_default_font, results_in_order.
  simpl negb. cbv iota.
  assert (exists s1, fpdf raises FpdfNew s = (Return tt, s1)
                     /\ files s1 = files s /\ pdf s1 = []) as (s1 & H1 & Hf1 & Hp1).
  { unfold fpdf, call, modify, mbind, Py_bind, bind. rewrite Hfpdf by done.
    by eexists. }
  destruct (extends_pdf_fpdf (SetAutoPageBreak true 15)
              ltac:(done) ltac:(done) ltac:(done) ltac:(done) s1)
    as (s2 & H2 & Hf2 & Hp2).
  assert (exists s3,
    try_except
      (fpdf raises (AddFont "DejaVu" "" "DejaVuSansCondensed.ttf" true);; mret "DejaVu")
      (fun _ => mret "Arial") s2 = (Return "Arial", s3)
    /\ files s3 = files s2 /\ pdf s3 = pdf s2) as (s3 & H3 & Hf3 & Hp3).
  { destruct (Hfont (log s2)) as [e He].
    unfold try_except, fpdf, call, mbind, Py_bind, bind. rewrite He. by eexists. }
  destruct (fpdf_pages_run "Arial" (sorted (keys ocr_results)) ltac:(done) s3)
    as (s4 & H4 & Hf4 & Hp4).
  destruct (extends_pdf_fpdf (Output output_path)
              ltac:(done) ltac:(done) ltac:(done) ltac:(done) s4)
    as (s5 & H5 & Hf5 & Hp5).
  eexists. split.
  - apply try_except_return.
    rewrite (bind_return _ _ _ _ _ H1), (bind_return _ _ _ _ _ H2).
    rewrite (bind_return _ _ _ _ _ H3), (bind_return _ _ _ _ _ H4).
    unfold output. rewrite (bind_return _ _ _ _ _ (bind_return _ _ _ _ _ H5)).
    reflexivity.
  - simpl. rewrite Hf5, Hf4, Hf3, Hf2, Hf1. do 2 f_equal.
    rewrite Hp5, Hp4, Hp3, Hp2, Hp1. done.
Qed.
End FpdfPages.


(** C9, as the code has it: without the FPDF library the method is
    [save_as_pdf_reportlab], which writes the document and returns [True]
    when no ReportLab call raises.  With the FPDF library but without its
    Unicode font the method stays on FPDF: it returns a boolean, makes no
    ReportLab call, and every font it selects is the default font Arial.
    It then goes on with FPDF: when [multi_cell] raises exactly on the
    texts that [rejects] marks (never on a text within ASCII), [cell]
    accepts the page label when labels are asked for, and no FPDF call
    other than [add_font], [cell] and [multi_cell] raises, the method
    returns [True] and [output_path] holds the FPDF document set in Arial,
    [fpdf_calls_default_font]. *)
Theorem save_as_pdf_fpdf_fallbacks (s : fstate) :
  save_as_pdf_fpdf raises false korean_font ocr_results output_path include_page_numbers s
  = save_as_pdf_reportlab raises korean_font ocr_results output_path include_page_numbers s
  /\ ((forall l c, raises l (ReportLab c) = None) ->
      exists s' document,
        save_as_pdf_fpdf raises false korean_font ocr_results output_path
          include_page_numbers s = (Return true, s')
        /\ files s' !! output_path = Some (ReportLabDocument document))
  /\ ((forall l,
         is_Some (raises l (Fpdf (AddFont "DejaVu" "" "DejaVuSansCondensed.ttf" true)))) ->
      exists b s' l,
        save_as_pdf_fpdf raises true korean_font ocr_results output_path
          include_page_numbers s = (Return b, s')
        /\ log s' = (log s ++ l)%list
        /\ reportlab_calls l = []
        /\ Forall (eq "Arial") (fonts_selected l))
  /\ (forall rejects : string -> bool,
      (forall l,
         is_Some (raises l (Fpdf (AddFont "DejaVu" "" "DejaVuSansCondensed.ttf" true)))) ->
      (forall l c,
         (forall family style fname uni, c <> AddFont family style fname uni) ->
         (forall w h txt ln align, c <> Cell w h txt ln align) ->
         (forall w h txt align, c <> MultiCell w h txt align) ->
         raises l (Fpdf c) = None) ->
      (include_page_numbers = true ->
       forall l n,
         raises l (Fpdf (Cell 0 10 ("페이지 " ++ str_of_nat n) true "C")) = None) ->
      (forall l w h txt align,
         raises l (Fpdf (MultiCell w h txt align)) = None <-> rejects txt = false) ->
      (forall line, rejects (ascii_only line) = false) ->
      exists s',
        save_as_pdf_fpdf raises true korean_font ocr_results output_path
          include_page_numbers s = (Return true, s')
        /\ files s'
           = <[output_path := FpdfDocument
                                (fpdf_calls_default_font rejects ocr_results output_path
                                   include_page_numbers)]>
               (files s)).
Proof.
  split; [apply save_as_pdf_fpdf_delegates|]. split; [|split].
  - intros Hreportlab. rewrite save_as_pdf_fpdf_delegates.
    by apply save_as_pdf_reportlab_writes.
  - intros Hfont.
    destruct (save_as_pdf_fpdf_returns true s) as (b & s' & Hrun).
    destruct (save_as_pdf_fpdf_stays_on_fpdf Hfont s) as (l & Hl & HP).
    rewrite Hrun in Hl. simpl in Hl.
    exists b, s', l. split; [done|]. split; [done|].
    by apply on_fpdf_no_reportlab.
  - intros rejects Hfont Hfpdf Hcell Hmulti_cell Hascii.
    by apply (save_as_pdf_fpdf_default_font rejects Hfpdf Hcell Hmulti_cell Hascii).
Qed.
End PdfBackends.

Lemma ascii_only_idempotent (line : string) :
  FileManager.ascii_only (FileManager.ascii_only line) = FileManager.ascii_only line.
Proof.
  induction line as [|c line IH]; [done|]. simpl.
  case_bool_decide as Hc; [|done]. simpl.
  by rewrite bool_decide_eq_true_2, IH.
Qed.

Lemma save_as_pdf_fpdf_fallbacks_witness :
  (exists s' document,
      FileManager.save_as_pdf_fpdf Scenarios.libraries_work false None
        Scenarios.two_pages "scan_ocr.pdf" true Scenarios.empty_disk = (Return true, s')
      /\ FileManager.files s' !! "scan_ocr.pdf"
         = Some (FileManager.ReportLabDocument document))
  /\ (exists b s' l,
        FileManager.save_as_pdf_fpdf Scenarios.font_missing_core_font true None
          Scenarios.two_pages "scan_ocr.pdf" true Scenarios.empty_disk = (Return b, s')
        /\ FileManager.log s' = (FileManager.log Scenarios.empty_disk ++ l)%list
        /\ FileManager.reportlab_calls l = []
        /\ Forall (eq "Arial") (FileManager.fonts_selected l))
  /\ (exists s',
        FileManager.save_as_pdf_fpdf Scenarios.font_missing_core_font true None
          Scenarios.ascii_pages "scan_ocr.pdf" false Scenarios.empty_disk = (Return true, s')
        /\ FileManager.files s'
           = <["scan_ocr.pdf" := FileManager.FpdfDocument
                                   (FileManager.fpdf_calls_default_font Scenarios.not_ascii
                                      Scenarios.ascii_pages "scan_ocr.pdf" false)]>
               (FileManager.files Scenarios.empty_disk)).
Proof.
  split; [|split].
  - apply (proj1 (proj2 (save_as_pdf_fpdf_fallbacks Scenarios.libraries_work None
                           Scenarios.two_pages "scan_ocr.pdf" true Scenarios.empty_disk))).
    intros l c. reflexivity.
  - apply (proj1 (proj2 (proj2 (save_as_pdf_fpdf_fallbacks Scenarios.font_missing_core_font
                           None Scenarios.two_pages "scan_ocr.pdf" true
                           Scenarios.empty_disk)))).
    intros l. eexists. reflexivity.
  - apply (proj2 (proj2 (proj2 (save_as_pdf_fpdf_fallbacks Scenarios.font_missing_core_font
                           None Scenarios.ascii_pages "scan_ocr.pdf" false
                           Scenarios.empty_disk))) Scenarios.not_ascii).
    + intros l. eexists. reflexivity.
    + intros l c Hfont Hcell Hmulti. destruct c; try reflexivity.
      * by destruct (Hfont family style fname uni).
      * by destruct (Hcell w h txt ln align).
      * by destruct (Hmulti w h txt align).
    + intros Hlabels. discriminate Hlabels.
    + intros l w h txt align. simpl. by destruct (Scenarios.not_ascii txt).
    + intros line. unfold Scenarios.not_ascii.
      by rewrite ascii_only_idempotent, bool_decide_eq_true_2.
Defined.

(** C9, as stated, fails for the missing font: FPDF is kept.  With the
    Unicode font missing and a core font that takes no text outside ASCII,
    two pages of ASCII text without labels are written by FPDF in Arial and
    [True] is returned; the two pages with their Korean labels make the
    method return [False] with nothing written.  ReportLab is called in
    neither case, although on the same input it writes the document. *)
Lemma save_as_pdf_fpdf_keeps_fpdf_without_font :
  (exists s',
      FileManager.save_as_pdf_fpdf Scenarios.font_missing_core_font true None
        Scenarios.ascii_pages "scan_ocr.pdf" false Scenarios.empty_disk = (Return true, s')
      /\ FileManager.files s' !! "scan_ocr.pdf"
         = Some (FileManager.FpdfDocument
                   [ FileManager.SetAutoPageBreak true 15;
                     FileManager.AddPage;
                     FileManager.SetFont "Arial" "" 12;
                     FileManager.SetFont "Arial" "" 10;
                     FileManager.MultiCell 0 8 "first page" "L";
                     FileManager.Ln 2;
                     FileManager.AddPage;
                     FileManager.SetFont "Arial" "" 12;
                     FileManager.SetFont "Arial" "" 10;
                     FileManager.MultiCell 0 8 "second page" "L";
                     FileManager.Ln 2;
                     FileManager.Output "scan_ocr.pdf" ])
      /\ FileManager.reportlab_calls (FileManager.log s') = [])
  /\ (exists s',
        FileManager.save_as_pdf_fpdf Scenarios.font_missing_core_font true None
          Scenarios.two_pages "scan_ocr.pdf" true Scenarios.empty_disk = (Return false, s')
        /\ FileManager.files s' !! "scan_ocr.pdf" = None
        /\ FileManager.reportlab_calls (FileManager.log s') = [])
  /\ (exists s' document,
        FileManager.save_as_pdf_reportlab Scenarios.font_missing_core_font None
          Scenarios.two_pages "scan_ocr.pdf" true Scenarios.empty_disk = (Return true, s')
        /\ FileManager.files s' !! "scan_ocr.pdf"
           = Some (FileManager.ReportLabDocument document)).
Proof.
  split; [|split].
  - eexists. split; [vm_compute; reflexivity|].
    split; vm_compute; reflexivity.
  - eexists. split; [vm_compute; reflexivity|].
    split; vm_compute; reflexivity.
  - eexists _, _. split; [vm_compute; reflexivity|].
    vm_compute; reflexivity.
Qed.

(** Without labels the Korean words of the second page are lost on the way:
    the line is printed without its characters outside ASCII. *)
Example save_as_pdf_fpdf_default_font_two_pages :
  exists s',
    FileManager.save_as_pdf_fpdf Scenarios.font_missing_core_font true None
      Scenarios.two_pages "scan_ocr.pdf" false Scenarios.empty_disk = (Return true, s')
    /\ FileManager.files s' !! "scan_ocr.pdf"
       = Some (FileManager.FpdfDocument
                 [ FileManager.SetAutoPageBreak true 15;
                   FileManager.AddPage;
                   FileManager.SetFont "Arial" "" 12;
                   FileManager.SetFont "Arial" "" 10;
                   FileManager.MultiCell 0 8 "first page" "L";
                   FileManager.Ln 2;
                   FileManager.AddPage;
                   FileManager.SetFont "Arial" "" 12;
                   FileManager.SetFont "Arial" "" 10;
                   FileManager.MultiCell 0 8 "[]  : overloaded" "L";
                   FileManager.Ln 2;
                   FileManager.Output "scan_ocr.pdf" ]).
Proof. eexists. split; vm_compute; reflexivity. Qed.

(** * Further properties of the code *)

(** ** The batch loop, page by page *)

Section BatchRuns.
Import ClaudeOCR.
Context {W : Type}.
Variable self_extract_text_from_image : string -> string -> Py W string.
Variable time_sleep : pynum -> Py W unit.
Variable document_type : string.
Variable delay : pynum.
Variable progress_callback : option (nat -> nat -> Py W unit).
Variable total : nat.

Hypothesis Hcallback :
  forall cb, progress_callback = Some cb ->
             forall done n w, exists w', cb done n w = (Return tt, w').
Hypothesis Hsleep : forall d w, exists w', time_sleep d w = (Return tt, w').

Lemma progress_calls_app evs1 evs2 :
  progress_calls (evs1 ++ evs2) = (progress_calls evs1 ++ progress_calls evs2)%list.
Proof. apply omap_app. Qed.

Lemma progress_calls_page_events i path txt :
  progress_calls (page_events document_type delay progress_callback total i path txt)
  = match progress_callback with Some _ => [(i + 1, total)] | None => [] end.
Proof.
  unfold page_events. destruct progress_callback; destruct (bool_decide _); done.
Qed.

Lemma sleeps_page_events i path txt :
  sleeps (page_events document_type delay progress_callback total i path txt)
  = if bool_decide (i + 1 < total) then [delay] else [].
Proof.
  unfold page_events. destruct progress_callback; destruct (bool_decide _); done.
Qed.

Lemma batch_page_success i path w res evs txt w1 :
  self_extract_text_from_image path document_type w = (Return txt, w1) ->
  exists w',
    batch_page self_extract_text_from_image time_sleep document_type delay
      progress_callback total (i, path) (State w res evs)
    = (Return tt,
       State w' (<[i := PageResult (i + 1) txt "success" path]> res)
             (evs ++ page_events document_type delay progress_callback total i path txt)).
Proof.
  intros Hcall.
  unfold batch_page, try_except, call_extract, set_item, call_progress, sleep, emit,
    on_world, when, modify, page_events, mbind, Py_bind, bind, mret, Py_ret, ret.
  simpl. rewrite Hcall. simpl.
  assert (bool_decide (Z.of_nat i < Z.of_nat total - 1)%Z = bool_decide (i + 1 < total))
    as -> by (apply bool_decide_ext; lia).
  destruct progress_callback as [cb|] eqn:Ecb; simpl.
  - destruct (Hcallback cb eq_refl (i + 1) total w1) as [w2 ->]. simpl.
    case_bool_decide; simpl.
    + destruct (Hsleep delay w2) as [w3 ->]. simpl.
      eexists. f_equal. f_equal. by rewrite <- !app_assoc.
    + eexists. f_equal. f_equal. by rewrite <- !app_assoc.
  - case_bool_decide; simpl.
    + destruct (Hsleep delay w1) as [w3 ->]. simpl.
      eexists. f_equal. f_equal. by rewrite <- !app_assoc.
    + eexists. f_equal. f_equal. by rewrite <- !app_assoc.
Qed.

Hypothesis Hcall :
  forall path w, exists txt w',
    self_extract_text_from_image path document_type w = (Return txt, w').

Lemma batch_loop_success paths : forall k s,
  k + length paths = total ->
  exists s',
    for_each (batch_page self_extract_text_from_image time_sleep document_type delay
                         progress_callback total)
             (enumerate_from k paths) s = (Return tt, s')
    /\ (forall i, i < k -> results s' !! i = results s !! i)
    /\ (forall i r, k <= i -> results s' !! i = Some r ->
          status r = "success" /\ page r = i + 1
          /\ paths !! (i - k) = Some (image_path r)
          \/ results s !! i = Some r /\ total <= i)
    /\ progress_calls (events s')
       = (progress_calls (events s)
          ++ match progress_callback with
             | Some _ => (fun i => (i + 1, total)) <$> seq k (length paths)
             | None => []
             end)%list
    /\ sleeps (events s')
       = (sleeps (events s) ++ replicate (length paths - 1) delay)%list.
Proof.
  induction paths as [|path paths IH]; intros k [w res evs] Hk; simpl in *.
  - eexists. split; [reflexivity|]. simpl.
    split; [done|]. split; [intros i r Hi Hr; right; split; [done|lia]|].
    destruct progress_callback; by rewrite !app_nil_r.
  - destruct (Hcall path w) as (txt & w1 & Hrun).
    destruct (batch_page_success k path w res evs txt w1 Hrun) as [w2 Hstep].
    rewrite (bind_return _ _ _ _ _ Hstep).
    destruct (IH (S k) (State w2 (<[k := PageResult (k + 1) txt "success" path]> res)
                              (evs ++ page_events document_type delay progress_callback total k path txt)))
      as (s' & Hloop & Hold & Hnew & Hprog & Hsl); [lia|].
    exists s'. split; [exact Hloop|]. simpl in *. split; [|split; [|split]].
    + intros i Hi. rewrite Hold by lia. apply lookup_insert_ne. lia.
    + intros i r Hi Hr. destruct (decide (i = k)) as [->|Hne].
      * left. rewrite Hold in Hr by lia. rewrite lookup_insert_eq in Hr.
        injection Hr as <-. simpl. replace (k - k) with 0 by lia. done.
      * destruct (Hnew i r ltac:(lia) Hr) as [(? & ? & Hlook)|[Hin ?]].
        -- left. repeat split; try done.
           replace (i - k) with (S (i - S k)) by lia. exact Hlook.
        -- right. rewrite lookup_insert_ne in Hin by lia. done.
    + rewrite Hprog, progress_calls_app, progress_calls_page_events, <- app_assoc.
      by destruct progress_callback.
    + rewrite Hsl, sleeps_app, sleeps_page_events, <- app_assoc. f_equal.
      destruct paths as [|p2 paths]; simpl in *.
      * by rewrite bool_decide_eq_false_2 by lia.
      * rewrite bool_decide_eq_true_2 by lia. by rewrite Nat.sub_0_r.
Qed.
End BatchRuns.

Section BatchOutcomes.
Import ClaudeOCR.
Context {W : Type}.
Variable self_extract_text_from_image : string -> string -> Py W string.
Variable time_sleep : pynum -> Py W unit.

Lemma extract_text_batch_success_run image_paths document_type delay progress_callback s :
  (forall cb, progress_callback = Some cb ->
              forall done n w, exists w', cb done n w = (Return tt, w')) ->
  (forall d w, exists w', time_sleep d w = (Return tt, w')) ->
  (forall path w, exists txt w',
      self_extract_text_from_image path document_type w = (Return txt, w')) ->
  exists res s',
    extract_text_batch self_extract_text_from_image time_sleep image_paths document_type
      delay progress_callback s = (Return res, s')
    /\ (forall i r, res !! i = Some r -> status r = "success")
    /\ progress_calls (events s')
       = (progress_calls (events s)
          ++ match progress_callback with
             | Some _ => (fun i => (i + 1, length image_paths)) <$> seq 0 (length image_paths)
             | None => []
             end)%list
    /\ sleeps (events s')
       = (sleeps (events s) ++ replicate (length image_paths - 1) delay)%list.
Proof.
  intros Hcb Hsleep Hcall. unfold extract_text_batch, enumerate.
  destruct (batch_loop_success self_extract_text_from_image time_sleep document_type delay
              progress_callback (length image_paths) Hcb Hsleep Hcall image_paths 0
              (State (world s) ∅ (events s)) eq_refl)
    as (s' & Hloop & _ & Hnew & Hprog & Hsl).
  exists (results s'), s'. split; [|split; [|split]].
  - unfold modify, get, mbind, Py_bind, bind, mret, Py_ret, ret.
    unfold mbind, Py_bind, bind in Hloop. by rewrite Hloop.
  - intros i r Hr. destruct (Hnew i r ltac:(lia) Hr) as [(? & _)|[Hin _]]; [done|].
    simpl in Hin. by rewrite lookup_empty in Hin.
  - exact Hprog.
  - exact Hsl.
Qed.

(** X1: when no transcription call, callback or sleep raises, the callback is
    called once per page, with (1, N), (2, N), ..., (N, N) in this order, the
    delay is slept N - 1 times (not after the last page), and every page is
    recorded with status success. *)
Theorem extract_text_batch_reports_every_page (image_paths : list string)
    (document_type : string) (delay : pynum) (cb : nat -> nat -> Py W unit) (s : state W) :
  (forall done n w, exists w', cb done n w = (Return tt, w')) ->
  (forall d w, exists w', time_sleep d w = (Return tt, w')) ->
  (forall path w, exists txt w',
      self_extract_text_from_image path document_type w = (Return txt, w')) ->
  exists res s',
    extract_text_batch self_extract_text_from_image time_sleep image_paths document_type
      delay (Some cb) s = (Return res, s')
    /\ (forall i r, res !! i = Some r -> status r = "success")
    /\ progress_calls (events s')
       = (progress_calls (events s)
          ++ ((fun i => (i + 1, length image_paths)) <$> seq 0 (length image_paths)))%list
    /\ sleeps (events s')
       = (sleeps (events s) ++ replicate (length image_paths - 1) delay)%list.
Proof.
  intros Hcb Hsleep Hcall.
  apply (extract_text_batch_success_run image_paths document_type delay (Some cb) s);
    [|done|done].
  intros cb' [= <-]. exact Hcb.
Qed.
End BatchOutcomes.

Lemma extract_text_batch_reports_every_page_witness :
  exists res s',
    ClaudeOCR.extract_text_batch (Scenarios.fails_first 0) Scenarios.no_wait
      ["page_0001.png"; "page_0002.png"; "page_0003.png"] "table" Scenarios.one_second
      (Some Scenarios.silent_callback) Scenarios.fresh = (Return res, s')
    /\ (forall i r, res !! i = Some r -> ClaudeOCR.status r = "success")
    /\ ClaudeOCR.progress_calls (ClaudeOCR.events s')
       = (ClaudeOCR.progress_calls (ClaudeOCR.events Scenarios.fresh)
          ++ ((fun i => (i + 1, 3)) <$> seq 0 3))%list
    /\ ClaudeOCR.sleeps (ClaudeOCR.events s')
       = (ClaudeOCR.sleeps (ClaudeOCR.events Scenarios.fresh)
          ++ replicate 2 Scenarios.one_second)%list.
Proof.
  apply (extract_text_batch_reports_every_page (Scenarios.fails_first 0) Scenarios.no_wait
           ["page_0001.png"; "page_0002.png"; "page_0003.png"] "table"
           Scenarios.one_second Scenarios.silent_callback Scenarios.fresh).
  - intros done n w. exists w. reflexivity.
  - intros d w. exists w. reflexivity.
  - intros path w. exists "extracted text", (S w). reflexivity.
Defined.

Section BatchFailures.
Import ClaudeOCR.
Context {W : Type}.
Variable self_extract_text_from_image : string -> string -> Py W string.
Variable time_sleep : pynum -> Py W unit.
Variable document_type : string.
Variable delay : pynum.
Variable progress_callback : option (nat -> nat -> Py W unit).
Variable total : nat.
Hypothesis Hfail :
  forall path w, exists e w',
    self_extract_text_from_image path document_type w = (Raise e, w').

Lemma batch_loop_failure paths : forall k s,
  exists s',
    for_each (batch_page self_extract_text_from_image time_sleep document_type delay
                         progress_callback total)
             (enumerate_from k paths) s = (Return tt, s')
    /\ (forall i r, results s' !! i = Some r ->
          status r = "error" \/ results s !! i = Some r)
    /\ progress_calls (events s') = progress_calls (events s)
    /\ sleeps (events s') = sleeps (events s).
Proof.
  induction paths as [|path paths IH]; intros k [w res evs]; simpl.
  - eexists. split; [reflexivity|]. auto.
  - destruct (Hfail path w) as (e & w1 & Hrun).
    assert (Hstep :
      batch_page self_extract_text_from_image time_sleep document_type delay
        progress_callback total (k, path) (State w res evs)
      = (Return tt,
         State w1 (<[k := PageResult (k + 1) (error_marker e) "error" path]> res)
               ((evs ++ [EvCall path document_type (Raise e)])
                ++ [EvRecord k (PageResult (k + 1) (error_marker e) "error" path)]))).
    { unfold batch_page, try_except, call_extract, set_item, modify,
        mbind, Py_bind, bind.
      simpl. by rewrite Hrun. }
    rewrite (bind_return _ _ _ _ _ Hstep).
    destruct (IH (S k) (State w1
                (<[k := PageResult (k + 1) (error_marker e) "error" path]> res)
                ((evs ++ [EvCall path document_type (Raise e)])
                 ++ [EvRecord k (PageResult (k + 1) (error_marker e) "error" path)])))
      as (s' & Hloop & Hres & Hprog & Hsl).
    exists s'. split; [exact Hloop|]. simpl in *. split; [|split].
    + intros i r Hr. destruct (Hres i r Hr) as [?|Hin]; [by left|].
      destruct (decide (i = k)) as [->|Hne].
      * rewrite lookup_insert_eq in Hin. injection Hin as <-. by left.
      * rewrite lookup_insert_ne in Hin by done. by right.
    + rewrite Hprog, !progress_calls_app. simpl. by rewrite !app_nil_r.
    + rewrite Hsl, !sleeps_app. simpl. by rewrite !app_nil_r.
Qed.
End BatchFailures.

Section BatchAllFail.
Import ClaudeOCR.
Context {W : Type}.
Variable self_extract_text_from_image : string -> string -> Py W string.
Variable time_sleep : pynum -> Py W unit.

(** X2: when every transcription call raises, every page is recorded with
    status error, the progress callback is never called, and no delay is
    slept between the pages. *)
Theorem extract_text_batch_failures_skip_callback_and_delay (image_paths : list string)
    (document_type : string) (delay : pynum)
    (progress_callback : option (nat -> nat -> Py W unit)) (s : state W) :
  (forall path w, exists e w',
      self_extract_text_from_image path document_type w = (Raise e, w')) ->
  exists res s',
    extract_text_batch self_extract_text_from_image time_sleep image_paths document_type
      delay progress_callback s = (Return res, s')
    /\ (forall i r, res !! i = Some r -> status r = "error")
    /\ progress_calls (events s') = progress_calls (events s)
    /\ sleeps (events s') = sleeps (events s).
Proof.
  intros Hfail. unfold extract_text_batch, enumerate.
  destruct (batch_loop_failure self_extract_text_from_image time_sleep document_type delay
              progress_callback (length image_paths) Hfail image_paths 0
              (State (world s) ∅ (events s)))
    as (s' & Hloop & Hres & Hprog & Hsl).
  exists (results s'), s'. split; [|split; [|split]].
  - unfold modify, get, mbind, Py_bind, bind, mret, Py_ret, ret.
    unfold mbind, Py_bind, bind in Hloop. by rewrite Hloop.
  - intros i r Hr. destruct (Hres i r Hr) as [?|Hin]; [done|].
    simpl in Hin. by rewrite lookup_empty in Hin.
  - exact Hprog.
  - exact Hsl.
Qed.
End BatchAllFail.

Lemma extract_text_batch_failures_skip_callback_and_delay_witness :
  exists res s',
    ClaudeOCR.extract_text_batch Scenarios.always_fails Scenarios.no_wait
      ["page_0001.png"; "page_0002.png"] "general" Scenarios.one_second
      (Some Scenarios.silent_callback) Scenarios.fresh = (Return res, s')
    /\ (forall i r, res !! i = Some r -> ClaudeOCR.status r = "error")
    /\ ClaudeOCR.progress_calls (ClaudeOCR.events s')
       = ClaudeOCR.progress_calls (ClaudeOCR.events Scenarios.fresh)
    /\ ClaudeOCR.sleeps (ClaudeOCR.events s')
       = ClaudeOCR.sleeps (ClaudeOCR.events Scenarios.fresh).
Proof.
  apply (extract_text_batch_failures_skip_callback_and_delay Scenarios.always_fails
           Scenarios.no_wait ["page_0001.png"; "page_0002.png"] "general"
           Scenarios.one_second (Some Scenarios.silent_callback) Scenarios.fresh).
  intros path w. exists (Scenarios.api_error w), (S w). reflexivity.
Defined.

(** ** The batch and the retry loop over the class's own single-shot call *)

Section OwnSingleShot.
Import ClaudeOCR.
Context {W : Type}.
Variable read_bytes : string -> Py W string.
Variable b64encode : string -> string.
Variable suffix_lower : string -> string.
Variable messages_create : request -> Py W message.
Variable time_sleep : pynum -> Py W unit.

Lemma extract_text_from_image_returns image_path document_type w :
  exists txt w',
    extract_text_from_image read_bytes b64encode suffix_lower messages_create
      image_path document_type w = (Return txt, w').
Proof.
  unfold extract_text_from_image, image_to_base64, try_except, lift,
    mbind, Py_bind, bind, mret, Py_ret, ret, raise.
  rewrite get_ocr_prompt_lookup.
  destruct (read_bytes image_path w) as [[bytes|e] w1]; [|by eauto].
  destruct (messages_create _ w1) as [[[blocks]|e] w2]; [|by eauto].
  destruct blocks as [|[t|] rest]; simpl; eauto.
Qed.







(** X3: run over the class's own [extract_text_from_image], the batch tags
    every page success whatever the file system and the model API do: a
    failed read or API call ends up as error-marker text under status
    success.  (The callback and the sleep are assumed not to raise.) *)
Theorem extract_text_batch_own_call_all_success (image_paths : list string)
    (document_type : string) (delay : pynum)
    (progress_callback : option (nat -> nat -> Py W unit)) (s : state W) :
  (forall cb, progress_callback = Some cb ->
              forall done n w, exists w', cb done n w = (Return tt, w')) ->
  (forall d w, exists w', time_sleep d w = (Return tt, w')) ->
  exists res s',
    extract_text_batch
      (extract_text_from_image read_bytes b64encode suffix_lower messages_create)
      time_sleep image_paths document_type delay progress_callback s = (Return res, s')
    /\ dom res = set_seq 0 (length image_paths)
    /\ (forall i r, res !! i = Some r -> status r = "success").
Proof.
  intros Hcb Hsleep.
  destruct (extract_text_batch_success_run
              (extract_text_from_image read_bytes b64encode suffix_lower messages_create)
              time_sleep image_paths document_type delay progress_callback s Hcb Hsleep)
    as (res & s' & Hrun & Hstatus & _).
  { intros path w. apply extract_text_from_image_returns. }
  exists res, s'. split; [exact Hrun|]. split; [|exact Hstatus].
  destruct (batch_loop_records
              (extract_text_from_image read_bytes b64encode suffix_lower messages_create)
              time_sleep document_type delay progress_callback (length image_paths)
              image_paths 0 (State (world s) ∅ (events s)))
    as (s1 & Hloop & Hold & Hnew & _).
  assert (res = results s1) as ->.
  { unfold extract_text_batch, enumerate, modify, get, mbind, Py_bind, bind, mret,
      Py_ret, ret in Hrun.
    unfold mbind, Py_bind, bind in Hloop. rewrite Hloop in Hrun. by injection Hrun. }
  apply set_eq. intros i. rewrite elem_of_dom, elem_of_set_seq. split.
  - intros [r Hr]. destruct (decide (i < length image_paths)); [lia|].
    rewrite Hold in Hr by lia. simpl in Hr. by rewrite lookup_empty in Hr.
  - intros Hi. destruct (Hnew i) as (r & -> & _); [lia|]. by eexists.
Qed.
End OwnSingleShot.

(** Two pages and a delay that [time.sleep] rejects: the first page ends
    with status error, after its report (1, 2) was made. *)
Example extract_text_batch_sleep_raises :
  let run :=
    ClaudeOCR.extract_text_batch
      (ClaudeOCR.extract_text_from_image Scenarios.read_any Scenarios.encode_plain
         Scenarios.suffix_png Scenarios.reply_text)
      Scenarios.sleep_rejects ["page_0001.png"; "page_0002.png"] "general"
      (PyInt (-1)) (Some Scenarios.silent_callback_unit) Scenarios.fresh_unit in
  ClaudeOCR.status <$> (ClaudeOCR.results (snd run) !! 0) = Some "error"
  /\ ClaudeOCR.status <$> (ClaudeOCR.results (snd run) !! 1) = Some "success"
  /\ ClaudeOCR.events (snd run)
     = [ ClaudeOCR.EvCall "page_0001.png" "general" (Return "extracted text");
         ClaudeOCR.EvRecord 0
           (ClaudeOCR.PageResult 1 "extracted text" "success" "page_0001.png");
         ClaudeOCR.EvProgress 1 2;
         ClaudeOCR.EvSleep (PyInt (-1));
         ClaudeOCR.EvRecord 0
           (ClaudeOCR.PageResult 1 "오류 발생: sleep length must be non-negative"
              "error" "page_0001.png");
         ClaudeOCR.EvCall "page_0002.png" "general" (Return "extracted text");
         ClaudeOCR.EvRecord 1
           (ClaudeOCR.PageResult 2 "extracted text" "success" "page_0002.png");
         ClaudeOCR.EvProgress 2 2 ].
Proof. repeat split; vm_compute; reflexivity. Qed.

Lemma extract_text_batch_own_call_all_success_witness :
  exists res s',
    ClaudeOCR.extract_text_batch
      (ClaudeOCR.extract_text_from_image Scenarios.read_any Scenarios.encode_plain
         Scenarios.suffix_png Scenarios.reply_overloaded)
      Scenarios.no_wait_unit ["page_0001.png"; "page_0002.png"] "general"
      Scenarios.one_second None Scenarios.fresh_unit = (Return res, s')
    /\ dom res = set_seq 0 (length ["page_0001.png"; "page_0002.png"])
    /\ (forall i r, res !! i = Some r -> ClaudeOCR.status r = "success").
Proof.
  apply (extract_text_batch_own_call_all_success Scenarios.read_any Scenarios.encode_plain
           Scenarios.suffix_png Scenarios.reply_overloaded Scenarios.no_wait_unit
           ["page_0001.png"; "page_0002.png"] "general" Scenarios.one_second None
           Scenarios.fresh_unit).
  - intros cb Hcb. discriminate Hcb.
  - intros d w. exists w. reflexivity.
Defined.

(** The overloaded API seen through the batch: the error text, tagged
    success. *)
Example extract_text_batch_overloaded_api :
  fst (ClaudeOCR.extract_text_batch
         (ClaudeOCR.extract_text_from_image Scenarios.read_any Scenarios.encode_plain
            Scenarios.suffix_png Scenarios.reply_overloaded)
         Scenarios.no_wait_unit ["page_0001.png"] "general"
         Scenarios.one_second None Scenarios.fresh_unit)
  = Return {[ 0 := ClaudeOCR.PageResult 1 "오류 발생: overloaded_error" "success"
                                       "page_0001.png" ]}.
Proof. vm_compute. reflexivity. Qed.

Section RetryBounds.
Import ClaudeOCR.
Context {W : Type}.
Variable self_extract_text_from_image : string -> string -> Py W string.
Variable time_sleep : pynum -> Py W unit.

Lemma retry_loop_bounds p d max_retries : forall m a s,
  max_retries = Z.of_nat (a + m) ->
  exists o s' evs,
    retry_loop self_extract_text_from_image time_sleep p d max_retries
      (Z.of_nat <$> seq a m) s = (o, s')
    /\ events s' = (events s ++ evs)%list
    /\ results s' = results s
    /\ length (called_paths evs) <= m
    /\ sleeps evs `prefix_of` ((fun k => PyInt (2 ^ Z.of_nat k)) <$> seq a (m - 1))
    /\ (o = Return None <-> m = 0).
Proof.
  induction m as [|m IH]; intros a [w res evs0] Hmax; simpl.
  - exists (Return None), (State w res evs0), []. simpl.
    rewrite app_nil_r. repeat split; try done; try apply prefix_nil.
  - destruct (self_extract_text_from_image p d w) as [[txt|e] w1] eqn:Hcall.
    + rewrite (bind_return _ _ _ _ _
        (retry_attempt_success self_extract_text_from_image time_sleep p d max_retries
           (Z.of_nat a) w res evs0 txt w1 Hcall)).
      eexists _, _, [EvCall p d (Return txt)]. split; [reflexivity|]. simpl.
      repeat split; try done; try lia; try apply prefix_nil.
    + destruct (decide (m = 0)) as [->|Hm].
      * assert (Z.of_nat a = (max_retries - 1)%Z) as -> by lia.
        rewrite (bind_raise _ _ _ _ _
          (retry_attempt_exhausted self_extract_text_from_image time_sleep p d
             max_retries w res evs0 e w1 Hcall)).
        eexists _, _, [EvCall p d (Raise e)]. split; [reflexivity|]. simpl.
        repeat split; try done; try lia; try apply prefix_nil.
      * destruct (time_sleep (PyInt (2 ^ Z.of_nat a)) w1) as [[[]|e'] w2] eqn:Hs.
        -- rewrite (bind_return _ _ _ _ _
             (retry_attempt_backoff self_extract_text_from_image time_sleep p d
                max_retries (Z.of_nat a) w res evs0 e w1 w2 ltac:(lia) Hcall Hs)).
           destruct (IH (S a) (State w2 res
                       (evs0 ++ [EvCall p d (Raise e); EvSleep (PyInt (2 ^ Z.of_nat a))])))
             as (o & s' & evs & Hloop & Hev & Hres & Hlen & Hpre & Hnone); [lia|].
           exists o, s',
             ([EvCall p d (Raise e); EvSleep (PyInt (2 ^ Z.of_nat a))] ++ evs)%list.
           split; [exact Hloop|]. simpl in *. split; [|split; [|split; [|split]]].
           ++ by rewrite Hev, <- app_assoc.
           ++ exact Hres.
           ++ lia.
           ++ replace (m - 0) with (S (m - 1)) by lia. simpl.
              by apply prefix_cons.
           ++ rewrite Hnone. lia.
        -- assert (Hstep :
             retry_attempt self_extract_text_from_image time_sleep p d max_retries
               (Z.of_nat a) (State w res evs0)
             = (Raise e',
                State w2 res
                  (evs0 ++ [EvCall p d (Raise e); EvSleep (PyInt (2 ^ Z.of_nat a))]))).
           { unfold retry_attempt, try_except, call_extract, sleep, emit, on_world,
               modify, mbind, Py_bind, bind, mret, Py_ret, ret.
             simpl. rewrite Hcall. rewrite bool_decide_eq_false_2 by lia. simpl.
             rewrite Hs. by rewrite <- app_assoc. }
           rewrite (bind_raise _ _ _ _ _ Hstep).
           eexists _, _, [EvCall p d (Raise e); EvSleep (PyInt (2 ^ Z.of_nat a))].
           split; [reflexivity|]. simpl. repeat split; try done; try lia.
           replace (m - 0) with (S (m - 1)) by lia. simpl.
           apply prefix_cons, prefix_nil.
Qed.

(** X4: whatever the call and the sleep do, the retry loop makes at most
    [max_retries] calls, its sleeps are an initial part of 1, 2, 4, ...,
    [2^(max_retries-2)], it leaves the results untouched, and it returns
    [None] exactly when [max_retries <= 0], in which case nothing is called. *)
Theorem extract_with_retry_bounded (image_path document_type : string)
    (max_retries : Z) (s : state W) :
  exists o s' evs,
    extract_with_retry self_extract_text_from_image time_sleep image_path document_type
      max_retries s = (o, s')
    /\ events s' = (events s ++ evs)%list
    /\ results s' = results s
    /\ length (called_paths evs) <= Z.to_nat max_retries
    /\ sleeps evs `prefix_of` ((fun k => PyInt (2 ^ k)) <$> range (max_retries - 1))
    /\ (o = Return None <-> (max_retries <= 0)%Z)
    /\ ((max_retries <= 0)%Z -> evs = []).
Proof.
  unfold extract_with_retry, range.
  destruct (decide (max_retries <= 0)%Z) as [Hneg|Hpos].
  - replace (Z.to_nat max_retries) with 0 by lia. simpl.
    exists (Return None), s, []. rewrite app_nil_r.
    repeat split; try done; try lia; try apply prefix_nil.
  - destruct (retry_loop_bounds image_path document_type max_retries
                (Z.to_nat max_retries) 0 s ltac:(lia))
      as (o & s' & evs & Hloop & Hev & Hres & Hlen & Hpre & Hnone).
    exists o, s', evs. split; [exact Hloop|].
    split; [exact Hev|]. split; [exact Hres|]. split; [exact Hlen|].
    split; [|split; [split|]].
    + rewrite <- list_fmap_compose.
      replace (Z.to_nat (max_retries - 1)) with (Z.to_nat max_retries - 1) by lia.
      exact Hpre.
    + intros Ho. apply Hnone in Ho. lia.
    + intros Hle. lia.
    + intros Hle. lia.
Qed.
End RetryBounds.

Section RetryOwnCall.
Import ClaudeOCR.
Context {W : Type}.
Variable read_bytes : string -> Py W string.
Variable b64encode : string -> string.
Variable suffix_lower : string -> string.
Variable messages_create : request -> Py W message.
Variable time_sleep : pynum -> Py W unit.

(** X5: run over the class's own [extract_text_from_image], the retrying
    variant never retries: for [max_retries >= 1] it makes exactly one call,
    never sleeps, never raises, and returns what that call returned, an
    error marker included. *)
Theorem extract_with_retry_own_call_never_retries (image_path document_type : string)
    (max_retries : Z) (s : state W) :
  (1 <= max_retries)%Z ->
  exists txt w',
    extract_text_from_image read_bytes b64encode suffix_lower messages_create
      image_path document_type (world s) = (Return txt, w')
    /\ extract_with_retry
         (extract_text_from_image read_bytes b64encode suffix_lower messages_create)
         time_sleep image_path document_type max_retries s
       = (Return (Some txt),
          State w' (results s)
                (events s ++ [EvCall image_path document_type (Return txt)])).
Proof.
  intros Hmax.
  destruct (extract_text_from_image_returns read_bytes b64encode suffix_lower
              messages_create image_path document_type (world s)) as (txt & w' & Hcall).
  exists txt, w'. split; [exact Hcall|].
  unfold extract_with_retry, range.
  destruct (Z.to_nat max_retries) as [|m] eqn:E; [lia|]. simpl.
  destruct s as [w res evs]. simpl in Hcall.
  by rewrite (bind_return _ _ _ _ _
    (retry_attempt_success _ time_sleep image_path document_type max_retries
       (Z.of_nat 0) w res evs txt w' Hcall)).
Qed.
End RetryOwnCall.

Lemma extract_with_retry_own_call_never_retries_witness :
  exists txt w',
    ClaudeOCR.extract_text_from_image Scenarios.read_any Scenarios.encode_plain
      Scenarios.suffix_png Scenarios.reply_overloaded "page_0001.png" "general"
      (ClaudeOCR.world Scenarios.fresh_unit) = (Return txt, w')
    /\ ClaudeOCR.extract_with_retry
         (ClaudeOCR.extract_text_from_image Scenarios.read_any Scenarios.encode_plain
            Scenarios.suffix_png Scenarios.reply_overloaded)
         Scenarios.no_wait_unit "page_0001.png" "general" 3 Scenarios.fresh_unit
       = (Return (Some txt),
          ClaudeOCR.State w' (ClaudeOCR.results Scenarios.fresh_unit)
            (ClaudeOCR.events Scenarios.fresh_unit
             ++ [ClaudeOCR.EvCall "page_0001.png" "general" (Return txt)])).
Proof.
  apply (extract_with_retry_own_call_never_retries Scenarios.read_any
           Scenarios.encode_plain Scenarios.suffix_png Scenarios.reply_overloaded
           Scenarios.no_wait_unit "page_0001.png" "general" 3 Scenarios.fresh_unit).
  lia.
Defined.

(** ** [PDFConverter.check_poppler_installation] *)

(** X6: the check answers [True] exactly when [pdftoppm -h] exits with 0, or
    when it exits with another code, times out or is not found and
    [pdftocairo -h] exits with 0.  Any other exception of the first command
    ends the check with [False] without trying the second. *)
Theorem check_poppler_installation_true_iff (subprocess_run : list string -> outcome Z) :
  PDFConverter.check_poppler_installation subprocess_run = true
  <-> subprocess_run ["pdftoppm"; "-h"] = Return 0%Z
      \/ (PDFConverter.moves_on (subprocess_run ["pdftoppm"; "-h"])
          /\ subprocess_run ["pdftocairo"; "-h"] = Return 0%Z).
Proof.
  unfold PDFConverter.check_poppler_installation, PDFConverter.try_commands,
    PDFConverter.moves_on.
  destruct (subprocess_run ["pdftoppm"; "-h"]) as [rc1|e1].
  - case_bool_decide as H1.
    + subst. split; [auto|done].
    + destruct (subprocess_run ["pdftocairo"; "-h"]) as [rc2|e2].
      * case_bool_decide as H2.
        -- subst. split; [auto|done].
        -- split; [done|]. intros [[= ?]|[_ [= ?]]]; done.
      * split; [by destruct (class_of e2)|]. intros [[= ?]|[_ ?]]; done.
  - destruct (class_of e1) eqn:E1;
      try (split; [done|intros [?|[[?|?] _]]; done]).
    + destruct (subprocess_run ["pdftocairo"; "-h"]) as [rc2|e2].
      * case_bool_decide as H2.
        -- subst. split; [auto|done].
        -- split; [done|]. intros [?|[_ [= ?]]]; done.
      * split; [by destruct (class_of e2)|]. intros [?|[_ ?]]; done.
    + destruct (subprocess_run ["pdftocairo"; "-h"]) as [rc2|e2].
      * case_bool_decide as H2.
        -- subst. split; [auto|done].
        -- split; [done|]. intros [?|[_ [= ?]]]; done.
      * split; [by destruct (class_of e2)|]. intros [?|[_ ?]]; done.
Qed.

(** ** [PDFConverter.get_pdf_page_count] *)

(** X7: the page count never raises.  It is the ['Pages'] entry of the
    metadata (0 when the entry is missing); when the metadata lookup raises
    it is the number of images of a full conversion, provided the conversion
    of page 1 gave an image, and 0 in every other case. *)
Theorem get_pdf_page_count_fallback
    (convert_from_path : string -> Z -> option Z -> option Z
                         -> outcome (list PDFConverter.image))
    (pdfinfo_pages : string -> outcome (option Z)) (pdf_path : string) :
  PDFConverter.get_pdf_page_count convert_from_path pdfinfo_pages pdf_path
  = Return match pdfinfo_pages pdf_path with
           | Return info => default 0%Z info
           | Raise _ =>
               match convert_from_path pdf_path 200%Z (Some 1%Z) (Some 1%Z) with
               | Return (_ :: _) =>
                   match convert_from_path pdf_path 200%Z None None with
                   | Return all_pages => Z.of_nat (length all_pages)
                   | Raise _ => 0%Z
                   end
               | _ => 0%Z
               end
           end.
Proof.
  unfold PDFConverter.get_pdf_page_count, try_except, lift, mbind, Py_bind, bind,
    mret, Py_ret, ret.
  destruct (pdfinfo_pages pdf_path) as [info|e]; [done|]. simpl.
  destruct (convert_from_path pdf_path 200%Z (Some 1%Z) (Some 1%Z)) as [[|first rest]|e1];
    [done| |done].
  simpl. by destruct (convert_from_path pdf_path 200%Z None None).
Qed.

(** Without [pdfinfo] the three pages are counted by converting them. *)
Example get_pdf_page_count_without_pdfinfo :
  PDFConverter.get_pdf_page_count Scenarios.three_page_pdf Scenarios.pdfinfo_missing
    "scan.pdf" = Return 3%Z.
Proof. reflexivity. Qed.

(** ** [PDFConverter.optimize_image_for_ocr], when Pillow works *)

Section OptimizeWorks.
Import PDFConverter.
Variable pil_raises : pil_call -> option exn.
Hypothesis Hpillow : forall c, pil_raises c = None.

Lemma to_rgb_works img :
  to_rgb pil_raises img
  = (Return tt,
     Image (size img) "RGB" (raster img)
       (history img
        ++ (if bool_decide (mode img = "RGBA") || bool_decide (mode img = "LA")
            then [OpFlattenOnWhite]
            else if bool_decide (mode img = "RGB") then [] else [OpConvert "RGB"]))).
Proof.
  unfold to_rgb, assign, modify, lift, get, flatten_on_white, convert, pil,
    mbind, Py_bind, bind, mret, Py_ret, ret.
  rewrite !Hpillow.
  destruct (bool_decide (mode img = "RGBA") || bool_decide (mode img = "LA")); [done|].
  case_bool_decide as Hrgb; simpl; [|done].
  destruct img as [sz md rs hs]. simpl in *. subst. by rewrite app_nil_r.
Qed.

Lemma boost_contrast_works img :
  boost_contrast pil_raises img
  = (Return tt, Image (size img) (mode img) (raster img)
                      (history img ++ [OpContrast contrast_factor])).
Proof.
  unfold boost_contrast, assign, modify, lift, get, enhance_contrast, pil,
    mbind, Py_bind, bind, mret, Py_ret, ret.
  by rewrite !Hpillow.
Qed.

Lemma boost_sharpness_works img :
  boost_sharpness pil_raises img
  = (Return tt, Image (size img) (mode img) (raster img)
                      (history img ++ [OpSharpness sharpness_factor])).
Proof.
  unfold boost_sharpness, assign, modify, lift, get, enhance_sharpness, pil,
    mbind, Py_bind, bind, mret, Py_ret, ret.
  by rewrite !Hpillow.
Qed.

(** Once the upscaling block has left [img], the rest of the body gives it
    the mode RGB and keeps its size. *)
Lemma optimize_after_upscale original img :
  upscale_if_small pil_raises original = (Return tt, img) ->
  optimize_image_for_ocr pil_raises original
  = Return (Image (size img) "RGB" (raster img)
              (history img
               ++ (if bool_decide (mode img = "RGBA") || bool_decide (mode img = "LA")
                   then [OpFlattenOnWhite]
                   else if bool_decide (mode img = "RGB") then [] else [OpConvert "RGB"])
               ++ [OpContrast contrast_factor; OpSharpness sharpness_factor])).
Proof.
  intros Hup. unfold optimize_image_for_ocr, try_except.
  rewrite (bind_return _ _ _ _ _ Hup).
  rewrite (bind_return _ _ _ _ _ (to_rgb_works img)).
  rewrite (bind_return _ _ _ _ _ (boost_contrast_works _)).
  rewrite (bind_return _ _ _ _ _ (boost_sharpness_works _)).
  simpl. by rewrite <- !app_assoc.
Qed.

(** X8: when no Pillow call raises, an image with both sides at least 1000
    pixels keeps its size and comes back in mode RGB: flattened onto white
    when its mode is RGBA or LA, converted when it is another mode than RGB,
    then contrast and sharpness are boosted, in this order. *)
Theorem optimize_image_for_ocr_large_image (img : image) :
  (1000 <= fst (size img))%Z -> (1000 <= snd (size img))%Z ->
  optimize_image_for_ocr pil_raises img
  = Return (Image (size img) "RGB" (raster img)
              (history img
               ++ (if bool_decide (mode img = "RGBA") || bool_decide (mode img = "LA")
                   then [OpFlattenOnWhite]
                   else if bool_decide (mode img = "RGB") then [] else [OpConvert "RGB"])
               ++ [OpContrast contrast_factor; OpSharpness sharpness_factor])).
Proof.
  intros Hw Hh. apply optimize_after_upscale.
  unfold upscale_if_small, when, get, mbind, Py_bind, bind, mret, Py_ret, ret.
  destruct (size img) as [width height]. simpl in *.
  rewrite !bool_decide_eq_false_2 by lia. done.
Qed.
End OptimizeWorks.

Lemma optimize_image_for_ocr_large_image_witness :
  PDFConverter.optimize_image_for_ocr Scenarios.pillow_works
    (PDFConverter.Image (2480, 3508)%Z "RGBA" 7 [])
  = Return (PDFConverter.Image (2480, 3508)%Z "RGB" 7
              [ PDFConverter.OpFlattenOnWhite;
                PDFConverter.OpContrast PDFConverter.contrast_factor;
                PDFConverter.OpSharpness PDFConverter.sharpness_factor ]).
Proof.
  apply (optimize_image_for_ocr_large_image Scenarios.pillow_works (fun _ => eq_refl)
           (PDFConverter.Image (2480, 3508)%Z "RGBA" 7 [])); simpl; lia.
Defined.


(** ** The upscaling arithmetic on small images *)

Lemma float_of_Z_of_int (z : Z) :
  (0 <= z < 2 ^ 63)%Z ->
  PDFConverter.float_of_Z z = PrimFloat.of_uint63 (Uint63.of_Z z).
Proof.
  intros Hz. unfold PDFConverter.float_of_Z.
  rewrite <- (SF2Prim_Prim2SF (PrimFloat.of_uint63 (Uint63.of_Z z))).
  rewrite of_uint63_spec, Uint63.of_Z_spec.
  rewrite Z.mod_small; [reflexivity|].
  change wB with (2 ^ 63)%Z. lia.
Qed.

(** The mantissa of a float has as many bits as its number of digits says. *)
Lemma digits2_pos_bounds (m : positive) :
  (2 ^ (Z.pos (digits2_pos m) - 1) <= Z.pos m < 2 ^ Z.pos (digits2_pos m))%Z.
Proof.
  induction m as [m IH|m IH|]; simpl digits2_pos.
  - rewrite Pos2Z.inj_succ.
    replace (Z.succ (Z.pos (digits2_pos m)) - 1)%Z with (Z.succ (Z.pos (digits2_pos m) - 1))%Z by lia.
    rewrite !Z.pow_succ_r by lia. lia.
  - rewrite Pos2Z.inj_succ.
    replace (Z.succ (Z.pos (digits2_pos m)) - 1)%Z with (Z.succ (Z.pos (digits2_pos m) - 1))%Z by lia.
    rewrite !Z.pow_succ_r by lia. lia.
  - simpl. lia.
Qed.

(** A valid finite float above the subnormal range has a mantissa of 53
    bits. *)
Lemma valid_mantissa_53 (m : positive) (e : Z) :
  bounded prec emax m e = true -> (-1074 < e)%Z ->
  (2 ^ 52 <= Z.pos m < 2 ^ 53)%Z.
Proof.
  unfold bounded, canonical_mantissa, fexp, SpecFloat.emin, prec, emax.
  intros [Hcanon _]%andb_prop He. apply Z.eqb_eq in Hcanon.
  assert (Z.pos (digits2_pos m) = 53)%Z as Hd by lia.
  pose proof (digits2_pos_bounds m) as Hb. rewrite Hd in Hb. exact Hb.
Qed.

Lemma compare_cont_Eq (p q : positive) :
  Pos.compare_cont Eq p q = (p ?= q)%positive.
Proof. reflexivity. Qed.

Lemma int_of_float_at_least_999 (x : float) :
  PrimFloat.leb 0x1.f38p+9%float x = true ->
  PrimFloat.ltb x 0x1p+62%float = true ->
  exists m e,
    Prim2SF x = S754_finite false m e
    /\ (-43 <= e)%Z
    /\ PDFConverter.int_of_float x = Return (Z.shiftl (Z.pos m) e)
    /\ (999 <= Z.shiftl (Z.pos m) e)%Z.
Proof.
  rewrite leb_spec, ltb_spec. unfold PDFConverter.int_of_float.
  pose proof (Prim2SF_valid x) as Hvalid.
  change (Prim2SF 0x1.f38p+9%float) with (S754_finite false 8787296929185792 (-43)).
  change (Prim2SF 0x1p+62%float) with (S754_finite false 4503599627370496 10).
  destruct (Prim2SF x) as [s|s| |s m e]; unfold SFleb, SFltb, SFcompare.
  - done.
  - by destruct s.
  - done.
  - destruct s; [done|].
    rewrite compare_cont_Eq.
    destruct (Z.compare_spec (-43) e) as [He|He|He]; [| |done].
    + subst e. intros Hm _.
      assert (999 * 2 ^ 43 <= Z.pos m)%Z as Hlow.
      { change (999 * 2 ^ 43)%Z with (Z.pos 8787296929185792).
        destruct (Pos.compare_spec 8787296929185792 m) as [Hc|Hc|Hc];
          [lia|lia|done]. }
      exists m, (-43)%Z. split; [done|]. split; [lia|]. split; [done|].
      change (Z.shiftl (Z.pos m) (-43)) with (Z.shiftr (Z.pos m) 43).
      rewrite Z.shiftr_div_pow2 by lia.
      apply Z.div_le_lower_bound; lia.
    + intros _ _.
      pose proof (valid_mantissa_53 m e Hvalid ltac:(lia)) as Hbits.
      exists m, e. split; [done|]. split; [lia|]. split; [done|].
      destruct (Z_le_gt_dec 0 e) as [Hpos|Hneg].
      * rewrite Z.shiftl_mul_pow2 by lia.
        assert (0 < 2 ^ e)%Z by (apply Z.pow_pos_nonneg; lia).
        nia.
      * rewrite <- (Z.opp_involutive e). rewrite Z.shiftl_opp_r.
        rewrite Z.shiftr_div_pow2 by lia.
        apply Z.div_le_lower_bound; [apply Z.pow_pos_nonneg; lia|].
        assert (2 ^ (- e) <= 2 ^ 42)%Z by (apply Z.pow_le_mono_r; lia).
        nia.
Qed.

Lemma int_of_float_999_or_1000 (x : float) :
  PrimFloat.leb 0x1.f38p+9%float x = true ->
  PrimFloat.ltb x 0x1.f48p+9%float = true ->
  exists n, PDFConverter.int_of_float x = Return n /\ (999 <= n <= 1000)%Z.
Proof.
  intros Hlow Hhigh.
  assert (PrimFloat.ltb x 0x1p+62%float = true) as Hfinite.
  { revert Hlow Hhigh. rewrite leb_spec, !ltb_spec.
    change (Prim2SF 0x1.f38p+9%float) with (S754_finite false 8787296929185792 (-43)).
    change (Prim2SF 0x1.f48p+9%float) with (S754_finite false 8804889115230208 (-43)).
    change (Prim2SF 0x1p+62%float) with (S754_finite false 4503599627370496 10).
    destruct (Prim2SF x) as [s|s| |s m e]; unfold SFleb, SFltb, SFcompare;
      try done.
    destruct s; [done|].
    destruct (Z.compare_spec e (-43)) as [He|He|He]; [by subst e| |done].
    destruct (Z.compare_spec (-43) e) as [He'|He'|He']; [lia|lia|done]. }
  destruct (int_of_float_at_least_999 x Hlow Hfinite)
    as (m & e & Hx & He & Hint & Hge).
  exists (Z.shiftl (Z.pos m) e). split; [exact Hint|]. split; [exact Hge|].
  revert Hhigh. rewrite ltb_spec, Hx.
  change (Prim2SF 0x1.f48p+9%float) with (S754_finite false 8804889115230208 (-43)).
  unfold SFltb, SFcompare.
  rewrite compare_cont_Eq.
  destruct (Z.compare_spec e (-43)) as [He'|He'|He']; [|lia|done].
  subst e.
  destruct (Pos.compare_spec m 8804889115230208) as [Hc|Hc|Hc]; [done| |done].
  intros _. clear Hlow Hfinite Hx He Hint Hge.
  change (Z.shiftl (Z.pos m) (-43)) with (Z.shiftr (Z.pos m) 43).
  rewrite Z.shiftr_div_pow2 by done.
  apply Pos2Z.pos_lt_pos in Hc.
  change (Z.pos 8804889115230208) with (2 ^ 43 * 1001)%Z in Hc.
  apply Z.div_lt_upper_bound in Hc; [|done].
  apply Z.lt_succ_r. exact Hc.
Qed.

(** From the table to every pair of sides. *)
Lemma near_1000_row_covers (n : nat) : forall (width height : int) (z : Z),
  PDFConverter.near_1000_row n width height = true ->
  (Uint63.to_Z height <= z < Uint63.to_Z height + Z.of_nat n)%Z ->
  (z < 2 ^ 62)%Z ->
  PDFConverter.near_1000 width (Uint63.of_Z z) = true.
Proof.
  induction n as [|n IH]; intros width height z Hrow Hz Hsmall; [lia|].
  change (PDFConverter.near_1000 width height
          && PDFConverter.near_1000_row n width (height + 1)%uint63 = true) in Hrow.
  apply andb_prop in Hrow as [Hhere Hrest].
  destruct (decide (z = Uint63.to_Z height)) as [->|Hne].
  - rewrite Uint63.of_to_Z. exact Hhere.
  - apply (IH width (height + 1)%uint63 z Hrest); [|done].
    rewrite Uint63.add_spec, Uint63.to_Z_1.
    rewrite Z.mod_small; [lia|].
    change wB with (2 ^ 63)%Z. pose proof (Uint63.to_Z_bounded height). lia.
Qed.

Lemma near_1000_rows_covers (n : nat) : forall (width : int) (w h : Z),
  PDFConverter.near_1000_rows n width = true ->
  (Uint63.to_Z width <= w < Uint63.to_Z width + Z.of_nat n)%Z ->
  (w < 2 ^ 62)%Z ->
  (1 <= h <= 999)%Z ->
  PDFConverter.near_1000 (Uint63.of_Z w) (Uint63.of_Z h) = true.
Proof.
  induction n as [|n IH]; intros width w h Hrows Hw Hsmall Hh; [lia|].
  change (PDFConverter.near_1000_row 999 width 1%uint63
          && PDFConverter.near_1000_rows n (width + 1)%uint63 = true) in Hrows.
  apply andb_prop in Hrows as [Hhere Hrest].
  destruct (decide (w = Uint63.to_Z width)) as [->|Hne].
  - rewrite Uint63.of_to_Z.
    apply (near_1000_row_covers 999 width 1%uint63 h Hhere); [|lia].
    rewrite Uint63.to_Z_1. lia.
  - apply (IH (width + 1)%uint63 w h Hrest); [|done|done].
    rewrite Uint63.add_spec, Uint63.to_Z_1.
    rewrite Z.mod_small; [lia|].
    change wB with (2 ^ 63)%Z. pose proof (Uint63.to_Z_bounded width). lia.
Qed.

(** The table: all 999 x 999 pairs of sides, run through the arithmetic. *)
Lemma near_1000_table : PDFConverter.near_1000_rows 999 1%uint63 = true.
Proof. vm_compute. reflexivity. Qed.

Lemma near_1000_small (w h : Z) :
  (1 <= w <= 999)%Z -> (1 <= h <= 999)%Z ->
  PDFConverter.near_1000 (Uint63.of_Z w) (Uint63.of_Z h) = true.
Proof.
  intros Hw Hh.
  apply (near_1000_rows_covers 999 1%uint63 w h near_1000_table); [|lia|done].
  rewrite Uint63.to_Z_1. lia.
Qed.

Lemma scaled_size_small (width height : Z) :
  (1 <= width <= 999)%Z -> (1 <= height <= 999)%Z ->
  exists new_width new_height,
    PDFConverter.scaled_size width height = Return (new_width, new_height)
    /\ (999 <= new_width)%Z /\ (999 <= new_height)%Z
    /\ (new_width <= 1000 \/ new_height <= 1000)%Z.
Proof.
  intros Hw Hh.
  pose proof (near_1000_small width height Hw Hh) as Hnear.
  unfold PDFConverter.near_1000, PDFConverter.upscale_products in Hnear.
  unfold PDFConverter.scaled_size, PDFConverter.true_div, PDFConverter.int_mul_float.
  rewrite !bool_decide_eq_false_2 by lia.
  rewrite (float_of_Z_of_int width), (float_of_Z_of_int height),
    (float_of_Z_of_int 1000) by lia.
  change (Uint63.of_Z 1000) with 1000%uint63.
  set (fw := PrimFloat.of_uint63 (Uint63.of_Z width)) in *.
  set (fh := PrimFloat.of_uint63 (Uint63.of_Z height)) in *.
  set (thousand := PrimFloat.of_uint63 1000%uint63) in *.
  set (scale_factor := PDFConverter.float_max (thousand / fw) (thousand / fh)) in *.
  apply andb_prop in Hnear as [Hnear Hfinite_h].
  apply andb_prop in Hnear as [Hnear Hfinite_w].
  apply andb_prop in Hnear as [Hnear Hone].
  apply andb_prop in Hnear as [Hlow_w Hlow_h].
  destruct (int_of_float_at_least_999 _ Hlow_w Hfinite_w)
    as (mw & ew & _ & _ & Hint_w & Hge_w).
  destruct (int_of_float_at_least_999 _ Hlow_h Hfinite_h)
    as (mh & eh & _ & _ & Hint_h & Hge_h).
  rewrite Hint_w, Hint_h.
  eexists _, _. split; [reflexivity|]. split; [exact Hge_w|]. split; [exact Hge_h|].
  apply orb_prop in Hone as [Hhigh|Hhigh].
  - left. destruct (int_of_float_999_or_1000 _ Hlow_w Hhigh) as (n & Hn & Hle).
    rewrite Hint_w in Hn. injection Hn as <-. apply Hle.
  - right. destruct (int_of_float_999_or_1000 _ Hlow_h Hhigh) as (n & Hn & Hle).
    rewrite Hint_h in Hn. injection Hn as <-. apply Hle.
Qed.

Section UpscaleSmall.
Import PDFConverter.
Variable pil_raises : pil_call -> option exn.
Hypothesis Hpillow : forall c, pil_raises c = None.

Lemma upscale_if_small_resizes img width height new_width new_height :
  size img = (width, height) ->
  (width < 1000 \/ height < 1000)%Z ->
  scaled_size width height = Return (new_width, new_height) ->
  upscale_if_small pil_raises img
  = (Return tt,
     Image (new_width, new_height) (mode img) (raster img)
           (history img ++ [OpResizeLanczos new_width new_height])).
Proof.
  intros Hsize Hsmall Hscaled.
  unfold upscale_if_small, when, assign, modify, lift, get, resize, pil,
    mbind, Py_bind, bind, mret, Py_ret, ret.
  rewrite Hsize.
  assert (bool_decide (width < 1000)%Z || bool_decide (height < 1000)%Z = true) as ->.
  { destruct Hsmall; [rewrite bool_decide_eq_true_2 by done; done|].
    rewrite (bool_decide_eq_true_2 (height < 1000)%Z) by done. apply orb_true_r. }
  unfold scaled_size in Hscaled.
  destruct (true_div 1000 width) as [rw|]; [|done].
  destruct (true_div 1000 height) as [rh|]; [|done].
  destruct (int_of_float (int_mul_float width (float_max rw rh))) as [nw|]; [|done].
  destruct (int_of_float (int_mul_float height (float_max rw rh))) as [nh|]; [|done].
  injection Hscaled as -> ->. by rewrite Hpillow.
Qed.

(** X9: when no Pillow call raises, an image whose two sides are both between
    1 and 999 pixels comes back with both sides at least 999, one of them at
    most 1000, and neither smaller than before: the upscaling misses the 1000
    pixels by at most one. *)
Theorem optimize_image_for_ocr_small_image (img : image) (width height : Z) :
  size img = (width, height) ->
  (1 <= width <= 999)%Z -> (1 <= height <= 999)%Z ->
  exists optimized new_width new_height,
    optimize_image_for_ocr pil_raises img = Return optimized
    /\ size optimized = (new_width, new_height)
    /\ mode optimized = "RGB"
    /\ (999 <= new_width)%Z /\ (999 <= new_height)%Z
    /\ (new_width <= 1000 \/ new_height <= 1000)%Z
    /\ (width <= new_width)%Z /\ (height <= new_height)%Z.
Proof.
  intros Hsize Hw Hh.
  destruct (scaled_size_small width height Hw Hh)
    as (new_width & new_height & Hscaled & Hnw & Hnh & Hone).
  eexists _, new_width, new_height.
  split.
  { apply optimize_after_upscale; [exact Hpillow|].
    by apply (upscale_if_small_resizes img width height new_width new_height);
      [|lia|]. }
  simpl. split; [done|]. split; [done|].
  split; [exact Hnw|]. split; [exact Hnh|]. split; [exact Hone|]. lia.
Qed.
End UpscaleSmall.

Lemma optimize_image_for_ocr_small_image_witness :
  exists optimized new_width new_height,
    PDFConverter.optimize_image_for_ocr Scenarios.pillow_works Scenarios.a4_at_72dpi
    = Return optimized
    /\ PDFConverter.size optimized = (new_width, new_height)
    /\ PDFConverter.mode optimized = "RGB"
    /\ (999 <= new_width)%Z /\ (999 <= new_height)%Z
    /\ (new_width <= 1000 \/ new_height <= 1000)%Z
    /\ (595 <= new_width)%Z /\ (842 <= new_height)%Z.
Proof.
  apply (optimize_image_for_ocr_small_image Scenarios.pillow_works (fun _ => eq_refl)
           Scenarios.a4_at_72dpi 595 842); [reflexivity|lia|lia].
Defined.

(** ** [PDFConverter.convert_pdf_to_images], page by page *)

Section ConversionRuns.
Import PDFConverter.
Variable pil_raises : pil_call -> option exn.
Variable subprocess_run : list string -> outcome Z.
Variable mkdtemp : outcome string.
Variable makedirs : string -> outcome unit.
Variable convert_from_path : string -> Z -> option Z -> option Z -> outcome (list image).

(** The preprocessor always hands an image back. *)
Lemma optimize_image_for_ocr_returns img :
  exists optimized, optimize_image_for_ocr pil_raises img = Return optimized.
Proof.
  unfold optimize_image_for_ocr, try_except.
  match goal with |- context [match ?b with _ => _ end] =>
    destruct b as [[a|e] img'] end; simpl; eauto.
Qed.

(** One page of the loop: a page whose [save] raises leaves no trace, any
    other is written, listed and reported, whatever the callback does. *)
Lemma convert_page_run d first_page progress_callback total i img s :
  convert_page pil_raises d first_page progress_callback total (i, img) s
  = (Return tt,
     match saved_page pil_raises d first_page (i, img) with
     | Some (path, optimized) =>
         CState (dirs_created s) (files_written s ++ [(path, optimized)])
           (progress_reports s
            ++ match progress_callback with
               | Some _ => [(i + 1, total)]
               | None => []
               end)
           (image_paths s ++ [path])
     | None => s
     end).
Proof.
  unfold convert_page, saved_page, page_path, first_page_or_1.
  destruct (optimize_image_for_ocr_returns img) as [optimized ->].
  unfold try_except, save, append_path, report_progress, pil, lift, modify,
    mbind, Py_bind, bind, mret, Py_ret, ret.
  simpl.
  destruct (pil_raises (CallSave optimized _)) as [e|]; [done|].
  destruct progress_callback as [cb|]; simpl.
  - by destruct (cb (i + 1) total) as [[]|].
  - destruct s. simpl. by rewrite app_nil_r.
Qed.

Lemma saved_pages_cons d first_page item items :
  saved_pages pil_raises d first_page (item :: items)
  = match saved_page pil_raises d first_page item with
    | Some saved => saved :: saved_pages pil_raises d first_page items
    | None => saved_pages pil_raises d first_page items
    end.
Proof. reflexivity. Qed.

Lemma reported_pages_cons d first_page total item items :
  reported_pages pil_raises d first_page total (item :: items)
  = match saved_page pil_raises d first_page item with
    | Some _ => (fst item + 1, total)
                :: reported_pages pil_raises d first_page total items
    | None => reported_pages pil_raises d first_page total items
    end.
Proof.
  unfold reported_pages. simpl.
  by destruct (saved_page pil_raises d first_page item).
Qed.

Lemma convert_pages_run d first_page progress_callback total items : forall s,
  for_each (convert_page pil_raises d first_page progress_callback total) items s
  = (Return tt,
     CState (dirs_created s)
       (files_written s ++ saved_pages pil_raises d first_page items)
       (progress_reports s
        ++ match progress_callback with
           | Some _ => reported_pages pil_raises d first_page total items
           | None => []
           end)
       (image_paths s ++ (saved_pages pil_raises d first_page items).*1)).
Proof.
  induction items as [|[i img] items IH]; intros s.
  - destruct s. simpl. unfold ret. rewrite !app_nil_r.
    by destruct progress_callback; rewrite ?app_nil_r.
  - rewrite (for_each_cons _ _ _ _ _ (convert_page_run d first_page progress_callback
                                        total i img s)).
    rewrite IH, saved_pages_cons, reported_pages_cons. f_equal.
    destruct (saved_page pil_raises d first_page (i, img)) as [[path optimized]|];
      [|done].
    simpl. rewrite <- !app_assoc. by destruct progress_callback.
Qed.

Lemma folder_made output_folder d s :
  folder_ready mkdtemp makedirs output_folder d ->
  (match output_folder with
   | Some d0 => make_dirs makedirs d0;; mret d0
   | None => make_temp_dir mkdtemp
   end) s
  = (Return d, CState (dirs_created s ++ [d]) (files_written s)
                 (progress_reports s) (image_paths s)).
Proof.
  intros Hfolder.
  destruct output_folder as [given|]; simpl in Hfolder.
  - destruct Hfolder as [-> Hmk].
    unfold make_dirs, lift, modify, mbind, Py_bind, bind, mret, Py_ret, ret.
    by rewrite Hmk.
  - unfold make_temp_dir, lift, modify, mbind, Py_bind, bind, mret, Py_ret, ret.
    by rewrite Hfolder.
Qed.

Lemma convert_pdf_to_images_run pdf_path output_folder d dpi first_page last_page
    progress_callback images s :
  check_poppler_installation subprocess_run = true ->
  folder_ready mkdtemp makedirs output_folder d ->
  convert_from_path pdf_path dpi first_page last_page = Return images ->
  convert_pdf_to_images pil_raises subprocess_run mkdtemp makedirs convert_from_path
    pdf_path output_folder dpi first_page last_page progress_callback s
  = (Return (saved_pages pil_raises d first_page (enumerate images)).*1,
     CState (dirs_created s ++ [d])
       (files_written s ++ saved_pages pil_raises d first_page (enumerate images))
       (progress_reports s
        ++ match progress_callback with
           | Some _ => reported_pages pil_raises d first_page (length images)
                         (enumerate images)
           | None => []
           end)
       (saved_pages pil_raises d first_page (enumerate images)).*1).
Proof.
  intros Hcheck Hfolder Hconv.
  unfold convert_pdf_to_images, try_except.
  unfold mbind at 1 2 3. unfold Py_bind at 1 2 3. unfold bind at 1 2 3.
  rewrite Hcheck. simpl when. unfold ret at 1.
  rewrite (folder_made output_folder d s Hfolder).
  unfold lift at 1. rewrite Hconv.
  unfold mbind at 1. unfold Py_bind at 1. unfold bind at 1. unfold modify at 1.
  unfold mbind at 1. unfold Py_bind at 1. unfold bind at 1.
  rewrite convert_pages_run. simpl. done.
Qed.

(** X10: with Poppler present, the output folder in place and a document
    that converts, the conversion returns, in page order, the paths of
    exactly the pages whose [save] did not raise, and these are the files
    written.  A page whose [save] raises is skipped without stopping the
    loop; a callback that raises does not lose the page it was called for,
    and the callback is not called for a skipped page. *)
Theorem convert_pdf_to_images_returns_saved_pages (pdf_path : string)
    (output_folder : option string) (d : string) (dpi : Z)
    (first_page last_page : option Z)
    (progress_callback : option (nat -> nat -> outcome unit))
    (images : list image) (s : cstate) :
  check_poppler_installation subprocess_run = true ->
  folder_ready mkdtemp makedirs output_folder d ->
  convert_from_path pdf_path dpi first_page last_page = Return images ->
  convert_pdf_to_images pil_raises subprocess_run mkdtemp makedirs convert_from_path
    pdf_path output_folder dpi first_page last_page progress_callback s
  = (Return (saved_pages pil_raises d first_page (enumerate images)).*1,
     CState (dirs_created s ++ [d])
       (files_written s ++ saved_pages pil_raises d first_page (enumerate images))
       (progress_reports s
        ++ match progress_callback with
           | Some _ => reported_pages pil_raises d first_page (length images)
                         (enumerate images)
           | None => []
           end)
       (saved_pages pil_raises d first_page (enumerate images)).*1).
Proof.
  intros Hcheck Hfolder Hconv.
  unfold convert_pdf_to_images, try_except.
  unfold mbind at 1 2 3. unfold Py_bind at 1 2 3. unfold bind at 1 2 3.
  rewrite Hcheck. simpl when. unfold ret at 1.
  rewrite (folder_made output_folder d s Hfolder).
  unfold lift at 1. rewrite Hconv.
  unfold mbind at 1. unfold Py_bind at 1. unfold bind at 1. unfold modify at 1.
  unfold mbind at 1. unfold Py_bind at 1. unfold bind at 1.
  rewrite convert_pages_run. simpl. done.
Qed.

(** When Pillow works every page is saved, under its numbered name. *)
Lemma saved_pages_all d first_page images : forall k,
  (forall c, pil_raises c = None) ->
  (saved_pages pil_raises d first_page (enumerate_from k images)).*1
  = page_path d first_page <$> seq k (length images)
  /\ forall total,
       reported_pages pil_raises d first_page total (enumerate_from k images)
       = (fun i => (i + 1, total)) <$> seq k (length images).
Proof.
  intros k Hpillow. revert k.
  induction images as [|img images IH]; intros k; [done|].
  simpl enumerate_from. simpl length. simpl seq.
  destruct (IH (S k)) as [IHs IHr].
  assert (exists optimized,
            saved_page pil_raises d first_page (k, img)
            = Some (page_path d first_page k, optimized)) as [optimized Hsaved].
  { unfold saved_page.
    destruct (optimize_image_for_ocr_returns img) as [optimized ->].
    rewrite Hpillow. eauto. }
  split.
  - rewrite saved_pages_cons, Hsaved, !fmap_cons, IHs. done.
  - intros total. rewrite reported_pages_cons, Hsaved, fmap_cons, IHr. done.
Qed.

(** X11: when in addition no Pillow call raises, all [N] pages are saved:
    the result is [page_path d first_page i] for [i = 0 .. N-1], that is
    [page_NNNN.png] in the output folder, numbered from [first_page or 1];
    these are the files written, and the callback, if there is one, is
    called with (1, N), ..., (N, N). *)
Theorem convert_pdf_to_images_all_pages (pdf_path : string)
    (output_folder : option string) (d : string) (dpi : Z)
    (first_page last_page : option Z)
    (progress_callback : option (nat -> nat -> outcome unit))
    (images : list image) (s : cstate) :
  check_poppler_installation subprocess_run = true ->
  folder_ready mkdtemp makedirs output_folder d ->
  convert_from_path pdf_path dpi first_page last_page = Return images ->
  (forall c, pil_raises c = None) ->
  exists s',
    convert_pdf_to_images pil_raises subprocess_run mkdtemp makedirs convert_from_path
      pdf_path output_folder dpi first_page last_page progress_callback s
    = (Return (page_path d first_page <$> seq 0 (length images)), s')
    /\ (files_written s').*1
       = ((files_written s).*1 ++ (page_path d first_page <$> seq 0 (length images)))%list
    /\ progress_reports s'
       = (progress_reports s
          ++ match progress_callback with
             | Some _ => (fun i => (i + 1, length images)) <$> seq 0 (length images)
             | None => []
             end)%list.
Proof.
  intros Hcheck Hfolder Hconv Hpillow.
  destruct (saved_pages_all d first_page images 0 Hpillow) as [Hs Hr].
  eexists. split.
  - rewrite (convert_pdf_to_images_run pdf_path output_folder d dpi first_page
               last_page progress_callback images s Hcheck Hfolder Hconv).
    unfold enumerate. by rewrite Hs.
  - simpl. unfold enumerate. rewrite fmap_app, Hs, Hr. done.
Qed.

(** X12: when the rasterizer raises, the conversion raises too: a
    [PDFSyntaxError] becomes a [ValueError] whose message is the Korean
    notice followed by the original message, any other exception is raised
    again as it is.  The output folder, a fresh temporary one included, has
    been created by then and stays. *)
Theorem convert_pdf_to_images_conversion_fails (pdf_path : string)
    (output_folder : option string) (d : string) (dpi : Z)
    (first_page last_page : option Z)
    (progress_callback : option (nat -> nat -> outcome unit))
    (e : exn) (s : cstate) :
  check_poppler_installation subprocess_run = true ->
  folder_ready mkdtemp makedirs output_folder d ->
  convert_from_path pdf_path dpi first_page last_page = Raise e ->
  convert_pdf_to_images pil_raises subprocess_run mkdtemp makedirs convert_from_path
    pdf_path output_folder dpi first_page last_page progress_callback s
  = (Raise match class_of e with
           | PDFSyntaxError =>
               Exn ValueError
                 ("PDF 파일이 손상되었거나 올바르지 않습니다: " ++ str e)
           | _ => e
           end,
     CState (dirs_created s ++ [d]) (files_written s) (progress_reports s)
       (image_paths s)).
Proof.
  intros Hcheck Hfolder Hconv.
  unfold convert_pdf_to_images, try_except.
  unfold mbind at 1 2 3. unfold Py_bind at 1 2 3. unfold bind at 1 2 3.
  rewrite Hcheck. simpl when. unfold ret at 1.
  rewrite (folder_made output_folder d s Hfolder).
  unfold lift at 1. rewrite Hconv. unfold raise.
  by destruct (class_of e).
Qed.

End ConversionRuns.

Lemma convert_pdf_to_images_returns_saved_pages_witness :
  PDFConverter.convert_pdf_to_images Scenarios.second_save_fails
    Scenarios.poppler_present Scenarios.temp_dir Scenarios.makedirs_ok
    Scenarios.three_page_pdf "scan.pdf" (Some "out") 300 (Some 5%Z) None
    (Some Scenarios.failing_callback) Scenarios.nothing_created
  = (Return ["out/page_0005.png"; "out/page_0007.png"],
     PDFConverter.CState ["out"]
       [("out/page_0005.png",
         PDFConverter.Image (2480, 3508)%Z "RGB" 0
           [ PDFConverter.OpContrast PDFConverter.contrast_factor;
             PDFConverter.OpSharpness PDFConverter.sharpness_factor ]);
        ("out/page_0007.png",
         PDFConverter.Image (2480, 3508)%Z "RGB" 2
           [ PDFConverter.OpContrast PDFConverter.contrast_factor;
             PDFConverter.OpSharpness PDFConverter.sharpness_factor ])]
       [(1, 3); (3, 3)]
       ["out/page_0005.png"; "out/page_0007.png"]).
Proof.
  apply (convert_pdf_to_images_returns_saved_pages Scenarios.second_save_fails
           Scenarios.poppler_present Scenarios.temp_dir Scenarios.makedirs_ok
           Scenarios.three_page_pdf "scan.pdf" (Some "out") "out" 300 (Some 5%Z) None
           (Some Scenarios.failing_callback)
           [Scenarios.page_of 0; Scenarios.page_of 1; Scenarios.page_of 2]
           Scenarios.nothing_created);
    [reflexivity|split; reflexivity|reflexivity].
Defined.

Lemma convert_pdf_to_images_all_pages_witness :
  exists s',
    PDFConverter.convert_pdf_to_images Scenarios.pillow_works
      Scenarios.poppler_present Scenarios.temp_dir Scenarios.makedirs_ok
      Scenarios.three_page_pdf "scan.pdf" None 300 None None
      (Some Scenarios.failing_callback) Scenarios.nothing_created
    = (Return (PDFConverter.page_path "/tmp/tmpk3x9" None <$> seq 0 3), s')
    /\ (PDFConverter.files_written s').*1
       = ([] ++ (PDFConverter.page_path "/tmp/tmpk3x9" None <$> seq 0 3))%list
    /\ PDFConverter.progress_reports s'
       = ([] ++ ((fun i => (i + 1, 3)) <$> seq 0 3))%list.
Proof.
  apply (convert_pdf_to_images_all_pages Scenarios.pillow_works
           Scenarios.poppler_present Scenarios.temp_dir Scenarios.makedirs_ok
           Scenarios.three_page_pdf "scan.pdf" None "/tmp/tmpk3x9" 300 None None
           (Some Scenarios.failing_callback)
           [Scenarios.page_of 0; Scenarios.page_of 1; Scenarios.page_of 2]
           Scenarios.nothing_created);
    [reflexivity|reflexivity|reflexivity|by intros c].
Defined.

(** The names of the three pages. *)
Example page_path_three_pages :
  PDFConverter.page_path "/tmp/tmpk3x9" None <$> seq 0 3
  = ["/tmp/tmpk3x9/page_0001.png"; "/tmp/tmpk3x9/page_0002.png";
     "/tmp/tmpk3x9/page_0003.png"].
Proof. vm_compute. reflexivity. Qed.

Lemma convert_pdf_to_images_conversion_fails_witness :
  PDFConverter.convert_pdf_to_images Scenarios.pillow_works
    Scenarios.poppler_present Scenarios.temp_dir Scenarios.makedirs_ok
    Scenarios.corrupt_pdf "scan.pdf" None 300 None None None
    Scenarios.nothing_created
  = (Raise (Exn ValueError
              ("PDF 파일이 손상되었거나 올바르지 않습니다: "
               ++ "Couldn't find trailer dictionary")),
     PDFConverter.CState ["/tmp/tmpk3x9"] [] [] []).
Proof.
  apply (convert_pdf_to_images_conversion_fails Scenarios.pillow_works
           Scenarios.poppler_present Scenarios.temp_dir Scenarios.makedirs_ok
           Scenarios.corrupt_pdf "scan.pdf" None "/tmp/tmpk3x9" 300 None None None
           (Exn PDFSyntaxError "Couldn't find trailer dictionary")
           Scenarios.nothing_created); reflexivity.
Defined.

(** ** [PDFConverter.convert_single_page] *)

Section SinglePage.
Import PDFConverter.
Variable pil_raises : pil_call -> option exn.
Variable convert_from_path : string -> Z -> option Z -> option Z -> outcome (list image).

(** X13: what [convert_single_page] does, by what the rasterizer gives for
    the page.  A non-empty list: the first image, and only it, is
    preprocessed and saved under [output_path], which is returned; when the
    [save] raises, that exception leaves the method and nothing is written.
    An empty list: [ValueError] naming the page.  An exception: the same
    exception, a [PDFSyntaxError] included, which [convert_pdf_to_images]
    would have turned into a [ValueError]; Poppler is not checked first. *)
Theorem convert_single_page_outcome (pdf_path : string) (page_number : Z)
    (output_path : string) (dpi : Z) (s : cstate) :
  match convert_from_path pdf_path dpi (Some page_number) (Some page_number) with
  | Return (first :: _) =>
      exists optimized,
        optimize_image_for_ocr pil_raises first = Return optimized
        /\ convert_single_page pil_raises convert_from_path pdf_path page_number
             output_path dpi s
           = match pil_raises (CallSave optimized output_path) with
             | None =>
                 (Return output_path,
                  CState (dirs_created s) (files_written s ++ [(output_path, optimized)])
                    (progress_reports s) (image_paths s))
             | Some e => (Raise e, s)
             end
  | Return [] =>
      convert_single_page pil_raises convert_from_path pdf_path page_number
        output_path dpi s
      = (Raise (Exn ValueError
                  ("페이지 " ++ pretty page_number ++ "를 변환할 수 없습니다")), s)
  | Raise e =>
      convert_single_page pil_raises convert_from_path pdf_path page_number
        output_path dpi s = (Raise e, s)
  end.
Proof.
  unfold convert_single_page, try_except, lift, raise, mbind, Py_bind, bind.
  destruct (convert_from_path pdf_path dpi (Some page_number) (Some page_number))
    as [[|first rest]|e]; [done| |done].
  destruct (optimize_image_for_ocr_returns pil_raises first) as [optimized Hopt].
  exists optimized. split; [done|]. rewrite Hopt.
  unfold save, pil, lift, modify, mbind, Py_bind, bind, mret, Py_ret, ret.
  by destruct (pil_raises (CallSave optimized output_path)).
Qed.
End SinglePage.

(** ** [PDFConverter.cleanup_temp_files] *)

Section Cleanup.
Import PDFConverter.
Variable remove_raises : string -> option exn.

Lemma cleanup_file_run image_path fs :
  cleanup_file remove_raises image_path fs
  = (Return tt,
     match remove_raises image_path with
     | None => fs ∖ {[image_path]}
     | Some _ => fs
     end).
Proof.
  unfold cleanup_file, os_remove, try_except, when, get, mbind, Py_bind, bind,
    mret, Py_ret, ret.
  case_bool_decide as Hin.
  - by destruct (remove_raises image_path).
  - destruct (remove_raises image_path); [done|].
    f_equal. apply set_eq. intros x.
    rewrite elem_of_difference, elem_of_singleton.
    split; [|by intros [? _]]. intros Hx. split; [done|]. by intros ->.
Qed.

(** X14: cleaning up never raises, whatever [os.remove] does.  Afterwards
    the files that exist are the ones that existed before, minus the listed
    ones whose removal does not raise: nothing unlisted is touched, and a
    file that cannot be removed stays. *)
Theorem cleanup_temp_files_removes_listed (image_paths : list string) (fs : gset string) :
  exists fs',
    cleanup_temp_files remove_raises image_paths fs = (Return tt, fs')
    /\ forall path,
         path ∈ fs'
         <-> path ∈ fs /\ (path ∈ image_paths -> remove_raises path <> None).
Proof.
  revert fs. induction image_paths as [|p image_paths IH]; intros fs.
  - exists fs. split; [done|]. intros path. split; [|by intros [? _]].
    intros Hin. split; [done|]. by intros ?%elem_of_nil.
  - destruct (IH (match remove_raises p with
                  | None => fs ∖ {[p]}
                  | Some _ => fs
                  end)) as (fs' & Hrun & Hfs').
    exists fs'. split.
    + unfold cleanup_temp_files.
      rewrite (for_each_cons _ _ _ _ _ (cleanup_file_run p fs)). exact Hrun.
    + intros path. rewrite Hfs', elem_of_cons.
      destruct (remove_raises p) as [e|] eqn:Hp.
      * split; intros [Hin Hkeep]; (split; [done|]).
        -- intros [->|Hl]; [by rewrite Hp|by apply Hkeep].
        -- intros Hl. apply Hkeep. by right.
      * rewrite elem_of_difference, elem_of_singleton.
        split.
        -- intros [[Hin Hne] Hkeep]. split; [done|].
           intros [->|Hl]; [done|by apply Hkeep].
        -- intros [Hin Hkeep]. split; [split; [done|]|].
           ++ intros ->. apply Hkeep; [by left|done].
           ++ intros Hl. apply Hkeep. by right.
Qed.
End Cleanup.

(** ** The names of the page images *)

(** A decimal numeral of a positive number starts with a digit that is not
    zero. *)
Lemma pretty_N_go_leading (x : N) : forall s,
  (0 < x)%N ->
  exists c rest, pretty_N_go x s = String c rest /\ c <> "0"%char /\ c <> "-"%char.
Proof.
  induction (N.lt_wf_0 x) as [x _ IH]; intros s Hx.
  rewrite pretty_N_go_step by done.
  destruct (decide (x `div` 10 = 0)%N) as [Hsmall|Hbig].
  - rewrite Hsmall, pretty_N_go_0.
    assert (x < 10)%N by (apply N.div_small_iff in Hsmall; lia).
    rewrite N.mod_small by done.
    eexists _, _. split; [reflexivity|].
    assert (x = 1 \/ x = 2 \/ x = 3 \/ x = 4 \/ x = 5 \/ x = 6
            \/ x = 7 \/ x = 8 \/ x = 9)%N as Hdigit by lia.
    repeat (destruct Hdigit as [->|Hdigit]; [by split|]). subst x. by split.
  - apply IH; [apply N.div_lt; lia|by apply N.neq_0_lt_0].
Qed.

Lemma pretty_positive_leading (p : positive) :
  exists c rest, pretty (Z.pos p) = String c rest /\ c <> "0"%char /\ c <> "-"%char.
Proof.
  unfold pretty, pretty_Z, pretty, pretty_positive, pretty, pretty_N.
  rewrite decide_False by done. by apply pretty_N_go_leading.
Qed.

Lemma strip_zeros_pad (k : nat) (s : string) :
  PDFConverter.strip_zeros (String.concat "" (replicate k "0") ++ s)
  = PDFConverter.strip_zeros s.
Proof.
  induction k as [|k IH]; [done|].
  destruct k as [|k']; [done|]. exact IH.
Qed.

Lemma zero_pad_stripped (width : nat) (p : positive) :
  PDFConverter.strip_zeros (PDFConverter.zero_pad width (pretty (Z.pos p))) = pretty (Z.pos p).
Proof.
  unfold PDFConverter.zero_pad. rewrite strip_zeros_pad.
  destruct (pretty_positive_leading p) as (c & rest & -> & Hc & _).
  simpl. by rewrite bool_decide_eq_false_2.
Qed.

Lemma zero_pad_zero_stripped (width : nat) :
  PDFConverter.strip_zeros (PDFConverter.zero_pad width (pretty 0%Z)) = "".
Proof. unfold PDFConverter.zero_pad. by rewrite strip_zeros_pad. Qed.

(** Zero padding keeps the numerals of different numbers apart. *)
Lemma zero_pad_inj (width : nat) (x y : Z) :
  (0 <= x)%Z -> (0 <= y)%Z ->
  PDFConverter.zero_pad width (pretty x) = PDFConverter.zero_pad width (pretty y) ->
  x = y.
Proof.
  intros Hx Hy Heq. apply (f_equal PDFConverter.strip_zeros) in Heq.
  destruct x as [|p|p], y as [|q|q]; try lia.
  - rewrite zero_pad_zero_stripped, zero_pad_stripped in Heq.
    by destruct (pretty_positive_leading q) as (c & rest & Hq & _); rewrite Hq in Heq.
  - rewrite zero_pad_zero_stripped, zero_pad_stripped in Heq.
    by destruct (pretty_positive_leading p) as (c & rest & Hp & _); rewrite Hp in Heq.
  - rewrite !zero_pad_stripped in Heq. by apply (inj pretty).
Qed.

(** A padded numeral does not start with a sign. *)
Lemma zero_pad_no_sign (width : nat) (x : Z) (rest : string) :
  (0 <= x)%Z -> PDFConverter.zero_pad width (pretty x) <> String "-" rest.
Proof.
  intros Hx. unfold PDFConverter.zero_pad.
  destruct (width - String.length (pretty x)) as [|k].
  - simpl. destruct x as [|p|p]; [done| |lia].
    destruct (pretty_positive_leading p) as (c & r & -> & _ & Hc).
    intros [= ? _]. done.
  - destruct k; done.
Qed.

Lemma format_04d_inj (x y : Z) :
  PDFConverter.format_04d x = PDFConverter.format_04d y -> x = y.
Proof.
  unfold PDFConverter.format_04d.
  case_bool_decide as Hx; case_bool_decide as Hy.
  - intros [= Heq]. apply zero_pad_inj in Heq; lia.
  - intros Heq. symmetry in Heq. by apply zero_pad_no_sign in Heq; [|lia].
  - intros Heq. by apply zero_pad_no_sign in Heq; [|lia].
  - intros Heq. apply zero_pad_inj in Heq; lia.
Qed.

Lemma str_length_app (a b : string) :
  String.length (a ++ b) = String.length a + String.length b.
Proof.
  induction a as [|x a IH]; [done|].
  change (S (String.length (a ++ b)) = S (String.length a + String.length b)).
  by rewrite IH.
Qed.

Lemma str_app_inv_tail (a b c : string) : a ++ c = b ++ c -> a = b.
Proof.
  revert b. induction a as [|x a IH]; intros [|y b] Heq.
  - done.
  - exfalso. apply (f_equal String.length) in Heq.
    change (String.length c = S (String.length (b ++ c))) in Heq.
    rewrite str_length_app in Heq. lia.
  - exfalso. apply (f_equal String.length) in Heq.
    change (S (String.length (a ++ c)) = String.length c) in Heq.
    rewrite str_length_app in Heq. lia.
  - change (String x (a ++ c) = String y (b ++ c)) in Heq.
    injection Heq as -> Heq. f_equal. by apply IH.
Qed.

Lemma str_app_inv_head (a b c : string) : a ++ b = a ++ c -> b = c.
Proof.
  induction a as [|x a IH]; [done|].
  change (String x (a ++ b) = String x (a ++ c) -> b = c).
  intros [= Heq]. by apply IH.
Qed.

Lemma path_join_inj (d a b : string) :
  PDFConverter.path_join d ("page_" ++ a) = PDFConverter.path_join d ("page_" ++ b) ->
  a = b.
Proof.
  unfold PDFConverter.path_join.
  change (String.prefix "/" ("page_" ++ a)) with false.
  change (String.prefix "/" ("page_" ++ b)) with false.
  cbv iota.
  destruct (bool_decide (d = "")
            || bool_decide (String.substring (String.length d - 1) 1 d = "/")).
  - intros Heq%str_app_inv_head. by apply (str_app_inv_head "page_").
  - intros Heq%str_app_inv_head%(str_app_inv_head "/").
    by apply (str_app_inv_head "page_").
Qed.

Lemma page_path_inj (d : string) (first_page : option Z) (i j : nat) :
  PDFConverter.page_path d first_page i = PDFConverter.page_path d first_page j ->
  i = j.
Proof.
  unfold PDFConverter.page_path.
  intros Heq%path_join_inj%str_app_inv_tail%format_04d_inj. lia.
Qed.

Section DistinctPages.
Import PDFConverter.
Variable pil_raises : pil_call -> option exn.
Variable subprocess_run : list string -> outcome Z.
Variable mkdtemp : outcome string.
Variable makedirs : string -> outcome unit.
Variable convert_from_path : string -> Z -> option Z -> option Z -> outcome (list image).

Lemma saved_pages_sublist d first_page images : forall k,
  (saved_pages pil_raises d first_page (enumerate_from k images)).*1
  `sublist_of` (page_path d first_page <$> seq k (length images)).
Proof.
  induction images as [|img images IH]; intros k; [done|].
  simpl enumerate_from. simpl length. simpl seq. rewrite fmap_cons.
  rewrite saved_pages_cons. unfold saved_page.
  destruct (optimize_image_for_ocr pil_raises img) as [optimized|e].
  - destruct (pil_raises (CallSave optimized (page_path d first_page k))).
    + apply sublist_cons, IH.
    + rewrite fmap_cons. apply sublist_skip, IH.
  - apply sublist_cons, IH.
Qed.

(** X15: no two pages of a conversion get the same file: the paths returned
    are pairwise different, they are among the numbered names
    [page_path d first_page i] of the pages, in page order, and there are
    at most as many as the document has pages. *)
Theorem convert_pdf_to_images_distinct_paths (pdf_path : string)
    (output_folder : option string) (d : string) (dpi : Z)
    (first_page last_page : option Z)
    (progress_callback : option (nat -> nat -> outcome unit))
    (images : list image) (s : cstate) :
  check_poppler_installation subprocess_run = true ->
  folder_ready mkdtemp makedirs output_folder d ->
  convert_from_path pdf_path dpi first_page last_page = Return images ->
  exists paths s',
    convert_pdf_to_images pil_raises subprocess_run mkdtemp makedirs convert_from_path
      pdf_path output_folder dpi first_page last_page progress_callback s
    = (Return paths, s')
    /\ NoDup paths
    /\ paths `sublist_of` (page_path d first_page <$> seq 0 (length images))
    /\ length paths <= length images.
Proof.
  intros Hcheck Hfolder Hconv.
  eexists _, _. split.
  { by apply (convert_pdf_to_images_run pil_raises subprocess_run mkdtemp makedirs
                convert_from_path pdf_path output_folder d). }
  pose proof (saved_pages_sublist d first_page images 0) as Hsub.
  split; [|split; [exact Hsub|]].
  - eapply sublist_NoDup; [|exact Hsub].
    apply NoDup_fmap_2; [|apply NoDup_seq].
    intros i j. apply page_path_inj.
  - apply sublist_length in Hsub.
    rewrite !length_fmap in Hsub. rewrite length_seq in Hsub.
    by rewrite length_fmap.
Qed.
End DistinctPages.

Lemma convert_pdf_to_images_distinct_paths_witness :
  exists paths s',
    PDFConverter.convert_pdf_to_images Scenarios.second_save_fails
      Scenarios.poppler_present Scenarios.temp_dir Scenarios.makedirs_ok
      Scenarios.three_page_pdf "scan.pdf" None 300 (Some 9999%Z) None None
      Scenarios.nothing_created
    = (Return paths, s')
    /\ NoDup paths
    /\ paths `sublist_of` (PDFConverter.page_path "/tmp/tmpk3x9" (Some 9999%Z) <$> seq 0 3)
    /\ length paths <= 3.
Proof.
  apply (convert_pdf_to_images_distinct_paths Scenarios.second_save_fails
           Scenarios.poppler_present Scenarios.temp_dir Scenarios.makedirs_ok
           Scenarios.three_page_pdf "scan.pdf" None "/tmp/tmpk3x9" 300 (Some 9999%Z) None
           None [Scenarios.page_of 0; Scenarios.page_of 1; Scenarios.page_of 2]
           Scenarios.nothing_created); reflexivity.
Defined.

(** The page number is not cut to four digits. *)
Example page_path_five_digits :
  PDFConverter.page_path "/tmp/tmpk3x9" (Some 9999%Z) <$> seq 0 3
  = ["/tmp/tmpk3x9/page_9999.png"; "/tmp/tmpk3x9/page_10000.png";
     "/tmp/tmpk3x9/page_10001.png"].
Proof. vm_compute. reflexivity. Qed.

(** ** The markup escaping of [save_as_pdf_reportlab] *)

Section Escaping.
Import FileManager.

Lemma replace_char_app c by_ a b :
  replace_char c by_ (a ++ b) = replace_char c by_ a ++ replace_char c by_ b.
Proof.
  induction a as [|x a IH].
  - done.
  - change (String x a ++ b) with (String x (a ++ b)). simpl replace_char.
    case_bool_decide.
    + by rewrite IH, str_app_assoc.
    + rewrite IH. done.
Qed.

(** X16: the four replacements made on a page text amount to replacing each
    character on its own: [&] by [&amp;], [<] by [&lt;], [>] by [&gt;], a
    new line by [<br/>], any other character by itself.  So the ampersands
    of the entities are not escaped again, and the brackets of [<br/>] stay
    as they are. *)
Theorem escape_markup_per_character (text_content : string) :
  escape_markup text_content = escape_chars text_content.
Proof.
  unfold escape_markup.
  induction text_content as [|c rest IH]; [done|].
  simpl escape_chars. rewrite <- IH. unfold escape_char.
  simpl replace_char at 4.
  case_bool_decide as Hamp.
  { rewrite !replace_char_app. done. }
  simpl replace_char at 3. case_bool_decide as Hlt.
  { rewrite !replace_char_app. done. }
  simpl replace_char at 2. case_bool_decide as Hgt.
  { rewrite !replace_char_app. done. }
  simpl replace_char at 1. case_bool_decide as Hlf; done.
Qed.
End Escaping.


Example escape_markup_formula :
  FileManager.escape_markup ("a<b && c>d" ++ FileManager.LF ++ "&amp;")
  = "a&lt;b &amp;&amp; c&gt;d<br/>&amp;amp;".
Proof. vm_compute. reflexivity. Qed.

(** ** Dictionaries in the order of their keys *)

Section KeyOrder.
Import ClaudeOCR FileManager.
Variable ocr_results : gmap nat page_result.

Lemma keys_NoDup : NoDup (sorted (keys ocr_results)).
Proof.
  unfold sorted. rewrite merge_sort_Permutation. apply NoDup_fst_map_to_list.
Qed.

Lemma keys_Sorted : StronglySorted Nat.le (sorted (keys ocr_results)).
Proof.
  apply Sorted_StronglySorted; [intros x y z; lia|].
  apply Sorted_merge_sort. apply _.
Qed.

(** The greatest key. *)
Lemma py_max_greatest i :
  i ∈ sorted (keys ocr_results) ->
  exists last, py_max (keys ocr_results) = Return last
               /\ last ∈ sorted (keys ocr_results)
               /\ forall j, j ∈ sorted (keys ocr_results) -> j <= last.
Proof.
  unfold sorted. rewrite merge_sort_Permutation. intros Hi.
  unfold py_max. destruct (keys ocr_results) as [|x l]; [by apply elem_of_nil in Hi|].
  destruct (foldl_max_bounds l x) as [Hin Hle].
  exists (foldl Nat.max x l). split; [done|].
  split; [by rewrite merge_sort_Permutation|].
  intros j. rewrite merge_sort_Permutation. apply Hle.
Qed.
End KeyOrder.

(** ** The documents written by the two PDF methods *)

Section Documents.
Import ClaudeOCR FileManager.
Variable raises : list library_call -> library_call -> option exn.
Variable ocr_results : gmap nat page_result.
Variable output_path : string.
Variable include_page_numbers : bool.

Section ReportLabDocument.
Hypothesis Hreportlab : forall l c, raises l (ReportLab c) = None.

Lemma append_paragraph_run txt style s :
  exists s',
    append_paragraph raises txt style s = (Return tt, s')
    /\ files s' = files s /\ story s' = (story s ++ [Paragraph txt style])%list.
Proof.
  unfold append_paragraph, reportlab, call, modify, mbind, Py_bind, bind.
  rewrite Hreportlab. by eexists.
Qed.

Lemma reportlab_page_run korean_style title_style i r s :
  ocr_results !! i = Some r ->
  exists s',
    reportlab_page raises ocr_results include_page_numbers korean_style title_style i s
    = (Return tt, s')
    /\ files s' = files s
    /\ story s'
       = (story s ++ story_page include_page_numbers korean_style title_style r)%list.
Proof.
  intros Hr. unfold reportlab_page, getitem, story_page. rewrite Hr.
  unfold lift at 1. unfold mbind at 1, Py_bind at 1, bind at 1.
  assert (exists s1,
    when include_page_numbers
      (append_paragraph raises ("페이지 " ++ str_of_nat (page r)) title_style;;
       append_spacer 1 8) s = (Return tt, s1)
    /\ files s1 = files s
    /\ story s1
       = (story s
          ++ (if include_page_numbers
              then [Paragraph ("페이지 " ++ str_of_nat (page r)) title_style; Spacer 1 8]
              else []))%list) as (s1 & Hlabel & Hf1 & Hs1).
  { destruct include_page_numbers; simpl when.
    - destruct (append_paragraph_run ("페이지 " ++ str_of_nat (page r)) title_style s)
        as (s0 & H0 & Hf0 & Hs0).
      rewrite (bind_return _ _ _ _ _ H0).
      unfold append_spacer, modify. eexists. split; [reflexivity|]. simpl.
      split; [done|]. by rewrite Hs0, <- app_assoc.
    - exists s. by rewrite app_nil_r. }
  rewrite (bind_return _ _ _ _ _ Hlabel).
  destruct (append_paragraph_run (escape_markup (text_or_error r)) korean_style s1)
    as (s2 & H2 & Hf2 & Hs2).
  rewrite (bind_return _ _ _ _ _ H2).
  unfold append_spacer, modify. eexists. split; [reflexivity|]. simpl.
  split; [by rewrite Hf2|]. by rewrite Hs2, Hs1, <- !app_assoc.
Qed.

Lemma reportlab_pages_run korean_style title_style l : forall s,
  (forall i, i ∈ l -> i ∈ sorted (keys ocr_results)) ->
  exists s',
    for_each (reportlab_page raises ocr_results include_page_numbers korean_style
                title_style) l s = (Return tt, s')
    /\ files s' = files s
    /\ story s'
       = (story s
          ++ concat (story_page include_page_numbers korean_style title_style
                     <$> omap (fun i => ocr_results !! i) l))%list.
Proof.
  induction l as [|i l IH]; intros s Hl.
  - exists s. simpl. by rewrite app_nil_r.
  - destruct (key_in_dictionary ocr_results i) as (r & Hr & _); [apply Hl; left|].
    destruct (reportlab_page_run korean_style title_style i r s Hr)
      as (s1 & H1 & Hf1 & Hs1).
    destruct (IH s1) as (s2 & H2 & Hf2 & Hs2).
    { intros j Hj. apply Hl. by right. }
    exists s2. rewrite (for_each_cons _ _ _ _ _ H1).
    split; [exact H2|]. split; [by rewrite Hf2|].
    rewrite Hs2, Hs1, (results_in_order_cons ocr_results i l r Hr), fmap_cons, List.concat_cons.
    by rewrite <- app_assoc.
Qed.

(** X17: for any dictionary, when no ReportLab call raises,
    [save_as_pdf_reportlab] returns [True] and changes the files in one
    place only: [output_path] now holds the document whose story is the
    title and a spacer, then, for each result in ascending key order, the
    page label and a spacer (when labels are asked for), the escaped text,
    marked when the status is not success, and a spacer.  The story does
    not depend on what an earlier call left behind. *)
Theorem save_as_pdf_reportlab_document (korean_font : option string) (s : fstate) :
  exists s',
    save_as_pdf_reportlab raises korean_font ocr_results output_path
      include_page_numbers s = (Return true, s')
    /\ files s'
       = <[output_path := ReportLabDocument
                            (story_of korean_font ocr_results include_page_numbers)]>
           (files s).
Proof.
  unfold save_as_pdf_reportlab, story_of, results_in_order.
  destruct (styles korean_font) as [korean_style title_style].
  assert (exists s1, reportlab raises (SimpleDocTemplate output_path) s = (Return tt, s1)
                     /\ files s1 = files s) as (s1 & H1 & Hf1).
  { unfold reportlab, call. rewrite Hreportlab. by eexists. }
  set (s2 := FState (files s1) (log s1) (pdf s1) []).
  destruct (append_paragraph_run header_title title_style s2) as (s3 & H3 & Hf3 & Hs3).
  set (s4 := FState (files s3) (log s3) (pdf s3) (story s3 ++ [Spacer 1 12])).
  destruct (reportlab_pages_run korean_style title_style (sorted (keys ocr_results)) s4)
    as (s5 & H5 & Hf5 & Hs5); [done|].
  eexists. split.
  - apply try_except_return.
    rewrite (bind_return _ _ _ _ _ H1).
    unfold modify at 1. unfold mbind at 1, Py_bind at 1, bind at 1. fold s2.
    rewrite (bind_return _ _ _ _ _ H3).
    unfold append_spacer at 1, modify at 1. unfold mbind at 1, Py_bind at 1, bind at 1.
    fold s4.
    rewrite (bind_return _ _ _ _ _ H5).
    unfold build, reportlab, call, modify, get, mbind, Py_bind, bind, mret, Py_ret, ret.
    rewrite Hreportlab. reflexivity.
  - simpl. rewrite Hf5, Hs5. subst s4 s2. simpl. rewrite Hf3, Hs3. simpl.
    rewrite Hf1. done.
Qed.
End ReportLabDocument.

Section FpdfDocument.
(** [multi_cell] raises exactly on the texts that [rejects] marks, a text
    within ASCII is never among them, and no other FPDF call raises. *)
Variable rejects : string -> bool.
Hypothesis Hfpdf : forall l c,
  (forall w h txt align, c <> MultiCell w h txt align) -> raises l (Fpdf c) = None.
Hypothesis Hmulti_cell : forall l w h txt align,
  raises l (Fpdf (MultiCell w h txt align)) = None <-> rejects txt = false.
Hypothesis Hascii : forall line, rejects (ascii_only line) = false.

(** X18: for any dictionary, with the FPDF library present, [multi_cell]
    raising exactly on the texts that [rejects] marks (never on a text
    within ASCII) and no other FPDF call raising, [save_as_pdf_fpdf]
    returns [True] and changes the files in one place only: [output_path]
    now holds the document made by the calls [fpdf_calls_of]: page break
    and font set-up, then for each result in ascending key order a new
    page, its label when asked for, and one [multi_cell] per line of the
    text that is not blank, each line, blank or not, followed by [ln(2)].
    A line on which [multi_cell] raises is printed without its characters
    outside ASCII, and nothing reports the loss. *)
Theorem save_as_pdf_fpdf_document (korean_font : option string) (s : fstate) :
  exists s',
    save_as_pdf_fpdf raises true korean_font ocr_results output_path
      include_page_numbers s = (Return true, s')
    /\ files s'
       = <[output_path := FpdfDocument
                            (fpdf_calls_of rejects ocr_results output_path
                               include_page_numbers)]>
           (files s).
Proof.
  unfold save_as_pdf_fpdf, fpdf_calls_of, results_in_order. simpl negb. cbv iota.
  assert (exists s1, fpdf raises FpdfNew s = (Return tt, s1)
                     /\ files s1 = files s /\ pdf s1 = []) as (s1 & H1 & Hf1 & Hp1).
  { unfold fpdf, call, modify, mbind, Py_bind, bind. rewrite Hfpdf by done.
    by eexists. }
  destruct (fpdf_run raises (SetAutoPageBreak true 15) s1 ltac:(done)
              ltac:(by apply Hfpdf)) as (s2 & H2 & Hf2 & Hp2).
  destruct (fpdf_run raises (AddFont "DejaVu" "" "DejaVuSansCondensed.ttf" true) s2
              ltac:(done) ltac:(by apply Hfpdf)) as (s3 & H3 & Hf3 & Hp3).
  destruct (fpdf_pages_run raises ocr_results include_page_numbers rejects
              (fun l c _ _ Hc => Hfpdf l c Hc)
              (fun _ l n =>
                 Hfpdf l (Cell 0 10 ("페이지 " ++ str_of_nat n) true "C") ltac:(done))
              Hmulti_cell Hascii "DejaVu" (sorted (keys ocr_results)) ltac:(done) s3)
    as (s4 & H4 & Hf4 & Hp4).
  destruct (fpdf_run raises (Output output_path) s4 ltac:(done)
              ltac:(by apply Hfpdf)) as (s5 & H5 & Hf5 & Hp5).
  eexists. split.
  - apply try_except_return.
    rewrite (bind_return _ _ _ _ _ H1), (bind_return _ _ _ _ _ H2).
    assert (try_except
              (fpdf raises (AddFont "DejaVu" "" "DejaVuSansCondensed.ttf" true);;
               mret "DejaVu")
              (fun _ => mret "Arial") s2 = (Return "DejaVu", s3)) as Hfont.
    { apply try_except_return. by rewrite (bind_return _ _ _ _ _ H3). }
    rewrite (bind_return _ _ _ _ _ Hfont), (bind_return _ _ _ _ _ H4).
    unfold output. rewrite (bind_return _ _ _ _ _ (bind_return _ _ _ _ _ H5)).
    reflexivity.
  - simpl. rewrite Hf5, Hf4, Hf3, Hf2, Hf1. do 2 f_equal.
    rewrite Hp5, Hp4, Hp3, Hp2, Hp1. done.
Qed.
End FpdfDocument.
End Documents.

Lemma save_as_pdf_reportlab_document_witness :
  exists s',
    FileManager.save_as_pdf_reportlab Scenarios.libraries_work None Scenarios.two_pages
      "scan_ocr.pdf" true Scenarios.empty_disk = (Return true, s')
    /\ FileManager.files s'
       = <["scan_ocr.pdf" := FileManager.ReportLabDocument
                               (FileManager.story_of None Scenarios.two_pages true)]>
           (FileManager.files Scenarios.empty_disk).
Proof.
  apply (save_as_pdf_reportlab_document Scenarios.libraries_work Scenarios.two_pages
           "scan_ocr.pdf" true (fun _ _ => eq_refl) None Scenarios.empty_disk).
Defined.

(** The story of the two pages. *)
Example story_of_two_pages :
  FileManager.story_of None Scenarios.two_pages true
  = [ FileManager.Paragraph "PDF OCR 결과" (FileManager.SampleStyle "Heading1");
      FileManager.Spacer 1 12;
      FileManager.Paragraph "페이지 1" (FileManager.SampleStyle "Heading1");
      FileManager.Spacer 1 8;
      FileManager.Paragraph "first page" (FileManager.SampleStyle "Normal");
      FileManager.Spacer 1 20;
      FileManager.Paragraph "페이지 2" (FileManager.SampleStyle "Heading1");
      FileManager.Spacer 1 8;
      FileManager.Paragraph "[오류] 오류 발생: overloaded" (FileManager.SampleStyle "Normal");
      FileManager.Spacer 1 20 ].
Proof. vm_compute. reflexivity. Qed.

Lemma save_as_pdf_fpdf_document_witness :
  exists s',
    FileManager.save_as_pdf_fpdf Scenarios.multi_cell_needs_ascii true None
      Scenarios.two_pages "scan_ocr.pdf" true Scenarios.empty_disk = (Return true, s')
    /\ FileManager.files s'
       = <["scan_ocr.pdf" := FileManager.FpdfDocument
                               (FileManager.fpdf_calls_of Scenarios.not_ascii
                                  Scenarios.two_pages "scan_ocr.pdf" true)]>
           (FileManager.files Scenarios.empty_disk).
Proof.
  apply (save_as_pdf_fpdf_document Scenarios.multi_cell_needs_ascii Scenarios.two_pages
           "scan_ocr.pdf" true Scenarios.not_ascii).
  - intros l c Hc. destruct c; try done. by destruct (Hc w h txt align).
  - intros l w h txt align. simpl. by destruct (Scenarios.not_ascii txt).
  - intros line. unfold Scenarios.not_ascii.
    by rewrite ascii_only_idempotent, bool_decide_eq_true_2.
Defined.

(** The calls for the two pages: the Korean words of the second page are
    gone from its line. *)
Example fpdf_calls_of_two_pages :
  FileManager.fpdf_calls_of Scenarios.not_ascii Scenarios.two_pages "scan_ocr.pdf" false
  = [ FileManager.SetAutoPageBreak true 15;
      FileManager.AddFont "DejaVu" "" "DejaVuSansCondensed.ttf" true;
      FileManager.AddPage;
      FileManager.SetFont "DejaVu" "" 12;
      FileManager.SetFont "DejaVu" "" 10;
      FileManager.MultiCell 0 8 "first page" "L";
      FileManager.Ln 2;
      FileManager.AddPage;
      FileManager.SetFont "DejaVu" "" 12;
      FileManager.SetFont "DejaVu" "" 10;
      FileManager.MultiCell 0 8 "[]  : overloaded" "L";
      FileManager.Ln 2;
      FileManager.Output "scan_ocr.pdf" ].
Proof. vm_compute. reflexivity. Qed.

(** ** The text file of any dictionary *)

Lemma join_cons (sep x y : string) (l : list string) :
  String.concat sep (x :: y :: l) = x ++ sep ++ String.concat sep (y :: l).
Proof. reflexivity. Qed.

Section TextOfAnyDictionary.
Import ClaudeOCR FileManager.
Variable raises : list library_call -> library_call -> option exn.
Variable flushed : string -> string -> nat.
Hypothesis Hio : forall l c, raises l (FileIO c) = None.
Variable path : string.
Variable ocr_results : gmap nat page_result.
Variable include_page_numbers : bool.
Variable page_separator : string.

Lemma txt_page_any before i r last :
  ocr_results !! i = Some r ->
  py_max (keys ocr_results) = Return last ->
  appends path before
    (before ++ txt_page_text include_page_numbers r
     ++ (if bool_decide (i < last) then page_separator else ""))
    (txt_page raises ocr_results path include_page_numbers page_separator i) tt.
Proof.
  intros Hr Hlast. unfold txt_page, getitem, txt_page_text. rewrite Hr, Hlast.
  eapply (appends_bind path before before _ _ _ r);
    [apply appends_lift|].
  eapply appends_bind.
  { apply appends_when with (after := before ++ txt_label include_page_numbers r).
    - intros ->. eapply appends_bind; [by apply appends_write|].
      eapply appends_eq; [by apply appends_write|].
      unfold txt_label. by rewrite !str_app_assoc.
    - intros ->. unfold txt_label. by rewrite str_app_nil_r. }
  eapply (appends_bind path _
            ((before ++ txt_label include_page_numbers r) ++ txt_body r)).
  { unfold txt_body. case_bool_decide; by apply appends_write. }
  eapply (appends_bind path _ _ _ _ _ last); [apply appends_lift|].
  apply appends_when.
  - intros ->. eapply appends_eq; [by apply appends_write|].
    by rewrite !str_app_assoc.
  - intros ->. by rewrite !str_app_assoc, str_app_nil_r.
Qed.

Lemma txt_pages_any last l : forall before,
  py_max (keys ocr_results) = Return last ->
  (forall i, i ∈ l -> i ∈ sorted (keys ocr_results)) ->
  StronglySorted Nat.le l -> NoDup l ->
  (forall i, i ∈ l -> i <= last) ->
  (l <> [] -> last ∈ l) ->
  appends path before
    (before ++ String.concat page_separator
                 (txt_page_text include_page_numbers
                  <$> omap (fun i => ocr_results !! i) l))
    (for_each (txt_page raises ocr_results path include_page_numbers page_separator) l)
    tt.
Proof.
  induction l as [|i l IH]; intros before Hlast Hkeys Hsorted Hnodup Hle Hin.
  - eapply appends_eq; [apply appends_ret|]. simpl. by rewrite str_app_nil_r.
  - destruct (key_in_dictionary ocr_results i) as (r & Hr & _); [apply Hkeys; left|].
    apply StronglySorted_inv in Hsorted as [Hsorted Hall].
    apply NoDup_cons in Hnodup as [Hnotin Hnodup].
    rewrite (results_in_order_cons ocr_results i _ r Hr). simpl for_each.
    eapply appends_bind; [by apply (txt_page_any before i r last)|].
    destruct l as [|j l].
    + assert (i = last) as ->.
      { specialize (Hin ltac:(done)). by apply list_elem_of_singleton in Hin. }
      rewrite bool_decide_eq_false_2 by lia.
      eapply appends_eq; [apply appends_ret|].
      simpl. by rewrite !str_app_nil_r.
    + assert (i < last) as Hlt.
      { assert (last ∈ j :: l) as Hl.
        { specialize (Hin ltac:(done)). apply elem_of_cons in Hin as [Heq|Hl]; [|done].
          exfalso. apply Hnotin.
          rewrite Forall_forall in Hall.
          assert (i <= j) by (apply Hall; left).
          assert (j <= last) by (apply Hle; right; left).
          replace i with j by lia. left. }
        rewrite Forall_forall in Hall. specialize (Hall last Hl).
        assert (i <> last) by (intros ->; by apply Hnotin). lia. }
      rewrite bool_decide_eq_true_2 by done.
      eapply appends_eq.
      { apply IH; [done| | | | |].
        - intros k Hk. apply Hkeys. by right.
        - done.
        - done.
        - intros k Hk. apply Hle. by right.
        - intros _. specialize (Hin ltac:(done)).
          apply elem_of_cons in Hin as [Heq|Hl]; [lia|done]. }
      destruct (key_in_dictionary ocr_results j) as (rj & Hrj & _); [apply Hkeys; right; left|].
      rewrite (results_in_order_cons ocr_results j _ rj Hrj), !fmap_cons, join_cons.
      by rewrite !str_app_assoc.
Qed.

(** X19: for any dictionary, whatever its keys, when the file calls ([open],
    [write] and the [close] of the [with] block) do not
    raise, [save_as_txt] returns [True] and the file holds the header
    banner with the number of results, the page texts in ascending key
    order joined by the separator (so that the separator stands between two
    pages and never after the last one), and the footer banner. *)
Theorem save_as_txt_document (s : fstate) :
  exists s',
    save_as_txt raises flushed ocr_results path include_page_numbers page_separator s
    = (Return true, s')
    /\ files s' !! path
       = Some (TextFile (txt_of ocr_results include_page_numbers page_separator)).
Proof.
  assert (Hpages : forall before,
    appends path before
      (before ++ String.concat page_separator
                   (txt_page_text include_page_numbers <$> results_in_order ocr_results))
      (for_each (txt_page raises ocr_results path include_page_numbers page_separator)
                (sorted (keys ocr_results))) tt).
  { intros before. unfold results_in_order.
    destruct (sorted (keys ocr_results)) as [|i l] eqn:Hl.
    - eapply appends_eq; [apply appends_ret|]. simpl. by rewrite str_app_nil_r.
    - destruct (py_max_greatest ocr_results i) as (last & Hlast & Hin & Hle);
        [rewrite Hl; left|].
      rewrite <- Hl. apply (txt_pages_any last); try done.
      + apply keys_Sorted.
      + apply keys_NoDup. }
  assert (Hrest : appends path "" (txt_of ocr_results include_page_numbers page_separator)
    (txt_writes raises ocr_results path include_page_numbers page_separator) tt).
  { unfold txt_writes.
    do 4 (eapply appends_bind; [by apply appends_write|]).
    eapply appends_bind; [apply Hpages|].
    eapply appends_bind; [by apply appends_write|].
    eapply appends_eq; [by apply appends_write|].
    unfold txt_of, txt_header, txt_footer. by rewrite !str_app_assoc. }
  destruct (with_open_w_appends raises flushed Hio path _ _ tt s Hrest)
    as (s' & Hrun & Hs').
  exists s'. split; [|exact Hs'].
  unfold save_as_txt. apply try_except_return.
  by rewrite (bind_return _ _ _ _ _ Hrun).
Qed.
End TextOfAnyDictionary.

Lemma save_as_txt_document_witness :
  exists s',
    FileManager.save_as_txt Scenarios.libraries_work Scenarios.nothing_flushed
      Scenarios.pages_3_and_7 "scan_ocr.txt" true FileManager.default_page_separator
      Scenarios.empty_disk
    = (Return true, s')
    /\ FileManager.files s' !! "scan_ocr.txt"
       = Some (FileManager.TextFile
                 (FileManager.txt_of Scenarios.pages_3_and_7 true
                    FileManager.default_page_separator)).
Proof.
  apply (save_as_txt_document Scenarios.libraries_work Scenarios.nothing_flushed
           (fun _ _ => eq_refl) "scan_ocr.txt" Scenarios.pages_3_and_7 true
           FileManager.default_page_separator Scenarios.empty_disk).
Defined.

(** ** The text file when a file call raises *)

Section TextPartial.
Import ClaudeOCR FileManager.
Variable raises : list library_call -> library_call -> option exn.
Variable flushed : string -> string -> nat.
Variable path : string.
Variable ocr_results : gmap nat page_result.
Variable include_page_numbers : bool.
Variable page_separator : string.

Lemma upto_ret {A : Type} before (a : A) : appends_upto path before before (mret a) a.
Proof.
  intros s Hs. exists (Return a), s, "", "".
  rewrite !str_app_nil_r. repeat split; try done. by left.
Qed.

Lemma upto_lift {A : Type} before (a : A) :
  appends_upto path before before (lift (Return a)) a.
Proof.
  intros s Hs. exists (Return a), s, "", "".
  rewrite !str_app_nil_r. repeat split; try done. by left.
Qed.

Lemma upto_eq {A : Type} before after after' (c : Py fstate A) a :
  appends_upto path before after c a -> after = after' ->
  appends_upto path before after' c a.
Proof. by intros H <-. Qed.

Lemma upto_bind {A B : Type} before mid after (c : Py fstate A) (k : A -> Py fstate B)
    a b :
  appends_upto path before mid c a ->
  appends_upto path mid after (k a) b ->
  appends_upto path before after (c ≫= k) b.
Proof.
  intros Hc Hk s Hs.
  destruct (Hc s Hs) as (o & s1 & written & rest & Hrun & Hs1 & Hmid & Ho).
  destruct Ho as [[-> ->]|[e ->]].
  - rewrite str_app_nil_r in Hmid. subst mid.
    destruct (Hk s1 Hs1) as (o2 & s2 & written2 & rest2 & Hrun2 & Hs2 & Hafter & Ho2).
    exists o2, s2, (written ++ written2), rest2.
    rewrite (bind_return _ _ _ _ _ Hrun).
    split; [exact Hrun2|]. split; [by rewrite Hs2, !str_app_assoc|].
    split; [by rewrite Hafter, !str_app_assoc|]. exact Ho2.
  - set (s0 := FState (<[path := TextFile mid]> (files s)) (log s) (pdf s) (story s)).
    destruct (Hk s0) as (o2 & s2 & written2 & rest2 & _ & _ & Hafter & _).
    { apply lookup_insert_eq. }
    exists (Raise e), s1, written, (rest ++ written2 ++ rest2).
    rewrite (bind_raise _ _ _ _ _ Hrun).
    split; [done|]. split; [exact Hs1|].
    split; [by rewrite Hafter, Hmid, !str_app_assoc|]. right. by eexists.
Qed.

Lemma upto_write before chunk :
  appends_upto path before (before ++ chunk) (write raises path chunk) tt.
Proof.
  intros s Hs. unfold write, call, modify, mbind, Py_bind, bind.
  destruct (raises (log s) (FileIO (Write path chunk))) as [e|].
  - eexists _, _, "", chunk. split; [reflexivity|]. simpl.
    rewrite str_app_nil_r. split; [exact Hs|]. split; [done|]. right. by eexists.
  - eexists _, _, chunk, "". split; [reflexivity|]. simpl.
    rewrite lookup_alter_eq, Hs. simpl. rewrite str_app_nil_r.
    split; [done|]. split; [done|]. by left.
Qed.

Lemma upto_when before after (c : bool) stmt :
  (c = true -> appends_upto path before after stmt tt) ->
  (c = false -> after = before) ->
  appends_upto path before after (when c stmt) tt.
Proof.
  intros Ht Hf. destruct c; simpl; [by apply Ht|].
  rewrite Hf by done. apply upto_ret.
Qed.

Lemma txt_page_upto before i r last :
  ocr_results !! i = Some r ->
  py_max (keys ocr_results) = Return last ->
  appends_upto path before
    (before ++ txt_page_text include_page_numbers r
     ++ (if bool_decide (i < last) then page_separator else ""))
    (txt_page raises ocr_results path include_page_numbers page_separator i) tt.
Proof.
  intros Hr Hlast. unfold txt_page, getitem, txt_page_text. rewrite Hr, Hlast.
  eapply (upto_bind before before _ _ _ r); [apply upto_lift|].
  eapply upto_bind.
  { apply upto_when with (after := before ++ txt_label include_page_numbers r).
    - intros ->. eapply upto_bind; [by apply upto_write|].
      eapply upto_eq; [by apply upto_write|].
      unfold txt_label. by rewrite !str_app_assoc.
    - intros ->. unfold txt_label. by rewrite str_app_nil_r. }
  eapply (upto_bind _ ((before ++ txt_label include_page_numbers r) ++ txt_body r)).
  { unfold txt_body. case_bool_decide; by apply upto_write. }
  eapply (upto_bind _ _ _ _ _ last); [apply upto_lift|].
  apply upto_when.
  - intros ->. eapply upto_eq; [by apply upto_write|].
    by rewrite !str_app_assoc.
  - intros ->. by rewrite !str_app_assoc, str_app_nil_r.
Qed.

Lemma txt_pages_upto last l : forall before,
  py_max (keys ocr_results) = Return last ->
  (forall i, i ∈ l -> i ∈ sorted (keys ocr_results)) ->
  StronglySorted Nat.le l -> NoDup l ->
  (forall i, i ∈ l -> i <= last) ->
  (l <> [] -> last ∈ l) ->
  appends_upto path before
    (before ++ String.concat page_separator
                 (txt_page_text include_page_numbers
                  <$> omap (fun i => ocr_results !! i) l))
    (for_each (txt_page raises ocr_results path include_page_numbers page_separator) l)
    tt.
Proof.
  induction l as [|i l IH]; intros before Hlast Hkeys Hsorted Hnodup Hle Hin.
  - eapply upto_eq; [apply upto_ret|]. simpl. by rewrite str_app_nil_r.
  - destruct (key_in_dictionary ocr_results i) as (r & Hr & _); [apply Hkeys; left|].
    apply StronglySorted_inv in Hsorted as [Hsorted Hall].
    apply NoDup_cons in Hnodup as [Hnotin Hnodup].
    rewrite (results_in_order_cons ocr_results i _ r Hr). simpl for_each.
    eapply upto_bind; [by apply (txt_page_upto before i r last)|].
    destruct l as [|j l].
    + assert (i = last) as ->.
      { specialize (Hin ltac:(done)). by apply list_elem_of_singleton in Hin. }
      rewrite bool_decide_eq_false_2 by lia.
      eapply upto_eq; [apply upto_ret|].
      simpl. by rewrite !str_app_nil_r.
    + assert (i < last) as Hlt.
      { assert (last ∈ j :: l) as Hl.
        { specialize (Hin ltac:(done)). apply elem_of_cons in Hin as [Heq|Hl]; [|done].
          exfalso. apply Hnotin.
          rewrite Forall_forall in Hall.
          assert (i <= j) by (apply Hall; left).
          assert (j <= last) by (apply Hle; right; left).
          replace i with j by lia. left. }
        rewrite Forall_forall in Hall. specialize (Hall last Hl).
        assert (i <> last) by (intros ->; by apply Hnotin). lia. }
      rewrite bool_decide_eq_true_2 by done.
      eapply upto_eq.
      { apply IH; [done| | | | |].
        - intros k Hk. apply Hkeys. by right.
        - done.
        - done.
        - intros k Hk. apply Hle. by right.
        - intros _. specialize (Hin ltac:(done)).
          apply elem_of_cons in Hin as [Heq|Hl]; [lia|done]. }
      destruct (key_in_dictionary ocr_results j) as (rj & Hrj & _);
        [apply Hkeys; right; left|].
      rewrite (results_in_order_cons ocr_results j _ rj Hrj), !fmap_cons, join_cons.
      by rewrite !str_app_assoc.
Qed.

(** The beginning of a string is an initial part of it. *)
Lemma substring_initial (n : nat) : forall content,
  exists rest, content = String.substring 0 n content ++ rest.
Proof.
  induction n as [|n IH]; intros [|c content].
  - by exists "".
  - by exists (String c content).
  - by exists "".
  - destruct (IH content) as [rest Hrest]. exists rest.
    change (String c content = String c (String.substring 0 n content ++ rest)).
    by rewrite <- Hrest.
Qed.

(** The [with] block, whatever its file calls do: when [open] raises nothing
    has happened to the files; otherwise the file holds an initial part of
    what the body appends, and all of it when the block returns. *)
Lemma with_open_w_upto after (body : Py fstate unit) s :
  appends_upto path "" after body tt ->
  exists o s',
    with_open_w raises flushed path body s = (o, s')
    /\ match raises (log s) (FileIO (OpenForWriting path)) with
       | Some _ => (exists e, o = Raise e) /\ files s' = files s
       | None =>
           exists written rest,
             files s' !! path = Some (TextFile written)
             /\ after = written ++ rest
             /\ ((o = Return tt /\ rest = "") \/ exists e, o = Raise e)
       end.
Proof.
  intros Hbody. unfold with_open_w.
  unfold mbind at 1, Py_bind at 1, bind at 1.
  unfold open_w at 1, call at 1, modify at 1. unfold mbind at 1, Py_bind at 1, bind at 1.
  destruct (raises (log s) (FileIO (OpenForWriting path))) as [e|].
  { eexists _, _. split; [reflexivity|]. split; [by eexists|done]. }
  set (s0 := FState (<[path := TextFile ""]> (files s))
                    (log s ++ [FileIO (OpenForWriting path)]) (pdf s) (story s)).
  destruct (Hbody s0 (lookup_insert_eq _ _ _))
    as (o & s1 & written & rest & Hrun & Hs1 & Hfull & Ho).
  change (body _) with (body s0). rewrite Hrun.
  change ("" ++ written) with written in Hs1.
  change ("" ++ written ++ rest) with (written ++ rest) in Hfull.
  unfold close, raise, mbind, Py_bind, bind, mret, Py_ret, ret.
  destruct (raises (log s1) (FileIO (Close path))) as [e'|].
  - destruct (substring_initial (flushed path written) written) as [lost Hlost].
    destruct Ho as [[-> Hnone]|[e ->]]; simpl;
      (eexists _, _; split; [reflexivity|]);
      exists (String.substring 0 (flushed path written) written), (lost ++ rest);
      simpl; rewrite lookup_alter_eq, Hs1; simpl;
      (split; [done|]); (split; [by rewrite Hfull, <- str_app_assoc, <- Hlost|]);
      right; by eexists.
  - destruct Ho as [[-> ->]|[e ->]]; simpl;
      (eexists _, _; split; [reflexivity|]).
    + exists written, "". split; [done|]. split; [done|]. by left.
    + exists written, rest. split; [done|]. split; [done|]. right. by eexists.
Qed.

(** X20: for any dictionary and whatever the file calls do, [save_as_txt]
    returns a boolean.  When [open] raises it returns [False] and no file
    has changed.  When [open] succeeds the old content of [output_path] is
    gone: the file holds an initial part of the full text of [txt_of], and
    all of it when [True] is returned. *)
Theorem save_as_txt_partial_file (s : fstate) :
  exists b s',
    save_as_txt raises flushed ocr_results path include_page_numbers page_separator s
    = (Return b, s')
    /\ match raises (log s) (FileIO (OpenForWriting path)) with
       | Some _ => b = false /\ files s' = files s
       | None =>
           exists written rest,
             files s' !! path = Some (TextFile written)
             /\ txt_of ocr_results include_page_numbers page_separator = written ++ rest
             /\ (b = true -> rest = "")
       end.
Proof.
  assert (Hpages : forall before,
    appends_upto path before
      (before ++ String.concat page_separator
                   (txt_page_text include_page_numbers <$> results_in_order ocr_results))
      (for_each (txt_page raises ocr_results path include_page_numbers page_separator)
                (sorted (keys ocr_results))) tt).
  { intros before. unfold results_in_order.
    destruct (sorted (keys ocr_results)) as [|i l] eqn:Hl.
    - eapply upto_eq; [apply upto_ret|]. simpl. by rewrite str_app_nil_r.
    - destruct (py_max_greatest ocr_results i) as (last & Hlast & Hin & Hle);
        [rewrite Hl; left|].
      rewrite <- Hl. apply (txt_pages_upto last); try done.
      + apply keys_Sorted.
      + apply keys_NoDup. }
  assert (Hrest : appends_upto path ""
                    (txt_of ocr_results include_page_numbers page_separator)
    (txt_writes raises ocr_results path include_page_numbers page_separator) tt).
  { unfold txt_writes.
    do 4 (eapply upto_bind; [by apply upto_write|]).
    eapply upto_bind; [apply Hpages|].
    eapply upto_bind; [by apply upto_write|].
    eapply upto_eq; [by apply upto_write|].
    unfold txt_of, txt_header, txt_footer. by rewrite !str_app_assoc. }
  destruct (with_open_w_upto _ _ s Hrest) as (o & s' & Hrun & Hfile).
  unfold save_as_txt, try_except. unfold mbind at 1, Py_bind at 1, bind at 1.
  rewrite Hrun.
  destruct (raises (log s) (FileIO (OpenForWriting path))) as [e|].
  - destruct Hfile as [[e' ->] Hfiles]. by exists false, s'.
  - destruct Hfile as (written & rest & Hs' & Hfull & Ho).
    destruct Ho as [[-> ->]|[e ->]].
    + exists true, s'. split; [done|]. by exists written, "".
    + exists false, s'. split; [done|]. exists written, rest. by repeat split.
Qed.
End TextPartial.

(** ** [FileManager.setup_fonts] *)

Section FontSetup.
Import FileManager.
Variable path_exists : string -> bool.
Variable register_raises : string -> option exn.

Lemma try_font_paths_run paths : forall s,
  exists s' tried,
    try_font_paths path_exists register_raises paths s = (Return tt, s')
    /\ register_calls s' = (register_calls s ++ tried)%list
    /\ tried `prefix_of` List.filter path_exists paths
    /\ (forall before p after,
          tried = (before ++ p :: after)%list -> register_raises p = None -> after = [])
    /\ ((exists p, p ∈ paths /\ path_exists p = true /\ register_raises p = None)
        -> self_korean_font s' = Some "Korean")
    /\ (~ (exists p, p ∈ paths /\ path_exists p = true /\ register_raises p = None)
        -> self_korean_font s' = self_korean_font s).
Proof.
  induction paths as [|font_path rest IH]; intros s.
  - exists s, []. simpl. rewrite app_nil_r.
    repeat split; try done.
    + by intros [] ? ? ?.
    + intros (p & Hp & _). by apply elem_of_nil in Hp.
  - simpl try_font_paths. destruct (path_exists font_path) eqn:Hexists.
    + unfold try_except, register_font, lift, modify, mbind, Py_bind, bind,
        mret, Py_ret, ret.
      destruct (register_raises font_path) as [e|] eqn:Hreg.
      * destruct (IH (Fonts (self_korean_font s) (register_calls s ++ [font_path])))
          as (s' & tried & Hrun & Hcalls & Hall & Hlast & Hsome & Hnone).
        exists s', (font_path :: tried).
        unfold try_except, register_font, lift, modify, mbind, Py_bind, bind,
          mret, Py_ret, ret in Hrun.
        split; [exact Hrun|].
        split; [by rewrite Hcalls; simpl; rewrite <- app_assoc|].
        split; [by simpl; rewrite Hexists; apply prefix_cons|].
        split.
        { intros [|q before] p after Heq Hp; simpl in Heq.
          - injection Heq as <- <-. by rewrite Hreg in Hp.
          - injection Heq as <- Heq. by apply (Hlast before p after). }
        split.
        { intros (p & Hp & Hex & Hok). apply Hsome.
          apply elem_of_cons in Hp as [->|Hp]; [by rewrite Hreg in Hok|eauto]. }
        { intros Hno. rewrite Hnone; [done|].
          intros (p & Hp & Hex & Hok). apply Hno. exists p. split; [by right|done]. }
      * eexists _, [font_path]. split; [reflexivity|]. simpl.
        split; [done|].
        split; [by rewrite Hexists; apply prefix_cons, prefix_nil|].
        split.
        { intros [|q [|q' before]] p after Heq Hp; simpl in Heq; by simplify_eq. }
        split; [done|].
        intros Hno. exfalso. apply Hno. exists font_path. split; [by left|done].
    + destruct (IH s) as (s' & tried & Hrun & Hcalls & Hall & Hlast & Hsome & Hnone).
      exists s', tried. split; [exact Hrun|]. split; [exact Hcalls|].
      split; [by simpl; rewrite Hexists|].
      split; [exact Hlast|].
      split.
      { intros (p & Hp & Hex & Hok). apply Hsome.
        apply elem_of_cons in Hp as [->|Hp]; [by rewrite Hexists in Hex|eauto]. }
      { intros Hno. apply Hnone.
        intros (p & Hp & Hex & Hok). apply Hno. exists p. split; [by right|done]. }
Qed.

(** X21: setting up the fonts never raises.  It tries the four font files
    in their order, only those that exist (the files tried are an initial
    part of the existing ones), and stops at the first one that registers:
    a path that registered is the last one tried.
    [self.korean_font] ends as ['Korean'] exactly when one of the files
    exists and registers, and as [None] exactly when none does, whatever it
    was before. *)
Theorem setup_fonts_first_usable_font (s : fonts) :
  exists s' tried,
    setup_fonts path_exists register_raises s = (Return tt, s')
    /\ register_calls s' = (register_calls s ++ tried)%list
    /\ tried `prefix_of` List.filter path_exists font_paths
    /\ (forall before p after,
          tried = (before ++ p :: after)%list -> register_raises p = None -> after = [])
    /\ (self_korean_font s' = Some "Korean"
        <-> exists p, p ∈ font_paths /\ path_exists p = true /\ register_raises p = None)
    /\ (self_korean_font s' = None
        <-> forall p, p ∈ font_paths -> path_exists p = true -> register_raises p <> None).
Proof.
  destruct (try_font_paths_run font_paths (Fonts None (register_calls s)))
    as (s' & tried & Hrun & Hcalls & Hall & Hlast & Hsome & Hnone).
  exists s', tried.
  split.
  { unfold setup_fonts, try_except, modify. unfold mbind at 1, Py_bind at 1, bind at 1.
    by rewrite Hrun. }
  split; [exact Hcalls|]. split; [exact Hall|]. split; [exact Hlast|].
  destruct (decide (Exists (fun p => path_exists p = true /\ register_raises p = None)
                           font_paths)) as [Hyes|Hno]; rewrite Exists_exists in *.
  - specialize (Hsome Hyes). split; [by split|].
    rewrite Hsome. split; [done|].
    intros Hall'. destruct Hyes as (p & Hp & Hex & Hok). by destruct (Hall' p Hp Hex).
  - specialize (Hnone Hno). simpl in Hnone. rewrite Hnone.
    split; [split; [done|by intros ?]|].
    split; [|done]. intros _ p Hp Hex Hok. apply Hno. eauto.
Qed.
End FontSetup.
